(** * Restaurant finder: search aggregation, location resolution, AI analysis

    A shallow embedding of the Python sources

      - [main.py]                         (endpoints, geodesy, sorting)
      - [location_service.py]             (location resolver)
      - [ai_analysis_service.py]          (analysis engine, first version)
      - [backend/ai_analysis_service.py]  (analysis engine, second version)

    Python [float] is IEEE-754 binary64 and is modelled by Rocq's primitive
    [float]; Python [int] is [Z]; [dict]s with string keys are [gmap string];
    exceptions are an explicit [result] type.  The C library functions behind
    [math.sin], [math.cos], [math.asin] and [pow] (class [Libm], with the laws
    of [LibmLaws]), the built-in conversions between [str] and [float], the
    string methods outside ASCII, the interpreter's bound on the digits of an
    integer conversion, JSON decoding (class [PyBuiltins]), the model
    constructor of pydantic where it
    meets an unvalidated payload (class [Pydantic]) and the answers of the
    remote services are not part of the repository: they are parameters of
    the model.  Concrete runs use the reference C library of [RefLibm].

    The file has two parts: the embedding of the sources, then their
    properties. *)

From Stdlib Require Import ZArith List String Ascii Bool Lia Floats.
From stdpp Require Import gmap strings pretty sorting.
Import ListNotations.

Set Warnings "-inexact-float,-register-all".
Local Open Scope Z_scope.

(** ** Python runtime: exceptions, values, numbers *)

Module Py.

(** The exceptions the sources can meet.  [HTTPException] is FastAPI's, with
    its status code and detail; [HTTPError] is httpx's base class (transport
    errors and [raise_for_status]). *)
Inductive exn : Type :=
| ValueError
| TypeError
| OverflowError
| AttributeError
| ValidationError
| JSONDecodeError
| HTTPError
| HTTPException (status_code : Z) (detail : string).

Inductive result (A : Type) : Type :=
| Ok (a : A)
| Raise (e : exn).

Arguments Ok {A} a.
Arguments Raise {A} e.

Definition bind {A B : Type} (r : result A) (k : A -> result B) : result B :=
  match r with
  | Ok a => k a
  | Raise e => Raise e
  end.

Definition is_ok {A : Type} (r : result A) : bool :=
  match r with Ok _ => true | Raise _ => false end.

(** A Python object as it comes out of [json.loads] or is kept in a
    [Dict[str, Any]]. *)
Inductive value : Type :=
| VNone
| VBool (b : bool)
| VInt (z : Z)
| VFloat (f : float)
| VStr (s : string)
| VList (l : list value)
| VDict (d : gmap string value).

(** [isinstance(v, T)] for the types the sources test.  [bool] is a subclass
    of [int]. *)
Definition isinstance_str (v : value) : bool :=
  match v with VStr _ => true | _ => false end.

Definition isinstance_list (v : value) : bool :=
  match v with VList _ => true | _ => false end.

Definition isinstance_dict (v : value) : bool :=
  match v with VDict _ => true | _ => false end.

Definition isinstance_int (v : value) : bool :=
  match v with VInt _ | VBool _ => true | _ => false end.

(** [d.get(k, default)] *)
Definition dict_get (d : gmap string value) (k : string) (default : value) : value :=
  match d !! k with
  | Some v => v
  | None => default
  end.

(** *** Floats *)

(** Python's [int -> float] conversion: the nearest binary64 value, ties to
    even, and [OverflowError] when there is none. *)
Definition float_of_int (z : Z) : result float :=
  match binary_normalize prec emax z 0 false with
  | S754_infinity _ => Raise OverflowError
  | sf => Ok (SF2Prim sf)
  end.

(** [int(x)] on a float: truncation towards zero; NaN and the infinities
    have no integer value. *)
Definition int_of_float (x : float) : result Z :=
  match Prim2SF x with
  | S754_nan => Raise ValueError
  | S754_infinity _ => Raise OverflowError
  | S754_zero _ => Ok 0
  | S754_finite s m e => Ok (cond_Zopp s (Z.shiftl (Z.pos m) e))
  end.

(** [round(x)] on a float, to an integer: nearest, ties to even. *)
Definition round_half_even (num den : Z) : Z :=
  let q := num / den in
  let r := num mod den in
  match (2 * r ?= den) with
  | Lt => q
  | Gt => q + 1
  | Eq => if Z.even q then q else q + 1
  end.

Definition round_to_int (x : float) : result Z :=
  match Prim2SF x with
  | S754_nan => Raise ValueError
  | S754_infinity _ => Raise OverflowError
  | S754_zero _ => Ok 0
  | S754_finite s m e =>
      Ok (cond_Zopp s
            (if 0 <=? e then Z.shiftl (Z.pos m) e
             else round_half_even (Z.pos m) (2 ^ (- e))))
  end.

(** [round(x, 2)]: the exact binary value of [x] is rounded to two decimals
    (ties to even) and the decimal result is converted back to the nearest
    float.  Values of magnitude [2^52] or more are integers and are returned
    unchanged, as are zeros, infinities and NaN. *)
Definition nearest_quotient (s : bool) (n d : Z) : float :=
  match n with
  | Z0 => if s then neg_zero else zero
  | _ =>
      let '(mz, ez, lz) := SFdiv_core_binary prec emax n 0 d 0 in
      SF2Prim (binary_round_aux prec emax s mz ez lz)
  end.

Definition round2 (x : float) : float :=
  match Prim2SF x with
  | S754_finite s m e =>
      if 0 <=? e then x
      else nearest_quotient s (round_half_even (Z.pos m * 100) (2 ^ (- e))) 100
  | _ => x
  end.

(** Exact comparison of an integer with a float, as Python compares them. *)
Definition Z_SF_compare (z : Z) (f : spec_float) : option comparison :=
  match f with
  | S754_nan => None
  | S754_infinity s => Some (if s then Gt else Lt)
  | S754_zero _ => Some (z ?= 0)
  | S754_finite s m e =>
      let v := cond_Zopp s (Z.pos m) in
      Some (if 0 <=? e then z ?= v * 2 ^ e else z * 2 ^ (- e) ?= v)
  end.

(** A JSON number: [json.loads] yields [int] for an integer literal and
    [float] otherwise. *)
Inductive number : Type :=
| NInt (z : Z)
| NFloat (f : float).

Definition number_compare (a b : number) : option comparison :=
  match a, b with
  | NInt x, NInt y => Some (x ?= y)
  | NInt x, NFloat g => Z_SF_compare x (Prim2SF g)
  | NFloat f, NInt y => option_map CompOpp (Z_SF_compare y (Prim2SF f))
  | NFloat f, NFloat g => SFcompare (Prim2SF f) (Prim2SF g)
  end.

(** [a >= b] on numbers; false when one side is NaN. *)
Definition number_ge (a b : number) : bool :=
  match number_compare a b with
  | Some Gt | Some Eq => true
  | _ => false
  end.

(** The float a number is coerced to (by pydantic for a [float] field, by
    the [math] functions for their arguments). *)
Definition number_to_float (n : number) : result float :=
  match n with
  | NInt z => float_of_int z
  | NFloat f => Ok f
  end.

Definition number_to_value (n : number) : value :=
  match n with
  | NInt z => VInt z
  | NFloat f => VFloat f
  end.

(** The numeric reading of a value in an arithmetic or ordering context:
    numbers and booleans have one, everything else raises [TypeError]. *)
Definition value_number (v : value) : result number :=
  match v with
  | VInt z => Ok (NInt z)
  | VBool b => Ok (NInt (if b then 1 else 0))
  | VFloat f => Ok (NFloat f)
  | _ => Raise TypeError
  end.

(** [min(a, b)] and [max(a, b)] on floats: the first argument is kept unless
    the second is strictly smaller (resp. larger). *)
Definition float_min (a b : float) : float :=
  if PrimFloat.ltb b a then b else a.

Definition float_max (a b : float) : float :=
  if PrimFloat.ltb a b then b else a.

(** *** Strings *)

(** A string of ASCII characters only.  What [isdigit], [int] and [lower]
    do on such a string is written out below; on any other string it
    depends on the Unicode tables of the interpreter (see [PyBuiltins]). *)
Definition is_ascii (s : string) : bool :=
  forallb (λ c, (N_of_ascii c <? 128)%N) (list_ascii_of_string s).

Definition is_ascii_digit (c : ascii) : bool :=
  let n := N_of_ascii c in (48 <=? n)%N && (n <=? 57)%N.

(** [s.isdigit()] on an ASCII string. *)
Definition isdigit (s : string) : bool :=
  match s with
  | EmptyString => false
  | _ => forallb is_ascii_digit (list_ascii_of_string s)
  end.

(** The number a string of ASCII decimal digits writes. *)
Definition int_of_digits (s : string) : Z :=
  fold_left (fun acc c => 10 * acc + (Z.of_N (N_of_ascii c) - 48))
            (list_ascii_of_string s) 0.

Definition lower_ascii (c : ascii) : ascii :=
  let n := N_of_ascii c in
  if (65 <=? n)%N && (n <=? 90)%N then ascii_of_N (n + 32) else c.

(** [s.lower()] on an ASCII string. *)
Definition lower (s : string) : string :=
  string_of_list_ascii (map lower_ascii (list_ascii_of_string s)).

(** The decimal string of an integer: what [str(z)] and an f-string give
    when the interpreter accepts the conversion (see [py_str_int]). *)
Definition str_of_int (z : Z) : string := pretty z.

(** The integers with more than [m] decimal digits, for [m] at least 1; the
    sign is not counted. *)
Definition more_digits_than (m : N) (z : Z) : bool :=
  10 ^ Z.of_N m <=? Z.abs z.

(** CPython converts up to this many digits whatever the bound is
    ([_PY_LONG_MAX_STR_DIGITS_THRESHOLD]). *)
Definition str_digits_threshold : N := 640.

End Py.

Import Py.

#[global] Instance result_bind : MBind result := λ A B k r, Py.bind r k.
#[global] Instance result_ret : MRet result := @Py.Ok.

(** ** The C library behind Python's [math] module

    [math.sin], [math.cos], [math.asin] and the [pow] behind [**] are the
    platform's; the model is parametric in them. *)

Class Libm : Type := {
  c_sin : float → float;
  c_cos : float → float;
  c_asin : float → float;
  (** [c_pow2 x] is the C call [pow(x, 2.0)] *)
  c_pow2 : float → float
}.

(** Laws of the C library used below.  C11 Annex F fixes the values at zero;
    the usual implementations have an odd [sin] that is never infinite, a
    [cos] of magnitude at most one, and a [pow] that gives no NaN on a finite
    base with exponent 2. *)
Class LibmLaws (L : Libm) : Prop := {
  sin_zero : c_sin 0 = 0%float;
  asin_zero : c_asin 0 = 0%float;
  sin_odd : ∀ x, c_sin (- x) = (- c_sin x)%float;
  sin_not_infinite : ∀ x, PrimFloat.is_infinity (c_sin x) = false;
  cos_bounded : ∀ x, PrimFloat.is_finite x = true → PrimFloat.leb (abs (c_cos x)) 1 = true;
  pow2_not_nan : ∀ x, PrimFloat.is_finite x = true → PrimFloat.is_nan (c_pow2 x) = false
}.

Module Math.
Section WithLibm.
Context {L : Libm}.

Local Open Scope float_scope.

(** CPython's wrapper around a one-argument C function ([math_1] with
    [can_overflow = 0]): a NaN result for a non-NaN argument, or an infinite
    result for a finite argument, is a [ValueError].  The C library's [errno]
    is not modelled. *)
Definition math_1 (func : float → float) (x : float) : result float :=
  let r := func x in
  if PrimFloat.is_nan r && negb (PrimFloat.is_nan x) then Raise ValueError
  else if PrimFloat.is_infinity r && PrimFloat.is_finite x then Raise ValueError
  else Ok r.

Definition sin : float → result float := math_1 c_sin.
Definition cos : float → result float := math_1 c_cos.
Definition asin : float → result float := math_1 c_asin.
Definition sqrt : float → result float := math_1 PrimFloat.sqrt.

(** [math.pi] and the constant [math.radians] multiplies by,
    [pi / 180.0] computed in binary64. *)
Definition pi : float := 0x1.921fb54442d18p+1.
Definition degToRad : float := pi / 180.

Definition radians (x : float) : float := x * degToRad.

(** [x ** 2] on a float (CPython's [float_pow] with exponent [2.0]): NaN,
    infinities, zero and [±1] are answered without the C library; otherwise
    [pow] is called on [|x|], and an infinite result is an
    [OverflowError]. *)
Definition pow2 (x : float) : result float :=
  if PrimFloat.is_nan x then Ok x
  else if PrimFloat.is_infinity x then Ok (abs x)
  else if x =? 0 then Ok 0
  else if abs x =? 1 then Ok 1
  else
    let r := c_pow2 (abs x) in
    if PrimFloat.is_infinity r then Raise OverflowError else Ok r.

End WithLibm.
End Math.

(** A reference C library, used to run the model on concrete inputs:
    truncated Taylor series evaluated in binary64.  It satisfies
    [LibmLaws]. *)
Module RefLibm.

Local Open Scope float_scope.

(** [1 - x2/((2k-1+o)(2k+o)) * (1 - x2/(...) * ...)], innermost factor at
    [k = n]. *)
Fixpoint nested (o : float) (x2 : float) (k : float) (n : nat) : float :=
  match n with
  | O => 1
  | S n' => 1 - x2 / ((2 * k - 1 + o) * (2 * k + o)) * nested o x2 (k + 1) n'
  end.

(** Far from zero the truncated series are of no use.  A sine or cosine is
    never above one in magnitude: where the series is, the reference sine is
    NaN ([math.sin] then raises) and the reference cosine is 1. *)
Definition ref_sin (x : float) : float :=
  let r := x * nested 1 (x * x) 1 16 in
  if abs r <=? 1 then r else nan.

Definition ref_cos (x : float) : float :=
  let r := nested 0 (x * x) 1 16 in
  if abs r <=? 1 then r else 1.

(** [asin x = x + (1/2) x^3/3 + (1*3)/(2*4) x^5/5 + ...], summed term by
    term on [|x| <= 1/2]; the half-angle identity brings larger arguments
    there. *)
Fixpoint asin_series (x2 : float) (coef pw : float) (k : float) (n : nat) : float :=
  match n with
  | O => 0
  | S n' =>
      coef * pw / (2 * k + 1)
      + asin_series x2 (coef * (2 * k + 1) / (2 * k + 2)) (pw * x2) (k + 1) n'
  end.

Definition asin_small (x : float) : float := asin_series (x * x) 1 x 0 40.

Definition ref_asin (x : float) : float :=
  if abs x <=? 0.5 then asin_small x
  else if abs x <=? 1 then
    let r := Math.pi / 2 - 2 * asin_small (PrimFloat.sqrt ((1 - abs x) / 2)) in
    if x <? 0 then - r else r
  else nan.

#[export] Instance ref_libm : Libm := {|
  c_sin := ref_sin;
  c_cos := ref_cos;
  c_asin := ref_asin;
  c_pow2 := fun x => x * x
|}.

End RefLibm.

(** ** [main.py]: geodesy, search results, the search endpoint *)

Module Main.

(** Constants of the module. *)
Definition METERS_PER_MILE : float := 1609.34.
Definition MAX_RADIUS_MILES : Z := 10.
Definition GOOGLE_PLACES_BASE_URL : string := "https://maps.googleapis.com/maps/api/place".

(** A raw place record of the upstream search response; every key may be
    absent. *)
Record photo : Type := { photo_reference : option string }.
Record location : Type := { lat : option number; lng : option number }.
Record geometry : Type := { g_location : option location }.

Record place : Type := {
  p_place_id : option string;
  p_name : option string;
  p_vicinity : option string;
  p_geometry : option geometry;
  p_rating : option number;
  p_user_ratings_total : option Z;
  p_price_level : option Z;
  p_types : option (list string);
  p_photos : option (list photo)
}.

(** [class Restaurant(BaseModel)] *)
Record Restaurant : Type := {
  place_id : string;
  name : string;
  address : string;
  latitude : float;
  longitude : float;
  rating : option float;
  total_ratings : option Z;
  price_level : option Z;
  cuisine_types : list string;
  phone : option string;
  website : option string;
  opening_hours : option (gmap string value);
  photos : list string;
  distance_miles : option float
}.

(** [class RestaurantSearchResponse(BaseModel)]; the wall-clock [timestamp]
    is left out. *)
Record RestaurantSearchResponse : Type := {
  restaurants : list Restaurant;
  total_found : Z;
  search_location : float * float;
  radius_miles : float
}.

Section WithLibm.
Context {L : Libm}.

(** [calculate_distance]: haversine distance in miles. *)
Definition calculate_distance (lat1 lon1 lat2 lon2 : float) : result float :=
  let R := 3959%float in
  let lat1_rad := Math.radians lat1 in
  let lon1_rad := Math.radians lon1 in
  let lat2_rad := Math.radians lat2 in
  let lon2_rad := Math.radians lon2 in
  let dlat := (lat2_rad - lat1_rad)%float in
  let dlon := (lon2_rad - lon1_rad)%float in
  s1 ← Math.sin (dlat / 2);
  p1 ← Math.pow2 s1;
  c1 ← Math.cos lat1_rad;
  c2 ← Math.cos lat2_rad;
  s2 ← Math.sin (dlon / 2);
  p2 ← Math.pow2 s2;
  let a := (p1 + c1 * c2 * p2)%float in
  q ← Math.sqrt a;
  r ← Math.asin q;
  let c := (2 * r)%float in
  Ok (R * c)%float.

(** The value of the module-level [GOOGLE_PLACES_API_KEY] as an f-string
    prints it. *)
Definition str_of_key (key : option string) : string :=
  match key with Some k => k | None => "None" end.

Definition photo_url (key : option string) (photo_ref : string) : string :=
  GOOGLE_PLACES_BASE_URL +:+ "/photo?maxwidth=400&photoreference=" +:+ photo_ref
    +:+ "&key=" +:+ str_of_key key.

(** The photo loop: the first three entries, those with a non-empty
    reference. *)
Definition extract_photos (key : option string) (place_data : place) : list string :=
  match p_photos place_data with
  | None => []
  | Some ps =>
      omap (fun ph => match photo_reference ph with
                      | Some ref => if String.eqb ref "" then None else Some (photo_url key ref)
                      | None => None
                      end)
           (firstn 3 ps)
  end.

Definition opt_number_to_float (n : option number) : result (option float) :=
  match n with
  | None => Ok None
  | Some x => f ← number_to_float x; Ok (Some f)
  end.

(** [format_restaurant_data].  Coordinates default to the integer [0];
    they reach [math.radians] and the [float] fields of the model as floats. *)
Definition format_restaurant_data (key : option string) (place_data : place)
    (user_lat user_lng : float) : result Restaurant :=
  let geometry := default {| g_location := None |} (p_geometry place_data) in
  let location := default {| lat := None; lng := None |} (g_location geometry) in
  let restaurant_lat := default (NInt 0) (lat location) in
  let restaurant_lng := default (NInt 0) (lng location) in
  rlat ← number_to_float restaurant_lat;
  rlng ← number_to_float restaurant_lng;
  distance ← calculate_distance user_lat user_lng rlat rlng;
  let photos := extract_photos key place_data in
  rating ← opt_number_to_float (p_rating place_data);
  Ok {| place_id := default "" (p_place_id place_data);
        name := default "Unknown" (p_name place_data);
        address := default "Address not available" (p_vicinity place_data);
        latitude := rlat;
        longitude := rlng;
        rating := rating;
        total_ratings := p_user_ratings_total place_data;
        price_level := p_price_level place_data;
        cuisine_types := default [] (p_types place_data);
        phone := None;
        website := None;
        opening_hours := None;
        photos := photos;
        distance_miles := Some (round2 distance) |}.

(** *** The remote search service *)

(** The JSON body of a search response. *)
Record search_page : Type := {
  status : option string;
  results : option (list place);
  next_page_token : option string
}.

(** What one [client.get] followed by [raise_for_status] and [json] yields:
    a transport failure or an HTTP error status (both [httpx.HTTPError]), a
    body that is not JSON, or a body. *)
Inductive http_reply : Type :=
| TransportError
| StatusError
| InvalidJSON
| Reply (data : search_page).

Definition http_get (r : http_reply) : result search_page :=
  match r with
  | TransportError | StatusError => Raise HTTPError
  | InvalidJSON => Raise JSONDecodeError
  | Reply d => Ok d
  end.

Definition status_ok (d : search_page) : bool :=
  match status d with
  | Some s => String.eqb s "OK"
  | None => false
  end.

(** Truth value of [next_page_token]: present and not empty. *)
Definition token_truthy (t : option string) : bool :=
  match t with
  | Some s => negb (String.eqb s "")
  | None => false
  end.

Section Search.
Variables (key : option string) (lat lng min_rating : float) (max_results : Z).

(** The loop over one page: stop at the cap, keep a place whose rating
    (0 when absent) reaches [min_rating]. *)
Fixpoint process_page (places : list place) (restaurants : list Restaurant)
    : result (list Restaurant) :=
  match places with
  | [] => Ok restaurants
  | place :: rest =>
      if Z.of_nat (length restaurants) >=? max_results then Ok restaurants
      else if number_ge (default (NInt 0) (p_rating place)) (NFloat min_rating) then
        restaurant ← format_restaurant_data key place lat lng;
        process_page rest (restaurants ++ [restaurant])
      else process_page rest restaurants
  end.

(** The [while next_page_token and len(restaurants) < max_results] loop.
    [replies] are the upstream's answers to the continuation requests, in
    order; [None] means the loop asks for more answers than [replies]
    holds.  The two-second sleep before each request is not modelled. *)
Fixpoint paginate (replies : list http_reply) (token : option string)
    (restaurants : list Restaurant) : option (result (list Restaurant)) :=
  if token_truthy token && (Z.of_nat (length restaurants) <? max_results) then
    match replies with
    | [] => None
    | r :: rest =>
        match http_get r with
        | Raise e => Some (Raise e)
        | Ok data =>
            if negb (status_ok data) then Some (Ok restaurants)
            else
              match process_page (default [] (results data)) restaurants with
              | Raise e => Some (Raise e)
              | Ok restaurants' => paginate rest (next_page_token data) restaurants'
              end
        end
    end
  else Some (Ok restaurants).

(** The body of the [try] block: the initial request, then the loop. *)
Definition search_pages (first : http_reply) (more : list http_reply)
    : option (result (list Restaurant)) :=
  match http_get first with
  | Raise e => Some (Raise e)
  | Ok data =>
      if negb (status_ok data) then
        Some (Raise (HTTPException 400
               ("Google Places API error: " +:+ default "Unknown error" (status data))))
      else
        match process_page (default [] (results data)) [] with
        | Raise e => Some (Raise e)
        | Ok restaurants => paginate more (next_page_token data) restaurants
        end
  end.

End Search.

(** The two [except] clauses: [httpx.HTTPError] first, then every other
    exception, the [HTTPException] raised inside the [try] included. *)
Definition handle_errors {A : Type} (r : result A) : result A :=
  match r with
  | Ok a => Ok a
  | Raise HTTPError => Raise (HTTPException 500 "Failed to fetch restaurant data")
  | Raise _ => Raise (HTTPException 500 "Internal server error")
  end.

(** *** Sorting *)

(** [r.distance_miles or 999] and [-(r.rating or 0)]: [None] and zero are
    both false.  The integers 999 and 0 are exact as floats, so the keys
    compare as floats. *)
Definition key_distance (r : Restaurant) : float :=
  match distance_miles r with
  | Some d => if PrimFloat.eqb d 0 then 999 else d
  | None => 999
  end.

Definition key_rating (r : Restaurant) : float :=
  match rating r with
  | Some x => if PrimFloat.eqb x 0 then 0 else (- x)
  | None => 0
  end.

Definition sort_key (r : Restaurant) : float * float := (key_distance r, key_rating r).

(** [a < b] on two-element tuples: the first differing component
    decides. *)
Definition key_lt (a b : float * float) : bool :=
  if negb (PrimFloat.eqb (fst a) (fst b)) then PrimFloat.ltb (fst a) (fst b)
  else if negb (PrimFloat.eqb (snd a) (snd b)) then PrimFloat.ltb (snd a) (snd b)
  else false.

(** [list.sort(key=...)] is a stable sort; on keys without NaN every stable
    sort returns the same list.  Stable insertion: an element goes before
    the first one it is strictly below. *)
Fixpoint insert_by_key (r : Restaurant) (sorted : list Restaurant) : list Restaurant :=
  match sorted with
  | [] => [r]
  | y :: rest =>
      if key_lt (sort_key r) (sort_key y) then r :: y :: rest
      else y :: insert_by_key r rest
  end.

Definition sort_restaurants (rs : list Restaurant) : list Restaurant :=
  fold_left (fun acc r => insert_by_key r acc) rs [].

(** *** [find_restaurants] *)

Definition key_configured (key : option string) : bool :=
  match key with
  | Some k => negb (String.eqb k "")
  | None => false
  end.

Definition find_restaurants (key : option string) (lat lng radius min_rating : float)
    (max_results : Z) (first : http_reply) (more : list http_reply)
    : option (result RestaurantSearchResponse) :=
  if negb (key_configured key) then
    Some (Raise (HTTPException 500 "Google Places API key not configured"))
  else
    match int_of_float (radius * METERS_PER_MILE) with
    | Raise e => Some (Raise e)
    | Ok radius_meters =>
        match search_pages key lat lng min_rating max_results first more with
        | None => None
        | Some r =>
            Some (restaurants ← handle_errors r;
                  let restaurants := sort_restaurants restaurants in
                  Ok {| restaurants := restaurants;
                        total_found := Z.of_nat (length restaurants);
                        search_location := (lat, lng);
                        radius_miles := radius |})
        end
    end.

End WithLibm.
End Main.

(** ** [location_service.py]: the location resolver *)

Module LocationService.

(** [class LocationData(BaseModel)] *)
Record LocationData : Type := {
  latitude : float;
  longitude : float;
  accuracy : option float;
  city : option string;
  state : option string;
  country : option string;
  zip_code : option string;
  source : string
}.

(** What a request to a remote service yields, for a body of type [A]. *)
Inductive http_reply (A : Type) : Type :=
| TransportError
| StatusError
| InvalidJSON
| Reply (data : A).

Arguments TransportError {A}.
Arguments StatusError {A}.
Arguments InvalidJSON {A}.
Arguments Reply {A} data.

(** The geocoding service's body. *)
Record address_component : Type := {
  types : option (list string);
  long_name : option string;
  short_name : option string
}.

Record geocode_result : Type := {
  formatted_address : option string;
  result_place_id : option string;
  geometry_location : option (option number * option number);
  address_components : option (list address_component)
}.

Record geocode_body : Type := {
  geocode_status : option string;
  geocode_results : option (list geocode_result)
}.

(** The IP geolocation service's body. *)
Record ip_body : Type := {
  ip_error : bool;
  ip_latitude : option number;
  ip_longitude : option number;
  ip_city : option string;
  ip_region : option string;
  ip_country_name : option string;
  ip_postal : option string
}.

Definition key_configured (key : option string) : bool :=
  match key with
  | Some k => negb (String.eqb k "")
  | None => false
  end.

Definition status_ok (body : geocode_body) : bool :=
  match geocode_status body with
  | Some s => String.eqb s "OK"
  | None => false
  end.

(** [data.get("results")] when it is true (present and not empty). *)
Definition nonempty_results (body : geocode_body) : option (geocode_result * list geocode_result) :=
  match geocode_results body with
  | Some (r :: rs) => Some (r, rs)
  | _ => None
  end.

(** [get_location_from_ip]: every exception is caught and gives [None]. *)
Definition get_location_from_ip (reply : http_reply ip_body) : option LocationData :=
  match reply with
  | Reply data =>
      if ip_error data then None
      else
        match number_to_float (default (NInt 0) (ip_latitude data)),
              number_to_float (default (NInt 0) (ip_longitude data)) with
        | Ok la, Ok lo =>
            Some {| latitude := la;
                    longitude := lo;
                    accuracy := None;
                    city := ip_city data;
                    state := ip_region data;
                    country := ip_country_name data;
                    zip_code := ip_postal data;
                    source := "ip" |}
        | _, _ => None
        end
  | _ => None
  end.

(** The loop over the address components: the first matching type keyword
    of a component decides which field it sets; later components overwrite
    earlier ones. *)
Definition has_type (t : string) (c : address_component) : bool :=
  existsb (String.eqb t) (default [] (types c)).

Definition component_step
    (acc : option string * option string * option string * option string)
    (c : address_component)
    : option string * option string * option string * option string :=
  let '(city, state, country, zip_code) := acc in
  if has_type "locality" c then (long_name c, state, country, zip_code)
  else if has_type "administrative_area_level_1" c then (city, short_name c, country, zip_code)
  else if has_type "country" c then (city, state, long_name c, zip_code)
  else if has_type "postal_code" c then (city, state, country, long_name c)
  else acc.

(** [geocode_address] *)
Definition geocode_address (key : option string) (address : string)
    (reply : http_reply geocode_body) : option LocationData :=
  if negb (key_configured key) then None
  else
    match reply with
    | Reply data =>
        if negb (status_ok data) then None
        else
          match nonempty_results data with
          | None => None
          | Some (result, _) =>
              match geometry_location result with
              | Some (Some la, Some lo) =>
                  let components := default [] (address_components result) in
                  let '(city, state, country, zip_code) :=
                    fold_left component_step components (None, None, None, None) in
                  match number_to_float la, number_to_float lo with
                  | Ok la, Ok lo =>
                      Some {| latitude := la;
                              longitude := lo;
                              accuracy := None;
                              city := city;
                              state := state;
                              country := country;
                              zip_code := zip_code;
                              source := "geocoded_address" |}
                  | _, _ => None
                  end
              | _ => None
              end
          end
    | _ => None
    end.

(** [reverse_geocode]: the dictionary it returns has exactly the keys
    ["formatted_address"] and ["place_id"]. *)
Definition reverse_geocode (key : option string) (lat lng : float)
    (reply : http_reply geocode_body) : option (gmap string string) :=
  if negb (key_configured key) then None
  else
    match reply with
    | Reply data =>
        if negb (status_ok data) then None
        else
          match nonempty_results data with
          | None => None
          | Some (result, _) =>
              Some (<["formatted_address" := default "" (formatted_address result)]>
                    (<["place_id" := default "" (result_place_id result)]> ∅))
          end
    | _ => None
    end.

(** Truth value of a dictionary: it is not empty. *)
Definition dict_truthy (d : gmap string string) : bool :=
  negb (bool_decide (d = ∅)).

(** The replies the three remote services would give, each read only if the
    resolver calls that service. *)
Record services : Type := {
  reverse_reply : http_reply geocode_body;
  geocode_reply : http_reply geocode_body;
  ip_reply : http_reply ip_body
}.

(** [get_user_location] *)
Definition get_user_location (key : option string) (svc : services)
    (ip_address address : option string) (lat lng : option float)
    : option LocationData :=
  match lat, lng with
  | Some lat, Some lng =>
      let address_info := reverse_geocode key lat lng (reverse_reply svc) in
      Some {| latitude := lat;
              longitude := lng;
              accuracy := None;
              city := match address_info with
                      | Some info => if dict_truthy info then info !! "city" else None
                      | None => None
                      end;
              state := None;
              country := None;
              zip_code := None;
              source := "user_provided" |}
  | _, _ =>
      let geocoded :=
        match address with
        | Some a => if String.eqb a "" then None else geocode_address key a (geocode_reply svc)
        | None => None
        end in
      match geocoded with
      | Some location => Some location
      | None => get_location_from_ip (ip_reply svc)
      end
  end.

(** [validate_coordinates] *)
Definition validate_coordinates (lat lng : float) : bool :=
  (PrimFloat.leb (-90) lat && PrimFloat.leb lat 90
   && (PrimFloat.leb (-180) lng && PrimFloat.leb lng 180))%float.

Section WithLibm.
Context {L : Libm}.

(** [LocationService.calculate_distance], the same text as
    [main.calculate_distance]. *)
Definition calculate_distance (lat1 lon1 lat2 lon2 : float) : result float :=
  let R := 3959%float in
  let lat1_rad := Math.radians lat1 in
  let lon1_rad := Math.radians lon1 in
  let lat2_rad := Math.radians lat2 in
  let lon2_rad := Math.radians lon2 in
  let dlat := (lat2_rad - lat1_rad)%float in
  let dlon := (lon2_rad - lon1_rad)%float in
  s1 ← Math.sin (dlat / 2);
  p1 ← Math.pow2 s1;
  c1 ← Math.cos lat1_rad;
  c2 ← Math.cos lat2_rad;
  s2 ← Math.sin (dlon / 2);
  p2 ← Math.pow2 s2;
  let a := (p1 + c1 * c2 * p2)%float in
  q ← Math.sqrt a;
  r ← Math.asin q;
  let c := (2 * r)%float in
  Ok (R * c)%float.

End WithLibm.
End LocationService.

(** ** Built-ins and libraries outside the repository

    [repr] of a float and of a container, [float(str)], [json.loads], the
    coercion pydantic applies to a non-string element of a [List[str]]
    field, the bound the interpreter puts on the digits of a conversion
    between [int] and [str], and [isdigit], [int] and [lower] on a string
    with a character outside ASCII are parameters. *)

Class PyBuiltins : Type := {
  float_repr : float → string;
  container_repr : value → string;
  (** [sys.get_int_max_str_digits()]: 4300 by default since CPython 3.11,
      0 where there is no bound *)
  int_max_str_digits : N;
  (** [s.isdigit()] on a string that is not ASCII *)
  unicode_isdigit : string → bool;
  (** [int(s)] on a string that is not ASCII; [None] stands for [ValueError] *)
  unicode_int : string → option Z;
  (** [s.lower()] on a string that is not ASCII *)
  unicode_lower : string → string;
  (** [float(s)]; [None] stands for [ValueError] *)
  float_of_str : string → option float;
  (** [json.loads(s)]; [None] stands for [JSONDecodeError] *)
  json_loads : string → option value;
  (** pydantic on a non-string element of a [List[str]]; [None] stands for a
      validation error *)
  coerce_to_str : value → option string
}.

Section Builtins.
Context {B : PyBuiltins}.

(** The conversions between [int] and [str] refuse, with [ValueError], a
    number of more than [int_max_str_digits] digits, when that bound is not 0
    and the number has more than [str_digits_threshold] digits. *)
Definition str_refused (z : Z) : bool :=
  more_digits_than str_digits_threshold z
  && (0 <? int_max_str_digits)%N
  && more_digits_than int_max_str_digits z.

Definition int_refused (digits : nat) : bool :=
  (str_digits_threshold <? N.of_nat digits)%N
  && (0 <? int_max_str_digits)%N
  && (int_max_str_digits <? N.of_nat digits)%N.

(** [str(z)] for an integer. *)
Definition py_str_int (z : Z) : result string :=
  if str_refused z then Raise ValueError else Ok (str_of_int z).

(** [s.isdigit()] *)
Definition str_isdigit (s : string) : bool :=
  if is_ascii s then isdigit s else unicode_isdigit s.

(** [int(s)] for a string with [s.isdigit()]: every digit counts for the
    bound, leading zeros too. *)
Definition int_of_isdigit (s : string) : result Z :=
  if is_ascii s then
    if int_refused (String.length s) then Raise ValueError
    else Ok (int_of_digits s)
  else
    match unicode_int s with
    | Some z => Ok z
    | None => Raise ValueError
    end.

(** [s.lower()] *)
Definition str_lower (s : string) : string :=
  if is_ascii s then lower s else unicode_lower s.

(** What an f-string can format for certain: for an integer the conversion
    is that of [str]; the [repr] of a list or a dictionary converts every
    integer inside. *)
Definition formats (v : value) : bool :=
  match v with
  | VInt z => negb (str_refused z)
  | VList _ | VDict _ => false
  | _ => true
  end.

(** [str(v)], as an f-string formats a value with [formats v]. *)
Definition str_of_value (v : value) : string :=
  match v with
  | VNone => "None"
  | VBool true => "True"
  | VBool false => "False"
  | VInt z => str_of_int z
  | VFloat f => float_repr f
  | VStr s => s
  | VList _ | VDict _ => container_repr v
  end.

(** [float(v)] *)
Definition py_float (v : value) : result float :=
  match v with
  | VNone | VList _ | VDict _ => Raise TypeError
  | VBool b => Ok (if b then 1 else 0)%float
  | VInt z => float_of_int z
  | VFloat f => Ok f
  | VStr s =>
      match float_of_str s with
      | Some f => Ok f
      | None => Raise ValueError
      end
  end.

End Builtins.

(** ** The analysis result, common to both versions of the service *)

Module AnalysisModel.

(** [class RestaurantAnalysis(BaseModel)] *)
Record RestaurantAnalysis : Type := {
  overall_rating : string;
  overall_summary : string;
  food_quality : gmap string value;
  service_quality : gmap string value;
  atmosphere : gmap string value;
  value_for_money : gmap string value;
  key_highlights : list string;
  potential_concerns : list string;
  recommendation : string;
  best_for : list string;
  price_range_assessment : string;
  confidence_score : float
}.

(** [rating * 2] followed by [int(...)]: exact on an integer, truncation
    of the doubled float otherwise. *)
Definition doubled_int (n : number) : result Z :=
  match n with
  | NInt z => Ok (z * 2)
  | NFloat f => int_of_float (f * 2)
  end.

(** The threshold chain on the rating. *)
Definition rating_label (n : number) : string :=
  if number_ge n (NFloat 4.5) then "Excellent"
  else if number_ge n (NFloat 4.0) then "Very Good"
  else if number_ge n (NFloat 3.5) then "Good"
  else if number_ge n (NFloat 3.0) then "Fair"
  else "Poor".

(** The [price_descriptions] table of [create_fallback_analysis]. *)
Definition price_descriptions (k : Z) : option string :=
  match k with
  | 1 => Some "budget-friendly"
  | 2 => Some "moderately priced"
  | 3 => Some "upscale"
  | 4 => Some "fine dining"
  | _ => None
  end.

(** [price_descriptions.get(v, "moderately priced")] for an arbitrary
    value: a float or a boolean equal to a key finds it, a list or a
    dictionary cannot be hashed. *)
Definition price_lookup (v : value) : result string :=
  match v with
  | VList _ | VDict _ => Raise TypeError
  | VInt z => Ok (default "moderately priced" (price_descriptions z))
  | VBool b => Ok (default "moderately priced" (price_descriptions (if b then 1 else 0)))
  | VFloat f =>
      Ok (if PrimFloat.eqb f 1 then "budget-friendly"
          else if PrimFloat.eqb f 2 then "moderately priced"
          else if PrimFloat.eqb f 3 then "upscale"
          else if PrimFloat.eqb f 4 then "fine dining"
          else "moderately priced")
  | VNone | VStr _ => Ok "moderately priced"
  end.

Definition block (score : value) (highlights concerns : string) : gmap string value :=
  <["score" := score]> (<["highlights" := VStr highlights]> (<["concerns" := VStr concerns]> ∅)).

Definition value_block (score : value) (assessment : string) : gmap string value :=
  <["score" := score]> (<["assessment" := VStr assessment]> ∅).

End AnalysisModel.

(** ** [ai_analysis_service.py] *)

Module AnalysisService.
Import AnalysisModel.

Section Builtins.
Context {B : PyBuiltins}.

(** [create_fallback_analysis] *)
Definition create_fallback_analysis (restaurant_data : gmap string value)
    : result RestaurantAnalysis :=
  let rating := dict_get restaurant_data "rating" (VInt 0) in
  let total_ratings := dict_get restaurant_data "total_ratings" (VInt 0) in
  let price_level := dict_get restaurant_data "price_level" (VInt 2) in
  n ← value_number rating;
  let overall_rating := rating_label n in
  price_desc ← price_lookup price_level;
  score ← doubled_int n;
  Ok {| overall_rating := overall_rating;
        overall_summary :=
          "This " +:+ price_desc +:+ " restaurant has a " +:+ str_of_value rating
            +:+ "/5 star rating based on " +:+ str_of_value total_ratings +:+ " reviews.";
        food_quality :=
          block (VInt score) "Based on customer ratings" "Limited analysis available";
        service_quality :=
          block (VInt score) "Based on overall ratings" "No specific service data";
        atmosphere :=
          block (VInt score) "Customer-rated experience" "No detailed atmosphere data";
        value_for_money :=
          value_block (VInt 7)
            ("Appears to offer good value in the " +:+ price_desc +:+ " category");
        key_highlights :=
          [str_of_value rating +:+ "/5 star rating";
           str_of_value total_ratings +:+ " customer reviews";
           price_desc +:+ " pricing"];
        potential_concerns := ["Limited analysis without detailed reviews"];
        recommendation := "Consider visiting if you enjoy " +:+ price_desc +:+ " dining options";
        best_for := ["General dining"];
        price_range_assessment := "Pricing appears " +:+ price_desc +:+ " based on Google data";
        confidence_score := 0.3 |}.

End Builtins.
End AnalysisService.

(** ** [backend/ai_analysis_service.py] *)

Module BackendAnalysisService.
Import AnalysisModel.

Section Builtins.
Context {B : PyBuiltins}.

(** The "handle string ratings" step. *)
Definition coerce_rating (rating : value) : value :=
  match rating with
  | VStr s =>
      match float_of_str s with
      | Some f => VFloat f
      | None => VInt 0
      end
  | v => v
  end.

(** The "handle string price levels" chain.  [int(price_level)] raises on
    a string that passes [isdigit()] and is no decimal number, or has more
    digits than the interpreter converts. *)
Definition price_description (price_level : value) : result string :=
  match price_level with
  | VStr s =>
      if str_isdigit s then
        z ← int_of_isdigit s;
        Ok (default "moderately priced" (price_descriptions z))
      else Ok (str_lower s)
  | VInt z => Ok (default "moderately priced" (price_descriptions z))
  | VBool b => Ok (default "moderately priced" (price_descriptions (if b then 1 else 0)))
  | _ => Ok "moderately priced"
  end.

(** [create_fallback_analysis] *)
Definition create_fallback_analysis (restaurant_data : gmap string value)
    : result RestaurantAnalysis :=
  let rating := dict_get restaurant_data "rating" (VInt 0) in
  let total_ratings := dict_get restaurant_data "total_ratings" (VInt 0) in
  let price_level := dict_get restaurant_data "price_level" (VInt 2) in
  let rating := coerce_rating rating in
  n ← value_number rating;
  let overall_rating := rating_label n in
  price_desc ← price_description price_level;
  score ← doubled_int n;
  score ← py_str_int score;
  Ok {| overall_rating := overall_rating;
        overall_summary :=
          "This " +:+ price_desc +:+ " restaurant has a " +:+ str_of_value rating
            +:+ "/5 star rating based on " +:+ str_of_value total_ratings +:+ " reviews.";
        food_quality :=
          block (VStr score) "Based on customer ratings" "Limited analysis available";
        service_quality :=
          block (VStr score) "Based on overall ratings" "No specific service data";
        atmosphere :=
          block (VStr score) "Customer-rated experience" "No detailed atmosphere data";
        value_for_money :=
          value_block (VStr "7")
            ("Appears to offer good value in the " +:+ price_desc +:+ " category");
        key_highlights :=
          [str_of_value rating +:+ "/5 star rating";
           str_of_value total_ratings +:+ " customer reviews";
           price_desc +:+ " pricing"];
        potential_concerns := ["Limited analysis without detailed reviews"];
        recommendation := "Consider visiting if you enjoy " +:+ price_desc +:+ " dining options";
        best_for := ["General dining"];
        price_range_assessment := "Pricing appears " +:+ price_desc +:+ " based on Google data";
        confidence_score := 0.3 |}.

End Builtins.
End BackendAnalysisService.

#[global] Instance result_fmap : FMap result :=
  λ A B f r, match r with Ok a => Ok (f a) | Raise e => Raise e end.

(** ** [backend/ai_analysis_service.py]: parsing and validating the model's answer *)

Module Validation.
Import AnalysisModel.

(** *** String operations of [analyze_restaurant] *)

(** The ASCII whitespace [str.strip()] removes.  On a text whose ends carry
    no whitespace outside ASCII, [strip] below is [str.strip()]. *)
Definition is_space (c : ascii) : bool :=
  let n := N_of_ascii c in
  ((9 <=? n) && (n <=? 13) || (28 <=? n) && (n <=? 32))%N.

Fixpoint lstrip (s : string) : string :=
  match s with
  | String c rest => if is_space c then lstrip rest else s
  | EmptyString => EmptyString
  end.

Definition rev_string (s : string) : string :=
  string_of_list_ascii (rev (list_ascii_of_string s)).

Definition strip (s : string) : string :=
  rev_string (lstrip (rev_string (lstrip s))).

Definition startswith (s p : string) : bool := String.prefix p s.

Definition endswith (s p : string) : bool := String.prefix (rev_string p) (rev_string s).

(** [s[a:b]] for [0 <= a]. *)
Definition slice (s : string) (a b : nat) : string :=
  String.substring a (b - a) s.

(** [s.find(c)]: the first index of [c]. *)
Fixpoint find (c : ascii) (s : string) : option nat :=
  match s with
  | EmptyString => None
  | String x rest => if Ascii.eqb x c then Some O else S <$> find c rest
  end.

(** [s.rfind(c) + 1]: one past the last index of [c], [0] when there is
    none. *)
Definition rfind_succ (c : ascii) (s : string) : nat :=
  match find c (rev_string s) with
  | Some i => (String.length s - i)%nat
  | None => O
  end.

Section Builtins.
Context {B : PyBuiltins}.

(** *** [_validate_analysis_dict] *)

Definition string_fields : list string :=
  ["overall_rating"; "overall_summary"; "recommendation"; "price_range_assessment"].

Definition list_fields : list string :=
  ["key_highlights"; "potential_concerns"; "best_for"].

Definition dict_fields : list string :=
  ["food_quality"; "service_quality"; "atmosphere"; "value_for_money"].

Definition default_block : value :=
  VDict (block (VStr "5") "Not analyzed" "No data available").

(** [max(0.0, min(1.0, confidence))] *)
Definition clamp_unit (confidence : float) : float :=
  float_max 0 (float_min 1 confidence).

(** The confidence step: only when the key is present; [ValueError] and
    [TypeError] of [float(...)] give 0.5, any other exception leaves the
    function. *)
Definition validate_confidence (analysis_dict : gmap string value)
    : result (gmap string value) :=
  match analysis_dict !! "confidence_score" with
  | None => Ok analysis_dict
  | Some v =>
      match py_float v with
      | Ok confidence =>
          Ok (<["confidence_score" := VFloat (clamp_unit confidence)]> analysis_dict)
      | Raise ValueError | Raise TypeError =>
          Ok (<["confidence_score" := VFloat 0.5]> analysis_dict)
      | Raise e => Raise e
      end
  end.

(** One round of a "for field in ..." loop: the field is replaced by the
    default unless it is present with the wanted type. *)
Definition ensure (wanted : value → bool) (dflt : value)
    (analysis_dict : gmap string value) (field : string) : gmap string value :=
  match analysis_dict !! field with
  | Some v => if wanted v then analysis_dict else <[field := dflt]> analysis_dict
  | None => <[field := dflt]> analysis_dict
  end.

(** [_validate_analysis_dict]: the dictionary after the in-place updates. *)
Definition _validate_analysis_dict (analysis_dict : gmap string value)
    : result (gmap string value) :=
  d ← validate_confidence analysis_dict;
  let d := fold_left (ensure isinstance_str (VStr "Not available")) string_fields d in
  let d := fold_left (ensure isinstance_list (VList [])) list_fields d in
  Ok (fold_left (ensure isinstance_dict default_block) dict_fields d).

(** *** The [RestaurantAnalysis] constructor applied to the dictionary

    The constructor checks every field against its declared type; a
    missing or ill-typed field is a validation error ([None]).  It is only
    ever applied to a validated dictionary, where the confidence, when
    present, is a float. *)

Definition field_str (d : gmap string value) (k : string) : option string :=
  match d !! k with
  | Some (VStr s) => Some s
  | _ => None
  end.

Definition field_dict (d : gmap string value) (k : string) : option (gmap string value) :=
  match d !! k with
  | Some (VDict m) => Some m
  | _ => None
  end.

Definition element_str (v : value) : option string :=
  match v with
  | VStr s => Some s
  | _ => coerce_to_str v
  end.

Definition field_str_list (d : gmap string value) (k : string) : option (list string) :=
  match d !! k with
  | Some (VList l) => mapM element_str l
  | _ => None
  end.

(** [confidence_score: float = Field(..., ge=0.0, le=1.0)] *)
Definition field_confidence (d : gmap string value) : option float :=
  match d !! "confidence_score" with
  | Some (VFloat f) =>
      if (PrimFloat.leb 0 f && PrimFloat.leb f 1)%float then Some f else None
  | Some (VInt z) =>
      match float_of_int z with
      | Ok f => if (PrimFloat.leb 0 f && PrimFloat.leb f 1)%float then Some f else None
      | Raise _ => None
      end
  | _ => None
  end.

Definition RestaurantAnalysis_of_dict (d : gmap string value) : option RestaurantAnalysis :=
  overall_rating ← field_str d "overall_rating";
  overall_summary ← field_str d "overall_summary";
  food_quality ← field_dict d "food_quality";
  service_quality ← field_dict d "service_quality";
  atmosphere ← field_dict d "atmosphere";
  value_for_money ← field_dict d "value_for_money";
  key_highlights ← field_str_list d "key_highlights";
  potential_concerns ← field_str_list d "potential_concerns";
  recommendation ← field_str d "recommendation";
  best_for ← field_str_list d "best_for";
  price_range_assessment ← field_str d "price_range_assessment";
  confidence_score ← field_confidence d;
  Some {| overall_rating := overall_rating;
          overall_summary := overall_summary;
          food_quality := food_quality;
          service_quality := service_quality;
          atmosphere := atmosphere;
          value_for_money := value_for_money;
          key_highlights := key_highlights;
          potential_concerns := potential_concerns;
          recommendation := recommendation;
          best_for := best_for;
          price_range_assessment := price_range_assessment;
          confidence_score := confidence_score |}.

(** *** [analyze_restaurant], from the model's answer on *)

(** Validation and construction of a decoded payload; every exception ends
    in the outer [except Exception] and gives [None].  A payload that is not
    a dictionary makes [_validate_analysis_dict] raise [TypeError]. *)
Definition analysis_of_payload (payload : value) : option RestaurantAnalysis :=
  match payload with
  | VDict analysis_dict =>
      match _validate_analysis_dict analysis_dict with
      | Ok d => RestaurantAnalysis_of_dict d
      | Raise _ => None
      end
  | _ => None
  end.

Definition backtick : ascii := ascii_of_N 96.
Definition fence : string := String backtick (String backtick (String backtick "")).

(** Lines 163 to 196: strip, remove a Markdown fence, decode, and on a
    decoding error decode the outermost braces instead. *)
Definition analysis_of_text (analysis_text : string) : option RestaurantAnalysis :=
  let text := strip analysis_text in
  let text := if startswith text (fence +:+ "json") then slice text 7 (String.length text) else text in
  let text := if endswith text fence then slice text 0 (String.length text - 3) else text in
  match json_loads text with
  | Some payload => analysis_of_payload payload
  | None =>
      match find "{" text with
      | Some start_idx =>
          let end_idx := rfind_succ "}" text in
          match json_loads (slice text start_idx end_idx) with
          | Some payload => analysis_of_payload payload
          | None => None
          end
      | None => None
      end
  end.

(** What the call to the language model gives: no client is configured, the
    prompt or the call raises, or a response with its (possibly missing)
    content. *)
Inductive model_call : Type :=
| NoClient
| CallRaises
| Content (text : option string).

Definition analyze_restaurant (call : model_call) : option RestaurantAnalysis :=
  match call with
  | NoClient | CallRaises | Content None => None
  | Content (Some text) =>
      if String.eqb text "" then None else analysis_of_text text
  end.

(** [analyze_single_restaurant]: the analysis, or the fallback when there
    is none. *)
Definition analyze_single_restaurant (restaurant_data : gmap string value)
    (call : model_call) : result RestaurantAnalysis :=
  match analyze_restaurant call with
  | Some analysis => Ok analysis
  | None => BackendAnalysisService.create_fallback_analysis restaurant_data
  end.

End Builtins.
End Validation.

(** ** [ai_analysis_service.py]: the requests to the language model *)

(** This version of the service hands the decoded answer to the
    [RestaurantAnalysis] constructor as it is; what the constructor accepts
    and how it coerces is pydantic's matter.  [None] stands for a validation
    error, and for the [TypeError] of a payload that is no mapping. *)
Class Pydantic : Type := {
  construct_analysis : value → option AnalysisModel.RestaurantAnalysis
}.

Module AnalysisRequests.
Import AnalysisModel.

Section Builtins.
Context {B : PyBuiltins} {P : Pydantic}.

(** Lines 150 to 166 of [analyze_restaurant]: strip, decode, and on a
    decoding error decode the text between the first opening and the last
    closing brace.  An exception of the second decoding or of the
    constructor reaches the outer handler. *)
Definition analysis_of_text (analysis_text : string) : option RestaurantAnalysis :=
  let text := Validation.strip analysis_text in
  match json_loads text with
  | Some payload => construct_analysis payload
  | None =>
      match Validation.find "{" text with
      | Some start_idx =>
          let end_idx := Validation.rfind_succ "}" text in
          match json_loads (Validation.slice text start_idx end_idx) with
          | Some payload => construct_analysis payload
          | None => None
          end
      | None => None
      end
  end.

(** [analyze_restaurant] *)
Definition analyze_restaurant (call : Validation.model_call) : option RestaurantAnalysis :=
  match call with
  | Validation.NoClient | Validation.CallRaises | Validation.Content None => None
  | Validation.Content (Some text) =>
      if String.eqb text "" then None else analysis_of_text text
  end.

(** [analyze_single_restaurant] *)
Definition analyze_single_restaurant (restaurant_data : gmap string value)
    (call : Validation.model_call) : result RestaurantAnalysis :=
  match analyze_restaurant call with
  | Some analysis => Ok analysis
  | None => AnalysisService.create_fallback_analysis restaurant_data
  end.

End Builtins.

(** What the request of [analyze_area_restaurants] gives: no client is
    configured, the prompt or the call raises an exception with a message,
    or a response with its (possibly missing) content. *)
Inductive area_call : Type :=
| NoAreaClient
| AreaCallRaises (message : string)
| AreaContent (text : option string).

(** [analyze_area_restaurants] *)
Definition analyze_area_restaurants (restaurants : list (gmap string value))
    (call : area_call) : string :=
  match call with
  | NoAreaClient => "AI analysis not available - OpenAI API key not configured"
  | AreaCallRaises message =>
      match restaurants with
      | [] => "No restaurants found in this area."
      | _ => "Error generating area analysis: " +:+ message
      end
  | AreaContent text =>
      match restaurants with
      | [] => "No restaurants found in this area."
      | _ =>
          match text with
          | Some content =>
              if String.eqb content "" then "No analysis generated"
              else Validation.strip content
          | None => "No analysis generated"
          end
      end
  end.

End AnalysisRequests.

(** ** [main.py]: [find_restaurants] as a function of the module

    [find_restaurants] is also called by [get_area_restaurant_analysis],
    which leaves [min_rating] out.  The parameter's default in the signature
    is the object [Query(0, ...)], not the number 0, and an order comparison
    of a number with that object raises [TypeError]. *)

Module MainCall.
Import Main.

Inductive rating_bound : Type :=
| Bound (m : float)
| QueryObject.

(** [rating >= min_rating] *)
Definition rating_reaches (rating : number) (min_rating : rating_bound) : result bool :=
  match min_rating with
  | Bound m => Ok (number_ge rating (NFloat m))
  | QueryObject => Raise TypeError
  end.

Section WithLibm.
Context {L : Libm}.

Section Search.
Variables (key : option string) (lat lng : float) (min_rating : rating_bound)
  (max_results : Z).

Fixpoint process_page (places : list place) (restaurants : list Restaurant)
    : result (list Restaurant) :=
  match places with
  | [] => Ok restaurants
  | place :: rest =>
      if Z.of_nat (length restaurants) >=? max_results then Ok restaurants
      else
        passes ← rating_reaches (default (NInt 0) (p_rating place)) min_rating;
        if passes : bool then
          restaurant ← format_restaurant_data key place lat lng;
          process_page rest (restaurants ++ [restaurant])
        else process_page rest restaurants
  end.

Fixpoint paginate (replies : list http_reply) (token : option string)
    (restaurants : list Restaurant) : option (result (list Restaurant)) :=
  if token_truthy token && (Z.of_nat (length restaurants) <? max_results) then
    match replies with
    | [] => None
    | r :: rest =>
        match http_get r with
        | Raise e => Some (Raise e)
        | Ok data =>
            if negb (status_ok data) then Some (Ok restaurants)
            else
              match process_page (default [] (results data)) restaurants with
              | Raise e => Some (Raise e)
              | Ok restaurants' => paginate rest (next_page_token data) restaurants'
              end
        end
    end
  else Some (Ok restaurants).

Definition search_pages (first : http_reply) (more : list http_reply)
    : option (result (list Restaurant)) :=
  match http_get first with
  | Raise e => Some (Raise e)
  | Ok data =>
      if negb (status_ok data) then
        Some (Raise (HTTPException 400
               ("Google Places API error: " +:+ default "Unknown error" (status data))))
      else
        match process_page (default [] (results data)) [] with
        | Raise e => Some (Raise e)
        | Ok restaurants => paginate more (next_page_token data) restaurants
        end
  end.

End Search.

Definition find_restaurants (key : option string) (lat lng radius : float)
    (min_rating : rating_bound) (max_results : Z)
    (first : http_reply) (more : list http_reply)
    : option (result RestaurantSearchResponse) :=
  if negb (key_configured key) then
    Some (Raise (HTTPException 500 "Google Places API key not configured"))
  else
    match int_of_float (radius * METERS_PER_MILE) with
    | Raise e => Some (Raise e)
    | Ok radius_meters =>
        match search_pages key lat lng min_rating max_results first more with
        | None => None
        | Some r =>
            Some (restaurants ← handle_errors r;
                  let restaurants := sort_restaurants restaurants in
                  Ok {| restaurants := restaurants;
                        total_found := Z.of_nat (length restaurants);
                        search_location := (lat, lng);
                        radius_miles := radius |})
        end
    end.

End WithLibm.
End MainCall.

(** ** [main.py]: the other endpoints *)

Module Endpoints.
Import Main.

(** [bool(v)] *)
Definition truthy (v : value) : bool :=
  match v with
  | VNone => false
  | VBool b => b
  | VInt z => negb (z =? 0)
  | VFloat f => negb (PrimFloat.eqb f 0)
  | VStr s => negb (String.eqb s "")
  | VList l => match l with [] => false | _ => true end
  | VDict d => negb (bool_decide (size d = 0%nat))
  end.

(** *** Place details *)

(** [get_place_details], on the reply of the details service.  A body that
    is not an object has no [get] and ends in the handler, like every other
    exception.  [include_reviews] only shapes the request. *)
Definition get_place_details (reply : LocationService.http_reply value) : value :=
  match reply with
  | LocationService.Reply (VDict data) =>
      match data !! "status" with
      | Some (VStr s) =>
          if String.eqb s "OK" then dict_get data "result" (VDict ∅) else VDict ∅
      | _ => VDict ∅
      end
  | _ => VDict ∅
  end.

(** [get_restaurant_details]; the wall-clock [timestamp] is left out. *)
Definition get_restaurant_details (key : option string) (place_id : string)
    (reply : LocationService.http_reply value) : result (string * value) :=
  if negb (key_configured key) then
    Raise (HTTPException 500 "Google Places API key not configured")
  else
    let details := get_place_details reply in
    if negb (truthy details) then Raise (HTTPException 404 "Restaurant not found")
    else Ok (place_id, details).

(** *** AI analysis of one restaurant *)

(** The dictionary [get_restaurant_ai_analysis] prepares: [details.get(k)]
    is [None] for a missing key. *)
Definition analysis_request (details : gmap string value) : gmap string value :=
  list_to_map
    [("name", dict_get details "name" VNone);
     ("rating", dict_get details "rating" VNone);
     ("total_ratings", dict_get details "user_ratings_total" VNone);
     ("price_level", dict_get details "price_level" VNone);
     ("cuisine_types", dict_get details "types" (VList []));
     ("reviews_by_source",
      VDict {["google" := VDict {["reviews" := dict_get details "reviews" (VList [])]}]})].

Record analysis_response : Type := {
  ar_place_id : string;
  ar_restaurant_name : value;
  ar_ai_analysis : AnalysisModel.RestaurantAnalysis
}.

Section Builtins.
Context {B : PyBuiltins} {P : Pydantic}.

(** [get_restaurant_ai_analysis] *)
Definition get_restaurant_ai_analysis (key : option string) (place_id : string)
    (reply : LocationService.http_reply value) (call : Validation.model_call)
    : result analysis_response :=
  if negb (key_configured key) then
    Raise (HTTPException 500 "Google Places API key not configured")
  else
    let details := get_place_details reply in
    if negb (truthy details) then Raise (HTTPException 404 "Restaurant not found")
    else
      match details with
      | VDict details =>
          analysis ← AnalysisRequests.analyze_single_restaurant (analysis_request details) call;
          Ok {| ar_place_id := place_id;
                ar_restaurant_name := dict_get details "name" VNone;
                ar_ai_analysis := analysis |}
      | _ => Raise AttributeError
      end.

End Builtins.

(** *** Reviews *)

(** [l[:limit]] on a list; a negative limit counts from the end. *)
Definition slice_to {A : Type} (l : list A) (limit : Z) : list A :=
  if 0 <=? limit then take (Z.to_nat limit) l
  else take (length l - Z.to_nat (- limit)) l.

(** One formatted review; a review that is not an object has no [get]. *)
Definition format_review (review : value) : result (gmap string value) :=
  match review with
  | VDict review =>
      Ok (list_to_map
            [("source", VStr "google");
             ("author_name", dict_get review "author_name" (VStr "Anonymous"));
             ("rating", dict_get review "rating" VNone);
             ("text", dict_get review "text" (VStr ""));
             ("time", dict_get review "time" VNone);
             ("relative_time_description", dict_get review "relative_time_description" VNone);
             ("profile_photo_url", dict_get review "profile_photo_url" (VStr ""))])
  | _ => Raise AttributeError
  end.

(** The entry of one review platform in [reviews_by_source]. *)
Record source_reviews : Type := {
  sr_reviews : list (gmap string value);
  sr_total_count : Z;
  sr_average_rating : value;
  sr_total_ratings : value;
  sr_note : option string
}.

(** The Google part of [get_restaurant_reviews].  The [reviews] of the
    details are taken as an array when present; [None], a boolean or a
    number there cannot be sliced.  A string or an object there is outside
    the model ([None]). *)
Definition google_reviews (limit : Z) (reply : LocationService.http_reply value)
    : option (result source_reviews) :=
  match get_place_details reply with
  | VDict google_details =>
      match dict_get google_details "reviews" (VList []) with
      | VList google_reviews =>
          Some (formatted_google_reviews ← mapM format_review (slice_to google_reviews limit);
                Ok {| sr_reviews := formatted_google_reviews;
                      sr_total_count := Z.of_nat (length formatted_google_reviews);
                      sr_average_rating := dict_get google_details "rating" VNone;
                      sr_total_ratings := dict_get google_details "user_ratings_total" VNone;
                      sr_note := None |})
      | VNone | VBool _ | VInt _ | VFloat _ => Some (Raise TypeError)
      | VStr _ | VDict _ => None
      end
  | _ => Some (Raise AttributeError)
  end.

Definition yelp_placeholder : source_reviews :=
  {| sr_reviews := [];
     sr_total_count := 0;
     sr_average_rating := VNone;
     sr_total_ratings := VInt 0;
     sr_note := Some "Yelp integration not implemented yet" |}.

(** [get_restaurant_reviews]; the details are requested only when
    ["google"] is among the sources. *)
Definition get_restaurant_reviews (key : option string) (place_id : string)
    (sources : list string) (limit : Z) (reply : LocationService.http_reply value)
    : option (result (string * gmap string source_reviews)) :=
  if negb (key_configured key) then
    Some (Raise (HTTPException 500 "Google Places API key not configured"))
  else
    let google :=
      if bool_decide ("google" ∈ sources) then
        match google_reviews limit reply with
        | Some r => Some (g ← r; Ok (<["google" := g]> (∅ : gmap string source_reviews)))
        | None => None
        end
      else Some (Ok ∅) in
    match google with
    | None => None
    | Some (Raise e) => Some (Raise e)
    | Some (Ok all_reviews) =>
        let all_reviews :=
          if bool_decide ("yelp" ∈ sources) then <["yelp" := yelp_placeholder]> all_reviews
          else all_reviews in
        Some (Ok (place_id, all_reviews))
    end.

(** *** Endpoints that resolve the location themselves *)

(** [request.client.host if request.client else None], with the local
    address replaced by [None]. *)
Definition client_ip (host : option string) : option string :=
  match host with
  | Some h => if String.eqb h "127.0.0.1" then None else Some h
  | None => None
  end.

(** [detect_user_location] *)
Definition detect_user_location (key : option string) (svc : LocationService.services)
    (host address : option string) : result LocationService.LocationData :=
  match LocationService.get_user_location key svc (client_ip host) address None None with
  | None => Raise (HTTPException 400 "Could not determine location from IP or address")
  | Some location => Ok location
  end.

Section WithLibm.
Context {L : Libm}.

(** [find_restaurants_auto_location] *)
Definition find_restaurants_auto_location (key : option string)
    (svc : LocationService.services) (host address : option string)
    (radius min_rating : float) (max_results : Z)
    (first : http_reply) (more : list http_reply)
    : option (result RestaurantSearchResponse) :=
  match LocationService.get_user_location key svc (client_ip host) address None None with
  | None =>
      Some (Raise (HTTPException 400
        "Could not determine your location. Please provide an address or coordinates manually."))
  | Some location =>
      find_restaurants key (LocationService.latitude location)
        (LocationService.longitude location) radius min_rating max_results first more
  end.

(** *** Area analysis *)

Definition opt_value {A : Type} (f : A → value) (x : option A) : value :=
  match x with
  | Some a => f a
  | None => VNone
  end.

(** The dictionary built for each restaurant of the response. *)
Definition restaurant_summary (restaurant : Restaurant) : gmap string value :=
  list_to_map
    [("name", VStr (name restaurant));
     ("rating", opt_value VFloat (rating restaurant));
     ("distance_miles", opt_value VFloat (distance_miles restaurant));
     ("cuisine_types", VList (VStr <$> cuisine_types restaurant));
     ("price_level", opt_value VInt (price_level restaurant))].

Record area_response : Type := {
  area_search_location : float * float;
  area_radius_miles : float;
  restaurants_analyzed : Z;
  area_analysis : string
}.

(** [get_area_restaurant_analysis]: the search is called with [lat], [lng],
    [radius] and [max_results=20]. *)
Definition get_area_restaurant_analysis (key : option string) (lat lng radius : float)
    (first : http_reply) (more : list http_reply) (call : AnalysisRequests.area_call)
    : option (result area_response) :=
  match MainCall.find_restaurants key lat lng radius MainCall.QueryObject 20 first more with
  | None => None
  | Some (Raise e) => Some (Raise e)
  | Some (Ok restaurants_response) =>
      let restaurants_for_analysis :=
        restaurant_summary <$> restaurants restaurants_response in
      let area_analysis :=
        AnalysisRequests.analyze_area_restaurants restaurants_for_analysis call in
      Some (Ok {| area_search_location := (lat, lng);
                  area_radius_miles := radius;
                  restaurants_analyzed := Z.of_nat (length restaurants_for_analysis);
                  area_analysis := area_analysis |})
  end.

End WithLibm.
End Endpoints.

(** * Properties *)

Lemma Ok_inj {A : Type} (a b : A) : Ok a = Ok b → a = b.
Proof. by intros [= ->]. Qed.

Example round2_sample : Py.round2 69.09755 = 69.1%float /\ Py.round2 0.125 = 0.12%float
  /\ Py.round2 (-2.675) = (-2.67)%float /\ Py.round2 0.004 = 0%float.
Proof. vm_compute. repeat split. Qed.

Example int_of_float_sample :
  Py.int_of_float 8.6 = Ok 8 /\ Py.int_of_float (-8.6) = Ok (-8) /\ Py.round_to_int 8.6 = Ok 9
  /\ Py.round_to_int 8.5 = Ok 8 /\ Py.float_of_int (10 ^ 400) = Raise OverflowError.
Proof. vm_compute. repeat split. Qed.

(** ** Facts about binary64 arithmetic *)

Module FloatFacts.

(** Classification through the specification. *)
Lemma is_nan_spec (x : float) :
  PrimFloat.is_nan x = match Prim2SF x with S754_nan => true | _ => false end.
Proof.
  unfold PrimFloat.is_nan. rewrite FloatAxioms.eqb_spec. unfold SFeqb.
  destruct (Prim2SF x) as [s|s| |s m e]; simpl; try done.
  - by destruct s.
  - destruct s; rewrite Z.compare_refl, Pos.compare_cont_refl; done.
Qed.

Lemma is_infinity_spec (x : float) :
  PrimFloat.is_infinity x = match Prim2SF x with S754_infinity _ => true | _ => false end.
Proof.
  unfold PrimFloat.is_infinity. rewrite FloatAxioms.eqb_spec, abs_spec. unfold SFeqb.
  change (Prim2SF infinity) with (S754_infinity false).
  by destruct (Prim2SF x) as [s|s| |s m e].
Qed.

Lemma is_finite_spec (x : float) :
  PrimFloat.is_finite x
  = match Prim2SF x with S754_zero _ | S754_finite _ _ _ => true | _ => false end.
Proof.
  unfold PrimFloat.is_finite. rewrite is_nan_spec, is_infinity_spec.
  by destruct (Prim2SF x).
Qed.

(** [SF2Prim] of the specification of an operation. *)
Lemma float_eq_SF (x y : float) : Prim2SF x = Prim2SF y → x = y.
Proof. apply Prim2SF_inj. Qed.

(** *** Negation *)

Lemma binary_round_aux_opp (s : bool) (m e : Z) (l : location) :
  binary_round_aux prec emax (negb s) m e l = SFopp (binary_round_aux prec emax s m e l).
Proof.
  unfold binary_round_aux.
  destruct (shr_fexp prec emax m e l) as [mrs' e'].
  destruct (shr_fexp prec emax _ e' loc_Exact) as [mrs'' e''].
  destruct (shr_m mrs''); [done| |done].
  by destruct (e'' <=? emax - prec).
Qed.

Lemma binary_round_opp (s : bool) (m : positive) (e : Z) :
  binary_round prec emax (negb s) m e = SFopp (binary_round prec emax s m e).
Proof.
  unfold binary_round. destruct (shl_align _ _ _) as [mz ez].
  apply binary_round_aux_opp.
Qed.

Lemma binary_normalize_opp (z e : Z) :
  z ≠ 0 →
  binary_normalize prec emax (- z) e false = SFopp (binary_normalize prec emax z e false).
Proof.
  intros Hz. destruct z as [|p|p]; [done| |]; simpl.
  - apply (binary_round_opp false).
  - change false with (negb true) at 1. by rewrite binary_round_opp.
Qed.

Lemma SFopp_involutive (x : spec_float) : SFopp (SFopp x) = x.
Proof. destruct x as [s|s| |s m e]; simpl; by rewrite ?negb_involutive. Qed.

(** [y - x] is the negation of [x - y], except that an exact cancellation
    gives [+0] both ways. *)
Lemma SFsub_swap (x y : spec_float) :
  SFsub prec emax y x = SFopp (SFsub prec emax x y)
  ∨ SFsub prec emax y x = SFsub prec emax x y.
Proof.
  destruct x as [sx|sx| |sx mx ex], y as [sy|sy| |sy my ey]; simpl;
    try (by left); try (by right);
    try (destruct sx, sy; simpl; by (left + right)).
  all: try (left; by rewrite negb_involutive).
  rewrite (Z.min_comm ey ex).
  set (a := cond_Zopp sx _). set (b := cond_Zopp sy _).
  destruct (decide (a - b = 0)) as [Hz|Hz].
  - right. replace (b - a) with 0 by lia. by rewrite Hz.
  - left. replace (b - a) with (- (a - b)) by lia. by apply binary_normalize_opp.
Qed.

Lemma sub_swap (x y : float) :
  (y - x = - (x - y) ∨ y - x = x - y)%float.
Proof.
  destruct (SFsub_swap (Prim2SF x) (Prim2SF y)) as [H|H]; [left|right];
    apply float_eq_SF; rewrite ?opp_spec, !sub_spec; exact H.
Qed.

Lemma SFdiv_opp_l (x y : spec_float) :
  SFdiv prec emax (SFopp x) y = SFopp (SFdiv prec emax x y).
Proof.
  destruct x as [sx|sx| |sx mx ex], y as [sy|sy| |sy my ey]; simpl; try done;
    try (by destruct sx, sy).
  destruct (SFdiv_core_binary _ _ _ _ _ _) as [[mz ez] lz].
  rewrite <- binary_round_aux_opp. by destruct sx, sy.
Qed.

Lemma div_opp_l (x y : float) : (- x / y = - (x / y))%float.
Proof.
  apply float_eq_SF. rewrite opp_spec, !div_spec, opp_spec. apply SFdiv_opp_l.
Qed.

Lemma SFmul_comm (x y : spec_float) : SFmul prec emax x y = SFmul prec emax y x.
Proof.
  destruct x as [sx|sx| |sx mx ex], y as [sy|sy| |sy my ey]; simpl; try done;
    try (by rewrite xorb_comm).
  by rewrite xorb_comm, Pos.mul_comm, Z.add_comm.
Qed.

Lemma mul_comm (x y : float) : (x * y = y * x)%float.
Proof. apply float_eq_SF. rewrite !mul_spec. apply SFmul_comm. Qed.

Lemma SFmul_opp_l (x y : spec_float) :
  SFmul prec emax (SFopp x) y = SFopp (SFmul prec emax x y).
Proof.
  destruct x as [sx|sx| |sx mx ex], y as [sy|sy| |sy my ey]; simpl; try done;
    try (by destruct sx, sy).
  rewrite <- binary_round_aux_opp. by destruct sx, sy.
Qed.

Lemma mul_opp_l (x y : float) : (- x * y = - (x * y))%float.
Proof.
  apply float_eq_SF. rewrite opp_spec, !mul_spec, opp_spec. apply SFmul_opp_l.
Qed.

Lemma mul_opp_opp (x : float) : (- x * - x = x * x)%float.
Proof.
  rewrite mul_opp_l, (mul_comm x (- x)), mul_opp_l.
  apply float_eq_SF. rewrite !opp_spec. apply SFopp_involutive.
Qed.

Lemma is_nan_opp (x : float) : PrimFloat.is_nan (- x) = PrimFloat.is_nan x.
Proof. rewrite !is_nan_spec, opp_spec. by destruct (Prim2SF x). Qed.

Lemma is_infinity_opp (x : float) : PrimFloat.is_infinity (- x) = PrimFloat.is_infinity x.
Proof. rewrite !is_infinity_spec, opp_spec. by destruct (Prim2SF x). Qed.

Lemma is_finite_opp (x : float) : PrimFloat.is_finite (- x) = PrimFloat.is_finite x.
Proof. unfold PrimFloat.is_finite. by rewrite is_nan_opp, is_infinity_opp. Qed.

Lemma abs_opp (x : float) : abs (- x) = abs x.
Proof. apply float_eq_SF. rewrite !abs_spec, opp_spec. by destruct (Prim2SF x). Qed.

Lemma eqb_zero_opp (x : float) : (- x =? 0)%float = (x =? 0)%float.
Proof.
  rewrite !FloatAxioms.eqb_spec, opp_spec. unfold SFeqb.
  change (Prim2SF 0) with (S754_zero false).
  by destruct (Prim2SF x) as [s|s| |s m e]; try destruct s.
Qed.

Lemma opp_nan (x : float) : PrimFloat.is_nan x = true → (- x)%float = x.
Proof.
  rewrite is_nan_spec. intros H. apply float_eq_SF. rewrite opp_spec.
  by destruct (Prim2SF x).
Qed.

(** *** No overflow for small products *)

Lemma digits2_pos_size (p : positive) : digits2_pos p = Pos.size p.
Proof. induction p as [p IH|p IH|]; simpl; by rewrite ?IH. Qed.

Lemma Zdigits2_bound (z k : Z) : 0 ≤ z < 2 ^ k → 0 ≤ k → Zdigits2 z ≤ k.
Proof.
  intros [Hz0 Hz] Hk. destruct z as [|p|p]; [done| |lia]. simpl.
  rewrite digits2_pos_size.
  pose proof (Pos.size_le p) as Hle.
  apply Pos2Z.pos_le_pos in Hle. rewrite Pos2Z.inj_pow, (Pos2Z.inj_xO p) in Hle.
  assert (Hlt : 2 ^ Z.pos (Pos.size p) < 2 ^ (k + 1)).
  { replace (k + 1) with (Z.succ k) by lia. rewrite Z.pow_succ_r by done. lia. }
  apply Z.pow_lt_mono_r_iff in Hlt; lia.
Qed.

Lemma Zdigits2_nonneg (z : Z) : 0 ≤ Zdigits2 z.
Proof. by destruct z. Qed.

Lemma valid_mantissa_bound (s : bool) (m : positive) (e : Z) :
  valid_binary (S754_finite s m e) = true → Z.pos m < 2 ^ 53.
Proof.
  simpl. unfold bounded, canonical_mantissa, fexp, SpecFloat.emin, prec, emax.
  intros H. apply andb_true_iff in H as [H _]. apply Z.eqb_eq in H.
  rewrite digits2_pos_size in H.
  pose proof (Pos.size_gt m) as Hgt.
  apply Pos2Z.pos_lt_pos in Hgt. rewrite Pos2Z.inj_pow in Hgt.
  eapply Z.lt_le_trans; [exact Hgt|].
  apply Z.pow_le_mono_r; lia.
Qed.

Lemma shr_1_bounds (mrs : shr_record) :
  0 ≤ shr_m mrs → 0 ≤ shr_m (shr_1 mrs) ≤ shr_m mrs.
Proof.
  destruct mrs as [m r s]. simpl. intros Hm.
  destruct m as [|[p|p|]|p]; simpl; try lia.
Qed.

Lemma iter_shr_1_bounds (p : positive) (mrs : shr_record) :
  0 ≤ shr_m mrs → 0 ≤ shr_m (SpecFloat.iter_pos shr_1 p mrs) ≤ shr_m mrs.
Proof.
  revert mrs. induction p as [p IH|p IH|]; intros mrs Hm; simpl.
  - pose proof (shr_1_bounds mrs Hm) as H1.
    pose proof (IH (shr_1 mrs) (proj1 H1)) as H2.
    pose proof (IH _ (proj1 H2)) as H3. lia.
  - pose proof (IH mrs Hm) as H2.
    pose proof (IH _ (proj1 H2)) as H3. lia.
  - by apply shr_1_bounds.
Qed.

Lemma shr_bounds (mrs : shr_record) (e n : Z) :
  0 ≤ shr_m mrs →
  0 ≤ shr_m (shr mrs e n).1 ≤ shr_m mrs ∧ (shr mrs e n).2 = e + Z.max n 0.
Proof.
  intros Hm. destruct n as [|p|p]; simpl; [lia| |lia].
  split; [by apply iter_shr_1_bounds|lia].
Qed.

Lemma shr_record_of_loc_m (m : Z) (l : location) : shr_m (shr_record_of_loc m l) = m.
Proof. by destruct l as [|[]]. Qed.

Lemma round_nearest_even_bounds (m : Z) (l : location) :
  m ≤ round_nearest_even m l ≤ m + 1.
Proof. destruct l as [|[]]; simpl; try lia. destruct (Z.even m); lia. Qed.

(** The result of an operation that is zero or finite, with a given
    sign. *)
Definition finite_signed (s : bool) (r : spec_float) : Prop :=
  match r with
  | S754_zero s' | S754_finite s' _ _ => s' = s
  | _ => False
  end.

Lemma binary_round_aux_small (s : bool) (m e : Z) (l : location) :
  0 ≤ m < 2 ^ 110 → e ≤ - 50 →
  finite_signed s (binary_round_aux prec emax s m e l).
Proof.
  intros Hm He. unfold binary_round_aux, shr_fexp.
  set (n1 := fexp prec emax (Zdigits2 m + e) - e).
  pose proof (shr_bounds (shr_record_of_loc m l) e n1) as H1.
  rewrite shr_record_of_loc_m in H1. specialize (H1 (proj1 Hm)).
  destruct (shr (shr_record_of_loc m l) e n1) as [mrs' e']. simpl in H1.
  destruct H1 as [Hm' He'].
  set (m1 := round_nearest_even (shr_m mrs') (loc_of_shr_record mrs')).
  pose proof (round_nearest_even_bounds (shr_m mrs') (loc_of_shr_record mrs')) as Hm1.
  fold m1 in Hm1.
  set (n2 := fexp prec emax (Zdigits2 m1 + e') - e').
  pose proof (shr_bounds (shr_record_of_loc m1 loc_Exact) e' n2) as H2.
  rewrite shr_record_of_loc_m in H2. specialize (H2 ltac:(lia)).
  destruct (shr (shr_record_of_loc m1 loc_Exact) e' n2) as [mrs'' e'']. simpl in H2.
  destruct H2 as [Hm'' He''].
  assert (Hd : Zdigits2 m ≤ 110) by (apply Zdigits2_bound; lia).
  assert (Hd1 : Zdigits2 m1 ≤ 111).
  { apply Zdigits2_bound; [|lia]. change (2 ^ 111) with (2 * 2 ^ 110). lia. }
  pose proof (Zdigits2_nonneg m) as Hd0.
  pose proof (Zdigits2_nonneg m1) as Hd10.
  assert (Hfin : e'' ≤ emax - prec).
  { subst n1 n2. unfold fexp, SpecFloat.emin, prec, emax in *. lia. }
  destruct (shr_m mrs'') as [|p|p]; simpl; [done| |lia].
  apply Z.leb_le in Hfin. by rewrite Hfin.
Qed.

(** A float of magnitude at most [2^(b+53)]: zero, or finite with exponent
    at most [b]. *)
Definition small (b : Z) (x : spec_float) : Prop :=
  match x with
  | S754_zero _ => True
  | S754_finite _ m e => Z.pos m < 2 ^ 53 ∧ e ≤ b
  | _ => False
  end.

Definition sign_of (x : spec_float) : bool :=
  match x with
  | S754_zero s | S754_infinity s | S754_finite s _ _ => s
  | S754_nan => false
  end.

Lemma SFmul_small (bx bz : Z) (x y : spec_float) :
  small bx x → small bz y → bx + bz ≤ - 50 →
  finite_signed (xorb (sign_of x) (sign_of y)) (SFmul prec emax x y).
Proof.
  intros Hx Hy Hb.
  destruct x as [sx|sx| |sx mx ex], y as [sy|sy| |sy my ey]; simpl in *; try done.
  destruct Hx as [Hmx Hex], Hy as [Hmy Hey].
  apply binary_round_aux_small; [|lia].
  rewrite Pos2Z.inj_mul. split; [lia|].
  change (2 ^ 110) with (2 ^ 53 * 2 ^ 57). nia.
Qed.

(** Bounds by comparison: a float between a negative and a positive finite
    bound is small. *)
Lemma small_between (lo hi x : float) (ml mh : positive) (el eh : Z) :
  Prim2SF lo = S754_finite true ml el →
  Prim2SF hi = S754_finite false mh eh →
  PrimFloat.leb lo x = true → PrimFloat.leb x hi = true →
  small (Z.max el eh) (Prim2SF x).
Proof.
  intros Hlo Hhi. rewrite !leb_spec, Hlo, Hhi. unfold SFleb.
  pose proof (Prim2SF_valid x) as Hv.
  destruct (Prim2SF x) as [s|s| |s m e]; simpl; try done.
  - by destruct s.
  - apply valid_mantissa_bound in Hv. intros H1 H2. split; [done|].
    destruct s.
    + destruct (Z.compare_spec el e); try done; lia.
    + destruct (Z.compare_spec e eh); try done; lia.
Qed.

Lemma small_abs_leb (hi x : float) (mh : positive) (eh : Z) :
  Prim2SF hi = S754_finite false mh eh →
  PrimFloat.leb (abs x) hi = true →
  small eh (Prim2SF x).
Proof.
  intros Hhi. rewrite leb_spec, abs_spec, Hhi. unfold SFleb.
  pose proof (Prim2SF_valid x) as Hv.
  destruct (Prim2SF x) as [s|s| |s m e]; simpl; try done.
  apply valid_mantissa_bound in Hv. intros H. split; [done|].
  destruct (Z.compare_spec e eh); try done; lia.
Qed.

Lemma small_finite (b : Z) (x : float) :
  small b (Prim2SF x) → PrimFloat.is_finite x = true.
Proof. rewrite is_finite_spec. by destruct (Prim2SF x). Qed.

(** *** Exact results *)

Lemma sub_diag (x : float) : PrimFloat.is_finite x = true → (x - x)%float = 0%float.
Proof.
  rewrite is_finite_spec. intros Hx. apply float_eq_SF. rewrite sub_spec.
  change (Prim2SF 0) with (S754_zero false).
  destruct (Prim2SF x) as [s|s| |s m e]; simpl in *; try done.
  - by destruct s.
  - by rewrite Z.sub_diag.
Qed.

(** The square of a float of magnitude at most one, times zero, is [+0]. *)
Lemma square_mul_zero (c : float) :
  PrimFloat.leb (abs c) 1 = true → (c * c * 0)%float = 0%float.
Proof.
  intros Hc. apply float_eq_SF. rewrite !mul_spec.
  change (Prim2SF 0) with (S754_zero false).
  assert (Hs : small (-52) (Prim2SF c)).
  { eapply small_abs_leb; [|exact Hc]. reflexivity. }
  pose proof (SFmul_small (-52) (-52) _ _ Hs Hs ltac:(lia)) as Hsq.
  rewrite xorb_nilpotent in Hsq. unfold SF64mul.
  by destruct (SFmul prec emax (Prim2SF c) (Prim2SF c)) as [s|s| |s m e];
    simpl in *; subst.
Qed.

Lemma bounded_not_nan (c hi : float) (mh : positive) (eh : Z) :
  Prim2SF hi = S754_finite false mh eh →
  PrimFloat.leb (abs c) hi = true →
  PrimFloat.is_nan c = false ∧ PrimFloat.is_infinity c = false.
Proof.
  intros Hhi Hc. pose proof (small_abs_leb hi c mh eh Hhi Hc) as Hs.
  rewrite is_nan_spec, is_infinity_spec. by destruct (Prim2SF c).
Qed.

(** *** Results that are not NaN *)

Lemma binary_round_aux_not_nan (s : bool) (m e : Z) (l : location) :
  0 ≤ m → binary_round_aux prec emax s m e l ≠ S754_nan.
Proof.
  intros Hm. unfold binary_round_aux, shr_fexp.
  set (n1 := fexp prec emax (Zdigits2 m + e) - e).
  pose proof (shr_bounds (shr_record_of_loc m l) e n1) as H1.
  rewrite shr_record_of_loc_m in H1. specialize (H1 Hm).
  destruct (shr (shr_record_of_loc m l) e n1) as [mrs' e']. simpl in H1.
  set (m1 := round_nearest_even (shr_m mrs') (loc_of_shr_record mrs')).
  pose proof (round_nearest_even_bounds (shr_m mrs') (loc_of_shr_record mrs')) as Hm1.
  fold m1 in Hm1.
  set (n2 := fexp prec emax (Zdigits2 m1 + e') - e').
  pose proof (shr_bounds (shr_record_of_loc m1 loc_Exact) e' n2) as H2.
  rewrite shr_record_of_loc_m in H2. specialize (H2 ltac:(lia)).
  destruct (shr (shr_record_of_loc m1 loc_Exact) e' n2) as [mrs'' e'']. simpl in H2.
  destruct (shr_m mrs'') as [|p|p]; [done| |lia].
  by destruct (e'' <=? emax - prec).
Qed.

Lemma binary_normalize_not_nan (z e : Z) :
  binary_normalize prec emax z e false ≠ S754_nan.
Proof.
  destruct z as [|p|p]; simpl; [done| |]; unfold binary_round;
    destruct (shl_align _ _ _) as [mz ez]; by apply binary_round_aux_not_nan.
Qed.

Definition not_nan (x : spec_float) : Prop := x ≠ S754_nan.

Definition finite (x : spec_float) : Prop :=
  match x with
  | S754_zero _ | S754_finite _ _ _ => True
  | _ => False
  end.

Lemma is_nan_false (x : float) : PrimFloat.is_nan x = false ↔ not_nan (Prim2SF x).
Proof. rewrite is_nan_spec. unfold not_nan. by destruct (Prim2SF x). Qed.

Lemma is_finite_true (x : float) : PrimFloat.is_finite x = true ↔ finite (Prim2SF x).
Proof. rewrite is_finite_spec. by destruct (Prim2SF x). Qed.

Lemma is_finite_not_nan (x : float) :
  PrimFloat.is_finite x = true → PrimFloat.is_nan x = false.
Proof. rewrite is_finite_spec, is_nan_spec. by destruct (Prim2SF x). Qed.

Lemma is_finite_split (x : float) :
  PrimFloat.is_nan x = false → PrimFloat.is_infinity x = false →
  PrimFloat.is_finite x = true.
Proof. unfold PrimFloat.is_finite. by intros -> ->. Qed.

Lemma mul_not_nan (x y : float) :
  PrimFloat.is_finite x = true → PrimFloat.is_finite y = true →
  PrimFloat.is_nan (x * y) = false.
Proof.
  rewrite !is_finite_true, is_nan_false, mul_spec. unfold SF64mul, not_nan.
  destruct (Prim2SF x) as [sx|sx| |sx mx ex], (Prim2SF y) as [sy|sy| |sy my ey];
    simpl; try done.
  intros _ _. by apply binary_round_aux_not_nan.
Qed.

(** A finite non-zero constant times a number is a number. *)
Lemma mul_const_not_nan (k x : float) (sk : bool) (mk : positive) (ek : Z) :
  Prim2SF k = S754_finite sk mk ek →
  PrimFloat.is_nan x = false → PrimFloat.is_nan (k * x) = false.
Proof.
  intros Hk. rewrite !is_nan_false, mul_spec, Hk. unfold SF64mul, not_nan.
  destruct (Prim2SF x) as [sx|sx| |sx mx ex]; simpl; try done.
  intros _. by apply binary_round_aux_not_nan.
Qed.

Lemma add_not_nan (x y : float) :
  PrimFloat.is_finite x = true → PrimFloat.is_nan y = false →
  PrimFloat.is_nan (x + y) = false.
Proof.
  rewrite is_finite_true, !is_nan_false, add_spec. unfold SF64add, not_nan.
  destruct (Prim2SF x) as [sx|sx| |sx mx ex], (Prim2SF y) as [sy|sy| |sy my ey];
    simpl; try done.
  - by destruct sx, sy.
  - intros _ _. apply binary_normalize_not_nan.
Qed.

Lemma sub_not_nan (x y : float) :
  PrimFloat.is_finite x = true → PrimFloat.is_finite y = true →
  PrimFloat.is_nan (x - y) = false.
Proof.
  rewrite !is_finite_true, is_nan_false, sub_spec. unfold SF64sub, not_nan.
  destruct (Prim2SF x) as [sx|sx| |sx mx ex], (Prim2SF y) as [sy|sy| |sy my ey];
    simpl; try done.
  - by destruct sx, sy.
  - intros _ _. apply binary_normalize_not_nan.
Qed.

Lemma SFdiv_core_binary_nonneg (m1 e1 m2 e2 : Z) :
  0 ≤ m1 → 0 < m2 → 0 ≤ (SFdiv_core_binary prec emax m1 e1 m2 e2).1.1.
Proof.
  intros H1 H2. unfold SFdiv_core_binary.
  set (s := _ - _ - _).
  set (m' := match s with Z.pos _ => Z.shiftl m1 s | 0 => m1 | Z.neg _ => 0 end).
  assert (Hm' : 0 ≤ m').
  { subst m'. destruct s; [done| |done]. by apply Z.shiftl_nonneg. }
  pose proof (Z_div_mod m' m2 ltac:(lia)) as Hdiv.
  destruct (Z.div_eucl m' m2) as [q r]. simpl. nia.
Qed.

(** A number divided by a finite non-zero constant is a number. *)
Lemma div_const_not_nan (x k : float) (sk : bool) (mk : positive) (ek : Z) :
  Prim2SF k = S754_finite sk mk ek →
  PrimFloat.is_nan x = false → PrimFloat.is_nan (x / k) = false.
Proof.
  intros Hk. rewrite !is_nan_false, div_spec, Hk. unfold SF64div, not_nan.
  destruct (Prim2SF x) as [sx|sx| |sx mx ex]; simpl; try done.
  intros _.
  pose proof (SFdiv_core_binary_nonneg (Z.pos mx) ex (Z.pos mk) ek ltac:(lia) ltac:(lia)) as Hq.
  destruct (SFdiv_core_binary _ _ _ _ _ _) as [[mz ez] lz]. simpl in Hq.
  by apply binary_round_aux_not_nan.
Qed.

(** The square of a float of magnitude at most one is finite. *)
Lemma mul_bounded_finite (c1 c2 : float) :
  PrimFloat.leb (abs c1) 1 = true → PrimFloat.leb (abs c2) 1 = true →
  PrimFloat.is_finite (c1 * c2) = true.
Proof.
  intros H1 H2. rewrite is_finite_true, mul_spec.
  assert (Hs1 : small (-52) (Prim2SF c1)) by (eapply small_abs_leb; [|exact H1]; reflexivity).
  assert (Hs2 : small (-52) (Prim2SF c2)) by (eapply small_abs_leb; [|exact H2]; reflexivity).
  pose proof (SFmul_small (-52) (-52) _ _ Hs1 Hs2 ltac:(lia)) as Hm.
  unfold SF64mul. by destruct (SFmul prec emax _ _).
Qed.

Lemma eqb_refl_not_nan (x : float) :
  PrimFloat.is_nan x = false → PrimFloat.eqb x x = true.
Proof. unfold PrimFloat.is_nan. by destruct (PrimFloat.eqb x x). Qed.

(** *** The order of the floats *)

Lemma valid_finite_bounds (s : bool) (m : positive) (e : Z) :
  valid_binary (S754_finite s m e) = true →
  Z.pos m < 2 ^ 53 ∧ - 1074 ≤ e ≤ 971.
Proof.
  simpl. unfold bounded, canonical_mantissa, fexp, SpecFloat.emin, prec, emax.
  intros H. apply andb_true_iff in H as [H He]. apply Z.eqb_eq in H. apply Z.leb_le in He.
  rewrite digits2_pos_size in H.
  pose proof (Pos.size_gt m) as Hgt.
  apply Pos2Z.pos_lt_pos in Hgt. rewrite Pos2Z.inj_pow in Hgt.
  split; [|lia].
  eapply Z.lt_le_trans; [exact Hgt|].
  apply Z.pow_le_mono_r; lia.
Qed.

(** An integer that orders the valid binary64 values as the floats are
    ordered ([-0] and [+0] together). *)
Definition ord (x : spec_float) : Z :=
  match x with
  | S754_zero _ | S754_nan => 0
  | S754_infinity s => cond_Zopp s (4000 * 2 ^ 53)
  | S754_finite s m e => cond_Zopp s ((e + 2000) * 2 ^ 53 + Z.pos m)
  end.

Ltac compare_by_order :=
  cbv [cond_Zopp];
  first [apply Z.compare_eq_iff; lia | apply Z.compare_lt_iff; lia | apply Z.compare_gt_iff; lia].

Lemma SFcompare_ord (x y : spec_float) :
  valid_binary x = true → valid_binary y = true →
  x ≠ S754_nan → y ≠ S754_nan →
  SFcompare x y = Some (ord x ?= ord y).
Proof.
  intros Hx Hy Hnx Hny.
  destruct x as [sx|sx| |sx mx ex], y as [sy|sy| |sy my ey]; try done;
    try apply valid_finite_bounds in Hx; try apply valid_finite_bounds in Hy;
    unfold SFcompare, ord; f_equal; symmetry.
  all: try (by (try destruct sx); (try destruct sy); compare_by_order).
  destruct sx, sy; [| compare_by_order | compare_by_order |].
  - destruct (Z.compare_spec ex ey) as [->|Hlt|Hgt]; [|compare_by_order..].
    rewrite Pos.compare_cont_spec. cbn [Pos.switch_Eq].
    destruct (Pos.compare_spec mx my) as [->|H|H]; cbn [CompOpp]; compare_by_order.
  - destruct (Z.compare_spec ex ey) as [->|Hlt|Hgt]; [|compare_by_order..].
    rewrite Pos.compare_cont_spec. cbn [Pos.switch_Eq].
    destruct (Pos.compare_spec mx my) as [->|H|H]; compare_by_order.
Qed.

Definition ford (x : float) : Z := ord (Prim2SF x).

Lemma compare_ford (x y : float) :
  PrimFloat.is_nan x = false → PrimFloat.is_nan y = false →
  SFcompare (Prim2SF x) (Prim2SF y) = Some (ford x ?= ford y).
Proof.
  rewrite !is_nan_spec. intros Hx Hy.
  apply SFcompare_ord; try apply Prim2SF_valid.
  - by destruct (Prim2SF x).
  - by destruct (Prim2SF y).
Qed.

Lemma ltb_ford (x y : float) :
  PrimFloat.is_nan x = false → PrimFloat.is_nan y = false →
  PrimFloat.ltb x y = (ford x <? ford y).
Proof.
  intros Hx Hy. rewrite ltb_spec. unfold SFltb. rewrite compare_ford by done.
  unfold Z.ltb. by destruct (ford x ?= ford y).
Qed.

Lemma eqb_ford (x y : float) :
  PrimFloat.is_nan x = false → PrimFloat.is_nan y = false →
  PrimFloat.eqb x y = (ford x =? ford y).
Proof.
  intros Hx Hy. rewrite FloatAxioms.eqb_spec. unfold SFeqb. rewrite compare_ford by done.
  destruct (Z.compare_spec (ford x) (ford y)) as [H|H|H]; symmetry;
    [by apply Z.eqb_eq|apply Z.eqb_neq; lia..].
Qed.

Lemma leb_ford (x y : float) :
  PrimFloat.is_nan x = false → PrimFloat.is_nan y = false →
  PrimFloat.leb x y = (ford x <=? ford y).
Proof.
  intros Hx Hy. rewrite leb_spec. unfold SFleb. rewrite compare_ford by done.
  unfold Z.leb. by destruct (ford x ?= ford y).
Qed.

Lemma ford_opp (x : float) : ford (- x) = - ford x.
Proof.
  unfold ford. rewrite opp_spec.
  destruct (Prim2SF x) as [s|s| |s m e]; cbn [SFopp ord]; try done;
    destruct s; cbv [cond_Zopp negb]; lia.
Qed.

End FloatFacts.

(** ** Properties of the haversine distance *)

Module GeodesyFacts.
Import FloatFacts.

(** The reference C library satisfies the laws. *)
#[export] Instance ref_libm_laws : LibmLaws RefLibm.ref_libm.
Proof.
  split; simpl.
  - reflexivity.
  - reflexivity.
  - intros x. unfold RefLibm.ref_sin. cbv zeta.
    rewrite mul_opp_opp, mul_opp_l, abs_opp.
    by destruct (PrimFloat.leb _ 1).
  - intros x. unfold RefLibm.ref_sin. cbv zeta.
    destruct (PrimFloat.leb _ 1) eqn:Hr; [|reflexivity].
    by destruct (bounded_not_nan _ 1 _ _ eq_refl Hr).
  - intros x _. unfold RefLibm.ref_cos.
    destruct (PrimFloat.leb (abs (RefLibm.nested 0 (x * x) 1 16)) 1) eqn:Hr; [exact Hr|].
    reflexivity.
  - intros x Hx. by apply mul_not_nan.
Qed.

Section WithLibm.
Context {L : Libm} {LL : LibmLaws L}.

(** [math.sin(x) ** 2] *)
Definition sin_sq (x : float) : result float := s ← Math.sin x; Math.pow2 s.

(** What follows the four trigonometric calls. *)
Definition haversine_tail (p1 c1 c2 p2 : float) : result float :=
  q ← Math.sqrt (p1 + c1 * c2 * p2)%float;
  r ← Math.asin q;
  Ok (3959 * (2 * r))%float.

Lemma calculate_distance_eq (lat1 lon1 lat2 lon2 : float) :
  Main.calculate_distance lat1 lon1 lat2 lon2
  = (p1 ← sin_sq ((Math.radians lat2 - Math.radians lat1) / 2);
     c1 ← Math.cos (Math.radians lat1);
     c2 ← Math.cos (Math.radians lat2);
     p2 ← sin_sq ((Math.radians lon2 - Math.radians lon1) / 2);
     haversine_tail p1 c1 c2 p2).
Proof.
  unfold Main.calculate_distance, sin_sq, haversine_tail, mbind, result_bind, Py.bind.
  destruct (Math.sin _) as [s1|]; [|done].
  destruct (Math.pow2 s1) as [p1|]; [|done].
  destruct (Math.cos _) as [c1|]; [|done].
  destruct (Math.cos _) as [c2|]; [|done].
  destruct (Math.sin _) as [s2|]; [|done].
  by destruct (Math.pow2 s2) as [p2|].
Qed.

(** The two copies of the function are the same function. *)
Lemma location_service_calculate_distance (lat1 lon1 lat2 lon2 : float) :
  LocationService.calculate_distance lat1 lon1 lat2 lon2
  = Main.calculate_distance lat1 lon1 lat2 lon2.
Proof. reflexivity. Qed.

(** *** Symmetry *)

Lemma math_1_opp (f : float → float) (x : float) :
  (∀ y, f (- y) = - f y)%float →
  Math.math_1 f (- x) = PrimFloat.opp <$> Math.math_1 f x.
Proof.
  intros Hodd. unfold Math.math_1.
  rewrite Hodd, !is_nan_opp, is_infinity_opp, is_finite_opp.
  destruct (_ && _); [done|]. by destruct (_ && _).
Qed.

Lemma pow2_opp (x : float) : Math.pow2 (- x) = Math.pow2 x.
Proof.
  unfold Math.pow2. rewrite is_nan_opp, is_infinity_opp, abs_opp, eqb_zero_opp.
  destruct (PrimFloat.is_nan x) eqn:Hnan; [|done]. by rewrite opp_nan.
Qed.

Lemma sin_sq_opp (x : float) : sin_sq (- x) = sin_sq x.
Proof.
  unfold sin_sq, Math.sin. rewrite (math_1_opp c_sin x sin_odd).
  destruct (Math.math_1 c_sin x) as [s|]; [|done]. apply pow2_opp.
Qed.

Lemma sin_sq_half_difference (a b : float) :
  sin_sq ((a - b) / 2) = sin_sq ((b - a) / 2).
Proof.
  destruct (sub_swap b a) as [-> | ->]; [|done].
  by rewrite div_opp_l, sin_sq_opp.
Qed.

(** The two cosine calls can be exchanged: each can only raise
    [ValueError], and the rest depends on their product only. *)
Lemma cos_exchange (a b : float) (k : float → result float) :
  (c1 ← Math.cos a; c2 ← Math.cos b; k (c1 * c2)%float)
  = (c1 ← Math.cos b; c2 ← Math.cos a; k (c1 * c2)%float).
Proof.
  unfold Math.cos, Math.math_1, mbind, result_bind, Py.bind.
  destruct (_ && _), (_ && _); try done;
    destruct (_ && _); try done; destruct (_ && _); try done.
  by rewrite mul_comm.
Qed.

Lemma calculate_distance_symmetric (lat1 lon1 lat2 lon2 : float) :
  Main.calculate_distance lat1 lon1 lat2 lon2
  = Main.calculate_distance lat2 lon2 lat1 lon1.
Proof.
  rewrite !calculate_distance_eq.
  rewrite (sin_sq_half_difference (Math.radians lat2)).
  rewrite (sin_sq_half_difference (Math.radians lon2)).
  unfold mbind at 1 5. unfold result_bind, Py.bind.
  destruct (sin_sq ((Math.radians lat1 - Math.radians lat2) / 2)) as [p1|]; [|done].
  exact (cos_exchange (Math.radians lat1) (Math.radians lat2)
           (λ c, p2 ← sin_sq ((Math.radians lon1 - Math.radians lon2) / 2);
                 q ← Math.sqrt (p1 + c * p2)%float;
                 r ← Math.asin q;
                 Ok (3959 * (2 * r))%float)).
Qed.

(** *** Distance from a point to itself *)

(** A coordinate within its range has a finite value in radians. *)
Lemma radians_finite (b : Z) (x : float) :
  small b (Prim2SF x) → b ≤ 0 → PrimFloat.is_finite (Math.radians x) = true.
Proof.
  intros Hx Hb. rewrite is_finite_spec. unfold Math.radians. rewrite mul_spec.
  assert (Hk : small (-58) (Prim2SF Math.degToRad)) by (vm_compute; split; [done|discriminate]).
  pose proof (SFmul_small b (-58) _ _ Hx Hk ltac:(lia)) as Hm.
  unfold SF64mul. by destruct (SFmul prec emax _ _).
Qed.

Lemma validate_coordinates_finite (lat lng : float) :
  LocationService.validate_coordinates lat lng = true →
  PrimFloat.is_finite (Math.radians lat) = true
  ∧ PrimFloat.is_finite (Math.radians lng) = true.
Proof.
  unfold LocationService.validate_coordinates. intros H.
  apply andb_true_iff in H as [Hlat Hlng].
  apply andb_true_iff in Hlat as [Hlat1 Hlat2].
  apply andb_true_iff in Hlng as [Hlng1 Hlng2].
  split.
  - eapply (radians_finite (-46)); [|lia].
    exact (small_between (-90) 90 lat _ _ _ _ eq_refl eq_refl Hlat1 Hlat2).
  - eapply (radians_finite (-45)); [|lia].
    exact (small_between (-180) 180 lng _ _ _ _ eq_refl eq_refl Hlng1 Hlng2).
Qed.

Lemma sin_sq_zero : sin_sq 0 = Ok 0%float.
Proof. unfold sin_sq, Math.sin, Math.math_1. rewrite sin_zero. reflexivity. Qed.

Lemma cos_finite (x : float) :
  PrimFloat.is_finite x = true →
  Math.cos x = Ok (c_cos x) ∧ PrimFloat.leb (abs (c_cos x)) 1 = true.
Proof.
  intros Hx. pose proof (cos_bounded x Hx) as Hc. split; [|done].
  destruct (bounded_not_nan (c_cos x) 1 _ _ eq_refl Hc) as [Hnan Hinf].
  unfold Math.cos, Math.math_1. by rewrite Hnan, Hinf.
Qed.

Lemma calculate_distance_self (lat lng : float) :
  LocationService.validate_coordinates lat lng = true →
  Main.calculate_distance lat lng lat lng = Ok 0%float.
Proof.
  intros Hvalid. destruct (validate_coordinates_finite lat lng Hvalid) as [Hlat Hlng].
  rewrite calculate_distance_eq, !sub_diag by done.
  change (0 / 2)%float with 0%float. rewrite sin_sq_zero.
  destruct (cos_finite _ Hlat) as [-> Hc].
  unfold haversine_tail, mbind, result_bind, Py.bind.
  rewrite (square_mul_zero _ Hc).
  change (Math.sqrt (0 + 0)%float) with (Ok 0%float : result float).
  cbv beta iota. unfold Math.asin, Math.math_1. rewrite asin_zero. reflexivity.
Qed.

(** *** The distance is a number *)

Lemma math_1_ok (f : float → float) (x r : float) :
  Math.math_1 f x = Ok r → r = f x.
Proof.
  unfold Math.math_1. destruct (_ && _); [done|]. destruct (_ && _); [done|].
  by intros [= <-].
Qed.

Lemma math_1_ok_not_nan (f : float → float) (x r : float) :
  Math.math_1 f x = Ok r → PrimFloat.is_nan x = false → PrimFloat.is_nan r = false.
Proof.
  unfold Math.math_1. intros H Hx. rewrite Hx in H. simpl in H. rewrite andb_true_r in H.
  destruct (PrimFloat.is_nan (f x)) eqn:Hr; [done|].
  destruct (_ && _); [done|]. by injection H as <-.
Qed.

Lemma is_finite_abs (x : float) : PrimFloat.is_finite (abs x) = PrimFloat.is_finite x.
Proof. rewrite !is_finite_spec, abs_spec. by destruct (Prim2SF x). Qed.

Lemma sin_ok_finite (x s : float) :
  Math.sin x = Ok s → PrimFloat.is_nan x = false → PrimFloat.is_finite s = true.
Proof.
  intros Hs Hx. apply is_finite_split.
  - by eapply math_1_ok_not_nan.
  - apply math_1_ok in Hs as ->. apply sin_not_infinite.
Qed.

Lemma pow2_ok_finite (s p : float) :
  Math.pow2 s = Ok p → PrimFloat.is_finite s = true → PrimFloat.is_finite p = true.
Proof.
  unfold Math.pow2. intros Hp Hs.
  pose proof Hs as Hs'. unfold PrimFloat.is_finite in Hs'.
  apply negb_true_iff, orb_false_iff in Hs' as [Hnan Hinf].
  rewrite Hnan, Hinf in Hp.
  destruct (PrimFloat.eqb s 0); [by injection Hp as <-|].
  destruct (PrimFloat.eqb (abs s) 1); [by injection Hp as <-|].
  destruct (PrimFloat.is_infinity (c_pow2 (abs s))) eqn:Hr; [done|].
  injection Hp as <-. apply is_finite_split; [|done].
  apply pow2_not_nan. by rewrite is_finite_abs.
Qed.

Lemma sin_sq_ok_finite (x p : float) :
  sin_sq x = Ok p → PrimFloat.is_nan x = false → PrimFloat.is_finite p = true.
Proof.
  unfold sin_sq, mbind, result_bind, Py.bind. intros Hp Hx.
  destruct (Math.sin x) as [s|] eqn:Hs; [|done].
  eapply pow2_ok_finite; [exact Hp|]. by eapply sin_ok_finite.
Qed.

Lemma half_difference_not_nan (a b : float) :
  PrimFloat.is_finite a = true → PrimFloat.is_finite b = true →
  PrimFloat.is_nan ((a - b) / 2) = false.
Proof.
  intros Ha Hb. eapply (div_const_not_nan _ 2); [reflexivity|]. by apply sub_not_nan.
Qed.

Lemma haversine_tail_not_nan (p1 c1 c2 p2 d : float) :
  PrimFloat.is_finite p1 = true → PrimFloat.is_finite p2 = true →
  PrimFloat.leb (abs c1) 1 = true → PrimFloat.leb (abs c2) 1 = true →
  haversine_tail p1 c1 c2 p2 = Ok d → PrimFloat.is_nan d = false.
Proof.
  intros Hp1 Hp2 Hc1 Hc2. unfold haversine_tail, mbind, result_bind, Py.bind.
  destruct (Math.sqrt _) as [q|] eqn:Hq; [|done].
  destruct (Math.asin q) as [r|] eqn:Hr; [|done].
  intros [= <-].
  eapply (mul_const_not_nan 3959); [reflexivity|].
  eapply (mul_const_not_nan 2); [reflexivity|].
  eapply math_1_ok_not_nan; [exact Hr|].
  eapply math_1_ok_not_nan; [exact Hq|].
  apply add_not_nan; [done|].
  apply mul_not_nan; [|done]. by apply mul_bounded_finite.
Qed.

Lemma calculate_distance_not_nan (lat1 lon1 lat2 lon2 d : float) :
  LocationService.validate_coordinates lat1 lon1 = true →
  LocationService.validate_coordinates lat2 lon2 = true →
  Main.calculate_distance lat1 lon1 lat2 lon2 = Ok d →
  PrimFloat.is_nan d = false.
Proof.
  intros Ha Hb.
  destruct (validate_coordinates_finite _ _ Ha) as [Hlat1 Hlon1].
  destruct (validate_coordinates_finite _ _ Hb) as [Hlat2 Hlon2].
  rewrite calculate_distance_eq. unfold mbind, result_bind, Py.bind.
  destruct (sin_sq ((Math.radians lat2 - Math.radians lat1) / 2)) as [p1|] eqn:Hp1; [|done].
  destruct (cos_finite _ Hlat1) as [-> Hc1].
  destruct (cos_finite _ Hlat2) as [-> Hc2].
  destruct (sin_sq ((Math.radians lon2 - Math.radians lon1) / 2)) as [p2|] eqn:Hp2; [|done].
  apply haversine_tail_not_nan; try done.
  - eapply sin_sq_ok_finite; [exact Hp1|]. by apply half_difference_not_nan.
  - eapply sin_sq_ok_finite; [exact Hp2|]. by apply half_difference_not_nan.
Qed.

(** *** Claim C8 *)

(** Python's [r1 == r2] is true: both calls return, and the floats are
    equal as floats. *)
Definition equal_floats (r1 r2 : result float) : Prop :=
  ∃ x y, r1 = Ok x ∧ r2 = Ok y ∧ PrimFloat.eqb x y = true.

(** C8: for valid coordinate pairs [a] and [b], and every C library
    satisfying [LibmLaws], the distance from [a] to itself is zero, the call
    from [a] to [b] has the outcome of the call from [b] to [a] (the same
    float, or the same exception), and when it returns the two distances are
    equal floats; this for both copies of [calculate_distance]. *)
Theorem calculate_distance_zero_and_symmetric (lat1 lon1 lat2 lon2 : float) :
  LocationService.validate_coordinates lat1 lon1 = true →
  LocationService.validate_coordinates lat2 lon2 = true →
  (equal_floats (Main.calculate_distance lat1 lon1 lat1 lon1) (Ok 0%float)
   ∧ Main.calculate_distance lat1 lon1 lat2 lon2
     = Main.calculate_distance lat2 lon2 lat1 lon1
   ∧ (is_ok (Main.calculate_distance lat1 lon1 lat2 lon2) = true →
      equal_floats (Main.calculate_distance lat1 lon1 lat2 lon2)
                   (Main.calculate_distance lat2 lon2 lat1 lon1)))
  ∧ (equal_floats (LocationService.calculate_distance lat1 lon1 lat1 lon1) (Ok 0%float)
     ∧ LocationService.calculate_distance lat1 lon1 lat2 lon2
       = LocationService.calculate_distance lat2 lon2 lat1 lon1
     ∧ (is_ok (LocationService.calculate_distance lat1 lon1 lat2 lon2) = true →
        equal_floats (LocationService.calculate_distance lat1 lon1 lat2 lon2)
                     (LocationService.calculate_distance lat2 lon2 lat1 lon1))).
Proof.
  intros Ha Hb.
  pose proof (calculate_distance_self lat1 lon1 Ha) as Hself.
  pose proof (calculate_distance_symmetric lat1 lon1 lat2 lon2) as Hsym.
  assert (Hmain :
    equal_floats (Main.calculate_distance lat1 lon1 lat1 lon1) (Ok 0%float)
    ∧ Main.calculate_distance lat1 lon1 lat2 lon2
      = Main.calculate_distance lat2 lon2 lat1 lon1
    ∧ (is_ok (Main.calculate_distance lat1 lon1 lat2 lon2) = true →
       equal_floats (Main.calculate_distance lat1 lon1 lat2 lon2)
                    (Main.calculate_distance lat2 lon2 lat1 lon1))).
  { split; [|split; [exact Hsym|]].
    - exists 0%float, 0%float. by rewrite Hself.
    - rewrite <- Hsym.
      destruct (Main.calculate_distance lat1 lon1 lat2 lon2) as [d|] eqn:Hd; [|done].
      intros _. exists d, d. split; [done|]. split; [done|].
      apply eqb_refl_not_nan.
      exact (calculate_distance_not_nan lat1 lon1 lat2 lon2 d Ha Hb Hd). }
  split; exact Hmain.
Qed.

End WithLibm.

(** Paris and New York under the reference C library. *)
Lemma calculate_distance_zero_and_symmetric_witness :
  LocationService.validate_coordinates 48.8566 2.3522 = true
  ∧ LocationService.validate_coordinates 40.7128 (-74.006) = true
  ∧ (equal_floats
       (Main.calculate_distance (L:=RefLibm.ref_libm) 48.8566 2.3522 48.8566 2.3522)
       (Ok 0%float)
     ∧ Main.calculate_distance (L:=RefLibm.ref_libm) 48.8566 2.3522 40.7128 (-74.006)
       = Main.calculate_distance (L:=RefLibm.ref_libm) 40.7128 (-74.006) 48.8566 2.3522)
  ∧ Main.calculate_distance (L:=RefLibm.ref_libm) 48.8566 2.3522 40.7128 (-74.006)
    = Ok 3627.3170206006125%float.
Proof.
  assert (Ha : LocationService.validate_coordinates 48.8566 2.3522 = true) by reflexivity.
  assert (Hb : LocationService.validate_coordinates 40.7128 (-74.006) = true) by reflexivity.
  split; [exact Ha|]. split; [exact Hb|].
  pose proof (calculate_distance_zero_and_symmetric (L:=RefLibm.ref_libm)
                48.8566 2.3522 40.7128 (-74.006) Ha Hb) as [(H1 & H2 & _) _].
  split; [split; [exact H1|exact H2]|].
  vm_compute. reflexivity.
Defined.

End GeodesyFacts.

(** ** Properties of the search endpoint *)

Module MainFacts.
Import Main FloatFacts.

Section WithLibm.
Context {L : Libm}.

(** *** Sorting permutes *)

Lemma insert_by_key_perm (r : Restaurant) (l : list Restaurant) :
  insert_by_key r l ≡ₚ r :: l.
Proof.
  induction l as [|y l IH]; simpl; [done|].
  destruct (key_lt (sort_key r) (sort_key y)); [done|].
  rewrite IH. apply Permutation_swap.
Qed.

Lemma fold_insert_perm (rs acc : list Restaurant) :
  fold_left (fun a r => insert_by_key r a) rs acc ≡ₚ rs ++ acc.
Proof.
  revert acc. induction rs as [|r rs IH]; intros acc; simpl; [done|].
  rewrite IH, insert_by_key_perm. symmetry. apply Permutation_middle.
Qed.

Lemma sort_restaurants_perm (rs : list Restaurant) : sort_restaurants rs ≡ₚ rs.
Proof. unfold sort_restaurants. rewrite fold_insert_perm. by rewrite app_nil_r. Qed.

Lemma sort_restaurants_length (rs : list Restaurant) :
  length (sort_restaurants rs) = length rs.
Proof. by rewrite sort_restaurants_perm. Qed.

(** *** Sorting sorts, on keys without NaN *)

(** A restaurant whose sort key holds no NaN. *)
Definition key_ok (r : Restaurant) : Prop :=
  PrimFloat.is_nan (key_distance r) = false ∧ PrimFloat.is_nan (key_rating r) = false.

(** The sort key as a pair of integers, ordered as the floats are. *)
Definition zkey (r : Restaurant) : Z * Z := (ford (key_distance r), ford (key_rating r)).

Definition zkey_lt (a b : Z * Z) : Prop := a.1 < b.1 ∨ (a.1 = b.1 ∧ a.2 < b.2).

(** [a] is not after [b] in the order of the keys. *)
Definition key_le (a b : Restaurant) : Prop := ¬ zkey_lt (zkey b) (zkey a).

Lemma key_lt_zkey (a b : Restaurant) :
  key_ok a → key_ok b →
  key_lt (sort_key a) (sort_key b) = true ↔ zkey_lt (zkey a) (zkey b).
Proof.
  intros [Ha1 Ha2] [Hb1 Hb2]. unfold key_lt, sort_key, zkey, zkey_lt. cbn [fst snd].
  rewrite !eqb_ford, !ltb_ford by done.
  destruct (Z.eqb_spec (ford (key_distance a)) (ford (key_distance b))) as [E1|E1];
    cbn [negb].
  - destruct (Z.eqb_spec (ford (key_rating a)) (ford (key_rating b))) as [E2|E2];
      cbn [negb]; [split; [done|lia]|].
    rewrite Z.ltb_lt. lia.
  - rewrite Z.ltb_lt. lia.
Qed.

Lemma HdRel_insert_by_key (y r : Restaurant) (l : list Restaurant) :
  HdRel key_le y l → key_le y r → HdRel key_le y (insert_by_key r l).
Proof.
  intros Hl Hr. destruct l as [|z l]; simpl; [by constructor|].
  destruct (key_lt _ _); constructor; [done|]. by inversion Hl.
Qed.

Lemma insert_by_key_sorted (r : Restaurant) (l : list Restaurant) :
  key_ok r → Forall key_ok l → Sorted key_le l → Sorted key_le (insert_by_key r l).
Proof.
  intros Hr Hall Hsorted. induction l as [|y l IH]; simpl.
  - repeat constructor.
  - apply Forall_cons in Hall as [Hy Hall]. apply Sorted_inv in Hsorted as [Hs Hhd].
    destruct (key_lt (sort_key r) (sort_key y)) eqn:Hlt.
    + apply key_lt_zkey in Hlt; [|done..].
      constructor; [by constructor|]. constructor.
      unfold key_le, zkey_lt in *. lia.
    + constructor; [by apply IH|].
      apply HdRel_insert_by_key; [done|].
      intros Hrev. apply key_lt_zkey in Hrev; [|done..]. congruence.
Qed.

Lemma sort_restaurants_sorted (rs : list Restaurant) :
  Forall key_ok rs → Sorted key_le (sort_restaurants rs).
Proof.
  unfold sort_restaurants.
  assert (H : ∀ acc, Forall key_ok acc → Sorted key_le acc → Forall key_ok rs →
                     Sorted key_le (fold_left (λ a r, insert_by_key r a) rs acc)).
  { induction rs as [|r rs IH]; intros acc Hacc Hs Hrs; simpl; [done|].
    apply Forall_cons in Hrs as [Hr Hrs].
    apply IH; [|by apply insert_by_key_sorted|done].
    rewrite insert_by_key_perm. by constructor. }
  intros Hrs. apply H; [constructor|constructor|done].
Qed.

(** The order the specification states: ascending distance, and on equal
    distances descending rating, an absent rating counting as 0. *)
Definition rating_or_zero (r : Restaurant) : float := default 0%float (rating r).

Definition in_stated_order (r1 r2 : Restaurant) : Prop :=
  ∃ d1 d2, distance_miles r1 = Some d1 ∧ distance_miles r2 = Some d2
    ∧ (PrimFloat.ltb d1 d2 = true
       ∨ (PrimFloat.eqb d1 d2 = true
          ∧ PrimFloat.leb (rating_or_zero r2) (rating_or_zero r1) = true)).

(** A restaurant whose distance is a number other than zero and whose
    rating is not NaN. *)
Definition regular (r : Restaurant) : Prop :=
  ∃ d, distance_miles r = Some d
       ∧ PrimFloat.is_nan d = false
       ∧ PrimFloat.eqb d 0 = false
       ∧ PrimFloat.is_nan (rating_or_zero r) = false.

Lemma regular_key (r : Restaurant) :
  regular r →
  key_ok r
  ∧ ∃ d, distance_miles r = Some d ∧ PrimFloat.is_nan d = false
         ∧ zkey r = (ford d, - ford (rating_or_zero r)).
Proof.
  intros (d & Hd & Hnan & Hzero & Hrate).
  unfold key_ok, zkey, key_distance, key_rating, rating_or_zero in *.
  rewrite Hd, Hzero. destruct (rating r) as [x|]; simpl in *.
  - destruct (PrimFloat.eqb x 0) eqn:Hx.
    + rewrite eqb_ford in Hx by done. apply Z.eqb_eq in Hx.
      split; [done|]. exists d. rewrite Hx. done.
    + rewrite is_nan_opp, ford_opp. split; [done|]. by exists d.
  - split; [done|]. by exists d.
Qed.

Lemma key_le_stated_order (r1 r2 : Restaurant) :
  regular r1 → regular r2 → key_le r1 r2 → in_stated_order r1 r2.
Proof.
  intros H1 H2 Hle.
  pose proof H1 as (? & _ & _ & _ & Hn1). pose proof H2 as (? & _ & _ & _ & Hn2).
  apply regular_key in H1 as (_ & d1 & Hd1 & Hnan1 & Hk1).
  apply regular_key in H2 as (_ & d2 & Hd2 & Hnan2 & Hk2).
  unfold key_le, zkey_lt in Hle. rewrite Hk1, Hk2 in Hle. cbn [fst snd] in Hle.
  exists d1, d2. split; [done|]. split; [done|].
  rewrite ltb_ford, eqb_ford, leb_ford by done.
  destruct (Z.ltb_spec (ford d1) (ford d2)); [by left|right].
  split; [apply Z.eqb_eq|apply Z.leb_le]; lia.
Qed.

Lemma Sorted_key_le_stated (l : list Restaurant) :
  Forall regular l → Sorted key_le l → Sorted in_stated_order l.
Proof.
  induction l as [|r l IH]; intros Hall Hs; [constructor|].
  apply Forall_cons in Hall as [Hr Hall]. apply Sorted_inv in Hs as [Hs Hhd].
  constructor; [by apply IH|].
  destruct l as [|y l]; constructor.
  apply Forall_cons in Hall as [Hy _]. apply key_le_stated_order; [done..|].
  by inversion Hhd.
Qed.

(** Where no distance is zero or NaN and no rating is NaN, the sorted list
    is in the stated order. *)
Lemma sort_restaurants_stated_order (rs : list Restaurant) :
  Forall regular rs → Sorted in_stated_order (sort_restaurants rs).
Proof.
  intros Hall. apply Sorted_key_le_stated.
  - by rewrite sort_restaurants_perm.
  - apply sort_restaurants_sorted.
    eapply Forall_impl; [exact Hall|]. intros r Hr. by apply regular_key in Hr as [? _].
Qed.

(** *** What a formatted restaurant carries *)

(** The distance of a result is the rounded haversine distance between the
    origin and the result's own coordinates. *)
Definition distance_from (lat lng : float) (r : Restaurant) : Prop :=
  ∃ d, calculate_distance lat lng (latitude r) (longitude r) = Ok d
       ∧ distance_miles r = Some (round2 d).

Lemma format_restaurant_data_distance key p lat lng r :
  format_restaurant_data key p lat lng = Ok r → distance_from lat lng r.
Proof.
  unfold format_restaurant_data, mbind, result_bind. intros H.
  destruct (number_to_float _) as [rlat|] eqn:E1; simpl in H; [|done].
  destruct (number_to_float _) as [rlng|] eqn:E2 in H; simpl in H; [|done].
  destruct (calculate_distance lat lng rlat rlng) as [d|] eqn:E3; simpl in H; [|done].
  destruct (opt_number_to_float _) as [rt|]; simpl in H; [|done].
  injection H as <-. by exists d.
Qed.

Section Search.
Variables (key : option string) (lat lng min_rating : float) (max_results : Z).

(** A result comes from a place of the page that passed the rating filter. *)
Definition from_place (ps : list place) (r : Restaurant) : Prop :=
  ∃ p, p ∈ ps
       ∧ number_ge (default (NInt 0) (p_rating p)) (NFloat min_rating) = true
       ∧ format_restaurant_data key p lat lng = Ok r.

Lemma process_page_spec (ps : list place) (rs rs' : list Restaurant) :
  process_page key lat lng min_rating max_results ps rs = Ok rs' →
  (Z.of_nat (length rs) ≤ max_results → Z.of_nat (length rs') ≤ max_results)
  ∧ (∃ new, rs' = rs ++ new ∧ Forall (from_place ps) new).
Proof.
  revert rs. induction ps as [|p ps IH]; intros rs; simpl.
  - intros [= <-]. split; [done|]. exists []. by rewrite app_nil_r.
  - destruct (Z.geb_spec (Z.of_nat (length rs)) max_results) as [Hge|Hlt].
    { intros [= <-]. split; [done|]. exists []. by rewrite app_nil_r. }
    destruct (number_ge _ _) eqn:Hrate.
    + unfold mbind, result_bind.
      destruct (format_restaurant_data key p lat lng) as [r|] eqn:Hfmt; simpl; [|done].
      intros Hrec. apply IH in Hrec as [Hlen (new & -> & Hnew)]. split.
      * intros _. apply Hlen. rewrite length_app. simpl. lia.
      * exists (r :: new). split; [by rewrite <- app_assoc|].
        constructor.
        -- exists p. split; [left|done].
        -- eapply Forall_impl; [exact Hnew|].
           intros x (q & Hq & ?). exists q. split; [by right|done].
    + intros Hrec. apply IH in Hrec as [Hlen (new & -> & Hnew)].
      split; [done|]. exists new. split; [done|].
      eapply Forall_impl; [exact Hnew|].
      intros x (q & Hq & ?). exists q. split; [by right|done].
Qed.

(** The places of all the pages a script holds. *)
Definition reply_places (r : http_reply) : list place :=
  match r with
  | Reply d => default [] (results d)
  | _ => []
  end.

Definition script_places (replies : list http_reply) : list place :=
  concat (map reply_places replies).

Lemma paginate_spec (replies : list http_reply) (token : option string)
    (rs rs' : list Restaurant) :
  paginate key lat lng min_rating max_results replies token rs = Some (Ok rs') →
  (Z.of_nat (length rs) ≤ max_results → Z.of_nat (length rs') ≤ max_results)
  ∧ (∃ new, rs' = rs ++ new ∧ Forall (from_place (script_places replies)) new).
Proof.
  revert token rs. induction replies as [|r replies IH]; intros token rs; simpl.
  - destruct (_ && _); [done|]. intros [= <-]. split; [done|].
    exists []. by rewrite app_nil_r.
  - destruct (_ && _).
    2:{ intros [= <-]. split; [done|]. exists []. by rewrite app_nil_r. }
    destruct r as [| | |d]; simpl; try done.
    destruct (status_ok d); simpl.
    2:{ intros [= <-]. split; [done|]. exists []. by rewrite app_nil_r. }
    destruct (process_page _ _ _ _ _ _ rs) as [rs1|] eqn:Hpage; [|done].
    apply process_page_spec in Hpage as [Hlen1 (new1 & -> & Hnew1)].
    intros Hrec. apply IH in Hrec as [Hlen2 (new2 & -> & Hnew2)].
    split; [auto|].
    exists (new1 ++ new2). split; [by rewrite app_assoc|].
    unfold script_places. simpl. apply Forall_app. split.
    + eapply Forall_impl; [exact Hnew1|].
      intros x (q & Hq & ?). exists q. split; [|done].
      apply elem_of_app. by left.
    + eapply Forall_impl; [exact Hnew2|].
      intros x (q & Hq & ?). exists q. split; [|done].
      apply elem_of_app. by right.
Qed.

(** A reply after which the loop cannot ask for another page. *)
Definition terminal (r : http_reply) : bool :=
  match r with
  | Reply d => negb (status_ok d && token_truthy (next_page_token d))
  | _ => true
  end.

(** With a script whose last reply is terminal the loop comes to an end. *)
Lemma paginate_total (replies : list http_reply) (token : option string)
    (rs : list Restaurant) :
  (token_truthy token = true → ∃ r, last replies = Some r ∧ terminal r = true) →
  is_Some (paginate key lat lng min_rating max_results replies token rs).
Proof.
  revert token rs. induction replies as [|r replies IH]; intros token rs Hlast; simpl.
  - destruct (token_truthy token) eqn:Htok; simpl; [|done].
    destruct Hlast as (? & ? & _); done.
  - destruct (_ && _) eqn:Hcond; [|done].
    apply andb_true_iff in Hcond as [Htok _].
    destruct r as [| | |d]; simpl; try done.
    destruct (status_ok d) eqn:Hst; simpl; [|done].
    destruct (process_page _ _ _ _ _ _ rs) as [rs1|]; [|done].
    apply IH. intros Htok'.
    destruct (Hlast Htok) as (r' & Hr' & Hterm).
    destruct replies as [|r2 replies].
    + simpl in Hr'. injection Hr' as <-. simpl in Hterm.
      rewrite Hst, Htok' in Hterm. done.
    + exists r'. split; [|done]. exact Hr'.
Qed.

(** The continuation loop runs through the pages of [pre], each a success
    with the loop condition true before it, from one loop state (token,
    accumulated list) to another. *)
Inductive continues :
    list http_reply → option string * list Restaurant
    → option string * list Restaurant → Prop :=
| continues_nil st : continues [] st st
| continues_page d replies token rs rs' st :
    token_truthy token = true →
    Z.of_nat (length rs) < max_results →
    status_ok d = true →
    process_page key lat lng min_rating max_results (default [] (results d)) rs = Ok rs' →
    continues replies (next_page_token d, rs') st →
    continues (Reply d :: replies) (token, rs) st.

Lemma paginate_continues (pre suf : list http_reply) (st st' : option string * list Restaurant) :
  continues pre st st' →
  paginate key lat lng min_rating max_results (pre ++ suf) st.1 st.2
  = paginate key lat lng min_rating max_results suf st'.1 st'.2.
Proof.
  induction 1 as [|d replies token rs rs' st Htok Hlen Hst Hpage _ IH]; [done|].
  simpl. rewrite Htok. destruct (Z.ltb_spec (Z.of_nat (length rs)) max_results); [|lia].
  simpl. rewrite Hst. simpl. rewrite Hpage. exact IH.
Qed.

(** At any iteration of the loop, a reply whose [status] is not ["OK"] ends
    the loop with the list accumulated so far ... *)
Lemma paginate_status_not_ok d rest token rs :
  token_truthy token = true →
  Z.of_nat (length rs) < max_results →
  status_ok d = false →
  paginate key lat lng min_rating max_results (Reply d :: rest) token rs = Some (Ok rs).
Proof.
  intros Htok Hlen Hst. simpl. rewrite Htok.
  destruct (Z.ltb_spec (Z.of_nat (length rs)) max_results); [|lia].
  simpl. by rewrite Hst.
Qed.

(** ... while a request that fails raises [httpx.HTTPError] out of the loop. *)
Lemma paginate_http_error r rest token rs :
  token_truthy token = true →
  Z.of_nat (length rs) < max_results →
  r = TransportError ∨ r = StatusError →
  paginate key lat lng min_rating max_results (r :: rest) token rs = Some (Raise HTTPError).
Proof.
  intros Htok Hlen Hr. simpl. rewrite Htok.
  destruct (Z.ltb_spec (Z.of_nat (length rs)) max_results); [|lia].
  by destruct Hr as [-> | ->].
Qed.

End Search.

(** *** Claim C1 *)

(** The script of upstream replies is complete when its last reply is
    terminal. *)
Definition script_complete (first : http_reply) (more : list http_reply) : Prop :=
  ∃ r, last (first :: more) = Some r ∧ terminal r = true.

(** C1 (as amended): for a request whose [max_results] is within its bounds
    and a complete script of upstream replies, [find_restaurants] comes to an
    end, and when it returns a response the list has at most [max_results]
    entries, [total_found] is its length, and every entry's [distance_miles]
    is the rounded haversine distance from the origin to the coordinates the
    upstream gave for it.  No entry is compared with the radius. *)
Theorem find_restaurants_length_and_distance
    (key : option string) (lat lng radius min_rating : float) (max_results : Z)
    (first : http_reply) (more : list http_reply) :
  1 ≤ max_results ≤ 60 →
  script_complete first more →
  ∃ out, find_restaurants key lat lng radius min_rating max_results first more = Some out
    ∧ ∀ resp, out = Ok resp →
        Z.of_nat (length (restaurants resp)) ≤ max_results
        ∧ total_found resp = Z.of_nat (length (restaurants resp))
        ∧ Forall (distance_from lat lng) (restaurants resp).
Proof.
  intros Hmax Hscript.
  assert (Hsome : is_Some (search_pages key lat lng min_rating max_results first more)).
  { unfold search_pages. destruct first as [| | |d]; simpl; try done.
    destruct (status_ok d) eqn:Hst; simpl; [|done].
    destruct (process_page _ _ _ _ _ _ []) as [rs0|]; [|done].
    apply paginate_total. intros Htok.
    destruct Hscript as (r & Hr & Hterm).
    destruct more as [|r2 more].
    - simpl in Hr. injection Hr as <-. simpl in Hterm. rewrite Hst, Htok in Hterm. done.
    - exists r. split; [|done]. exact Hr. }
  destruct Hsome as [pages Hpages].
  unfold find_restaurants. rewrite Hpages.
  destruct (negb (key_configured key)); [eexists; split; [done|]; intros ? [=]|].
  destruct (int_of_float _); [|eexists; split; [done|]; intros ? [=]].
  eexists; split; [done|]. intros resp Hresp.
  unfold mbind, result_bind in Hresp.
  destruct pages as [rs|e]; simpl in Hresp; [|by destruct e].
  injection Hresp as <-. simpl.
  assert (Hrs : Z.of_nat (length rs) ≤ max_results ∧ Forall (distance_from lat lng) rs).
  { unfold search_pages in Hpages. destruct first as [| | |d]; simpl in Hpages; try done.
    destruct (status_ok d); simpl in Hpages; [|done].
    destruct (process_page _ _ _ _ _ _ []) as [rs0|] eqn:Hp0; [|done].
    apply process_page_spec in Hp0 as [Hlen0 (new0 & -> & Hnew0)].
    apply paginate_spec in Hpages as [Hlen (new & -> & Hnew)].
    split; [apply Hlen, Hlen0; simpl; lia|].
    simpl. apply Forall_app. split.
    - eapply Forall_impl; [exact Hnew0|].
      intros x (p & _ & _ & Hf). by eapply format_restaurant_data_distance.
    - eapply Forall_impl; [exact Hnew|].
      intros x (p & _ & _ & Hf). by eapply format_restaurant_data_distance. }
  destruct Hrs as [Hlen Hdist]. rewrite sort_restaurants_length.
  split; [done|]. split; [done|].
  by rewrite sort_restaurants_perm.
Qed.

(** *** The order of a response *)

(** A response in which no distance is zero or NaN and no rating is NaN is
    in the stated order: ascending distance, then descending rating. *)
Lemma find_restaurants_stated_order
    (key : option string) (lat lng radius min_rating : float) (max_results : Z)
    (first : http_reply) (more : list http_reply) (resp : RestaurantSearchResponse) :
  find_restaurants key lat lng radius min_rating max_results first more = Some (Ok resp) →
  Forall regular (restaurants resp) →
  Sorted in_stated_order (restaurants resp).
Proof.
  unfold find_restaurants. destruct (negb _); [done|].
  destruct (int_of_float _); [|done].
  destruct (search_pages _ _ _ _ _ _ _) as [r|]; [|done].
  intros [= H]. unfold mbind, result_bind in H.
  destruct (handle_errors r) as [rs|e]; simpl in H; [|done].
  injection H as <-. simpl. intros Hreg.
  apply sort_restaurants_stated_order. by rewrite <- (sort_restaurants_perm rs).
Qed.

(** *** Claim C3 *)

(** The response built from the list the pages produced. *)
Definition response_of (lat lng radius : float) (rs : list Restaurant)
    : RestaurantSearchResponse :=
  {| restaurants := sort_restaurants rs;
     total_found := Z.of_nat (length (sort_restaurants rs));
     search_location := (lat, lng);
     radius_miles := radius |}.

(** C3 (as amended): the first page succeeded and gave [rs0]; the loop then
    ran through the successful pages [pre] and holds [rs] when it sends its
    next request.  If the reply to that request carries a [status] other than
    ["OK"], the search returns the response built from [rs], the results
    accumulated so far.  If instead the request fails in transport or with an
    HTTP error status, the whole search fails with a 500 error. *)
Theorem find_restaurants_continuation_failure
    (key : option string) (lat lng radius min_rating : float) (max_results : Z)
    (d0 : search_page) (rs0 : list Restaurant) (pre rest : list http_reply)
    (token : option string) (rs : list Restaurant) (bad : http_reply) :
  key_configured key = true →
  is_ok (int_of_float (radius * METERS_PER_MILE)) = true →
  status_ok d0 = true →
  process_page key lat lng min_rating max_results (default [] (results d0)) [] = Ok rs0 →
  continues key lat lng min_rating max_results pre (next_page_token d0, rs0) (token, rs) →
  token_truthy token = true →
  Z.of_nat (length rs) < max_results →
  ((∃ d, bad = Reply d ∧ status_ok d = false) →
     find_restaurants key lat lng radius min_rating max_results (Reply d0) (pre ++ bad :: rest)
     = Some (Ok (response_of lat lng radius rs)))
  ∧ (bad = TransportError ∨ bad = StatusError →
     find_restaurants key lat lng radius min_rating max_results (Reply d0) (pre ++ bad :: rest)
     = Some (Raise (HTTPException 500 "Failed to fetch restaurant data"))).
Proof.
  intros Hkey Hrad Hst0 Hp0 Hcont Htok Hlen.
  assert (Hpages : search_pages key lat lng min_rating max_results (Reply d0) (pre ++ bad :: rest)
                   = paginate key lat lng min_rating max_results (bad :: rest) token rs).
  { unfold search_pages. simpl. rewrite Hst0. simpl. rewrite Hp0.
    exact (paginate_continues _ _ _ _ _ pre (bad :: rest) _ _ Hcont). }
  unfold find_restaurants. rewrite Hkey. simpl.
  destruct (int_of_float (radius * METERS_PER_MILE)) as [m|]; [|done].
  rewrite Hpages. split.
  - intros (d & -> & Hd). by rewrite paginate_status_not_ok.
  - intros Hbad. by rewrite paginate_http_error.
Qed.

End WithLibm.
End MainFacts.

(** ** Concrete searches *)

(** All runs below are under the reference C library [RefLibm.ref_libm]. *)

Module MainExamples.
Import Main MainFacts RefLibm.

Definition place_at (id : string) (la lo : float) (rt : option number) : place :=
  {| p_place_id := Some id;
     p_name := Some id;
     p_vicinity := None;
     p_geometry := Some {| g_location := Some {| lat := Some (NFloat la); lng := Some (NFloat lo) |} |};
     p_rating := rt;
     p_user_ratings_total := None;
     p_price_level := None;
     p_types := None;
     p_photos := None |}.

Definition ok_page (ps : list place) (token : option string) : http_reply :=
  Reply {| status := Some "OK"; results := Some ps; next_page_token := token |}.

Definition api_key : option string := Some "key".

(** One degree of longitude east of the origin, on the equator: 69.1
    miles. *)
Definition far_place : place := place_at "far" 0 1 None.

(** C1, counterexample: radius 10 and 60 results at most, both within their
    bounds; the upstream page holds a place 69.1 miles away and the search
    returns it. *)
Lemma find_restaurants_beyond_radius :
  ∃ resp r,
    find_restaurants api_key 0 0 10 0 60 (ok_page [far_place] None) [] = Some (Ok resp)
    ∧ restaurants resp = [r]
    ∧ distance_miles r = Some 69.1%float
    ∧ PrimFloat.leb 69.1 10 = false.
Proof. vm_compute. eexists _, _. repeat split. Qed.

Lemma find_restaurants_length_and_distance_witness :
  1 ≤ 60 ≤ 60
  ∧ script_complete (ok_page [far_place] None) []
  ∧ ∃ out, find_restaurants api_key 0 0 10 0 60 (ok_page [far_place] None) [] = Some out
      ∧ ∀ resp, out = Ok resp →
          Z.of_nat (length (restaurants resp)) ≤ 60
          ∧ total_found resp = Z.of_nat (length (restaurants resp))
          ∧ Forall (distance_from 0 0) (restaurants resp).
Proof.
  assert (H1 : 1 ≤ 60 ≤ 60) by lia.
  assert (H2 : script_complete (ok_page [far_place] None) []).
  { eexists. split; reflexivity. }
  split; [exact H1|]. split; [exact H2|].
  exact (find_restaurants_length_and_distance api_key 0 0 10 0 60 _ _ H1 H2).
Defined.

(** Manhattan: one place half a mile north of the user, one at the user's
    own coordinates. *)
Definition half_mile_north : place := place_at "north" 40.72 (-74.006) (Some (NFloat 4)).
Definition on_the_spot : place := place_at "here" 40.7128 (-74.006) (Some (NFloat 4.5)).

(** C2, at the failing input: the place at distance 0.0 is returned after
    the place at distance 0.5. *)
Theorem find_restaurants_zero_distance_last :
  ∃ resp,
    find_restaurants api_key 40.7128 (-74.006) 10 0 60
      (ok_page [half_mile_north; on_the_spot] None) [] = Some (Ok resp)
    ∧ map (λ r, (place_id r, distance_miles r, rating r)) (restaurants resp)
      = [("north", Some 0.5%float, Some 4%float); ("here", Some 0%float, Some 4.5%float)]
    ∧ PrimFloat.ltb 0.5 0 = false
    ∧ PrimFloat.eqb 0.5 0 = false.
Proof. vm_compute. eexists. repeat split. Qed.

(** C3, counterexample: the first page succeeds with one result and a
    continuation token; the continuation request fails in transport, and the
    search fails as a whole. *)
Lemma find_restaurants_transport_error_fails :
  find_restaurants api_key 40.7128 (-74.006) 10 0 60
    (ok_page [half_mile_north] (Some "page2")) [TransportError]
  = Some (Raise (HTTPException 500 "Failed to fetch restaurant data"))
  ∧ ∃ r, process_page api_key 40.7128 (-74.006) 0 60 [half_mile_north] [] = Ok [r].
Proof. vm_compute. split; [done|]. by eexists. Qed.

Definition not_ok_page : search_page :=
  {| status := Some "INVALID_REQUEST"; results := None; next_page_token := None |}.

Lemma find_restaurants_continuation_failure_witness :
  ∃ r,
    process_page api_key 40.7128 (-74.006) 0 60 [half_mile_north] [] = Ok [r]
    ∧ find_restaurants api_key 40.7128 (-74.006) 10 0 60
        (ok_page [half_mile_north] (Some "page2")) [Reply not_ok_page]
      = Some (Ok (response_of 40.7128 (-74.006) 10 [r]))
    ∧ find_restaurants api_key 40.7128 (-74.006) 10 0 60
        (ok_page [half_mile_north] (Some "page2")) [StatusError]
      = Some (Raise (HTTPException 500 "Failed to fetch restaurant data")).
Proof.
  destruct (process_page api_key 40.7128 (-74.006) 0 60 [half_mile_north] []) as [rs|] eqn:Hp;
    [|vm_compute in Hp; discriminate].
  destruct rs as [|r [|]]; [vm_compute in Hp; discriminate| |vm_compute in Hp; discriminate].
  exists r. split; [reflexivity|].
  pose proof (λ bad, find_restaurants_continuation_failure api_key 40.7128 (-74.006) 10 0 60
    {| status := Some "OK"; results := Some [half_mile_north]; next_page_token := Some "page2" |}
    [r] [] [] (Some "page2") [r] bad
    eq_refl eq_refl eq_refl Hp (continues_nil _ _ _ _ _ _) eq_refl eq_refl) as H.
  split.
  - apply (H (Reply not_ok_page)). exists not_ok_page. split; reflexivity.
  - apply (H StatusError). right. reflexivity.
Defined.

End MainExamples.

(** ** Properties of the location resolver *)

Module LocationFacts.
Import LocationService.

Lemma geocode_address_source key address reply loc :
  geocode_address key address reply = Some loc → source loc = "geocoded_address".
Proof.
  unfold geocode_address. intros H.
  destruct (negb (key_configured key)); [done|].
  destruct reply as [| | |data]; try done.
  destruct (negb (status_ok data)); [done|].
  destruct (nonempty_results data) as [[result ?]|]; [|done].
  destruct (geometry_location result) as [[[la|] [lo|]]|]; try done.
  destruct (fold_left _ _ _) as [[[c s] co] z].
  destruct (number_to_float la); [|done].
  destruct (number_to_float lo); [|done].
  by injection H as <-.
Qed.

(** The dictionary [reverse_geocode] returns has no ["city"] key. *)
Lemma reverse_geocode_keys key lat lng reply info :
  reverse_geocode key lat lng reply = Some info →
  dom info = {["formatted_address"; "place_id"]} ∧ info !! "city" = None.
Proof.
  unfold reverse_geocode. intros H.
  destruct (negb (key_configured key)); [done|].
  destruct reply as [| | |data]; try done.
  destruct (negb (status_ok data)); [done|].
  destruct (nonempty_results data) as [[result ?]|]; [|done].
  injection H as <-. split.
  - rewrite !dom_insert_L, dom_empty_L. set_solver.
  - by rewrite !lookup_insert_ne.
Qed.

(** C7: given both explicit coordinates and an address, the resolver
    returns the location built from the coordinates, with source
    ["user_provided"]; it is not what geocoding the address gives, whatever
    the remote services answer. *)
Theorem get_user_location_prefers_coordinates
    (key : option string) (svc : services) (ip_address : option string)
    (address : string) (lat lng : float) :
  ∃ loc,
    get_user_location key svc ip_address (Some address) (Some lat) (Some lng) = Some loc
    ∧ latitude loc = lat
    ∧ longitude loc = lng
    ∧ source loc = "user_provided"
    ∧ ∀ g, geocode_address key address (geocode_reply svc) = Some g →
           Some g ≠ get_user_location key svc ip_address (Some address) (Some lat) (Some lng).
Proof.
  eexists. split; [reflexivity|]. simpl. repeat split.
  intros g Hg [= ->]. apply geocode_address_source in Hg. done.
Qed.

(** C10: every location produced from explicit coordinates has no city:
    the dictionary of [reverse_geocode] holds only ["formatted_address"] and
    ["place_id"], and the resolver reads ["city"] from it. *)
Theorem get_user_location_coordinates_no_city
    (key : option string) (svc : services) (ip_address address : option string)
    (lat lng : float) :
  (∀ info, reverse_geocode key lat lng (reverse_reply svc) = Some info →
           dom info = {["formatted_address"; "place_id"]} ∧ info !! "city" = None)
  ∧ ∃ loc,
      get_user_location key svc ip_address address (Some lat) (Some lng) = Some loc
      ∧ source loc = "user_provided"
      ∧ city loc = None.
Proof.
  split; [intros info; apply reverse_geocode_keys|].
  eexists. split; [reflexivity|]. simpl. split; [done|].
  destruct (reverse_geocode key lat lng (reverse_reply svc)) as [info|] eqn:Hrev; [|done].
  apply reverse_geocode_keys in Hrev as [_ Hcity].
  by destruct (dict_truthy info).
Qed.

End LocationFacts.

(** ** Properties of the fallback analysis *)

Module FallbackFacts.
Import AnalysisModel.

(** The score a category block carries. *)
Definition score_of (blk : gmap string value) : option value := blk !! "score".

(** The three blocks scored from the rating. *)
Definition rated_scores (a : RestaurantAnalysis) : list (option value) :=
  [score_of (food_quality a); score_of (service_quality a); score_of (atmosphere a)].

(** [round(rating * 2)], the score the specification names. *)
Definition rounded_double (n : number) : result Z :=
  match n with
  | NInt z => Ok (z * 2)
  | NFloat f => round_to_int (f * 2)
  end.

(** A price level both versions read the same way: absent, [None], an
    integer or a boolean. *)
Definition plain_price (v : value) : bool :=
  match v with
  | VNone | VInt _ | VBool _ => true
  | _ => false
  end.

Section Builtins.
Context {B : PyBuiltins}.

(** The backend's result is the first version's with every integer score
    converted by [str], which raises where the interpreter refuses the
    conversion. *)
Definition stringify_score (blk : gmap string value) : result (gmap string value) :=
  match blk !! "score" with
  | Some (VInt z) => s ← py_str_int z; Ok (<["score" := VStr s]> blk)
  | _ => Ok blk
  end.

Definition stringify_scores (a : RestaurantAnalysis) : result RestaurantAnalysis :=
  food ← stringify_score (food_quality a);
  service ← stringify_score (service_quality a);
  atmo ← stringify_score (atmosphere a);
  value ← stringify_score (value_for_money a);
  Ok {| overall_rating := overall_rating a;
        overall_summary := overall_summary a;
        food_quality := food;
        service_quality := service;
        atmosphere := atmo;
        value_for_money := value;
        key_highlights := key_highlights a;
        potential_concerns := potential_concerns a;
        recommendation := recommendation a;
        best_for := best_for a;
        price_range_assessment := price_range_assessment a;
        confidence_score := confidence_score a |}.

Lemma py_str_int_accepted z : str_refused z = false → py_str_int z = Ok (str_of_int z).
Proof. unfold py_str_int. by intros ->. Qed.

Lemma py_str_int_refused z : str_refused z = true → py_str_int z = Raise ValueError.
Proof. unfold py_str_int. by intros ->. Qed.

Lemma py_str_int_7 : py_str_int 7 = Ok "7".
Proof. by vm_compute. Qed.

Lemma stringify_block z h c :
  stringify_score (block (VInt z) h c)
  = (λ s, block (VStr s) h c) <$> py_str_int z.
Proof.
  unfold stringify_score, block. rewrite lookup_insert_eq.
  destruct (py_str_int z) as [s|e]; simpl; [|done].
  f_equal; try apply insert_insert_eq.
Qed.

Lemma stringify_value_block s :
  stringify_score (value_block (VInt 7) s) = Ok (value_block (VStr "7") s).
Proof.
  unfold stringify_score, value_block. rewrite lookup_insert_eq, py_str_int_7. simpl.
  f_equal; try apply insert_insert_eq.
Qed.

Lemma coerce_rating_not_str v :
  isinstance_str v = false → BackendAnalysisService.coerce_rating v = v.
Proof. by destruct v. Qed.

Lemma plain_price_lookup v :
  plain_price v = true → BackendAnalysisService.price_description v = price_lookup v.
Proof. by destruct v. Qed.

(** C6 (as amended): take a record whose rating (0 when absent; in the
    backend version a string is converted first, to 0 when it does not
    parse) is a number [n] with [int(n * 2) = k], and whose rating and review
    count an f-string formats.  When [int(price_level)] does not raise on a
    price level that passes [isdigit()] and [str] accepts [k], the backend
    version returns an analysis whose food, service and atmosphere scores
    are the decimal string of [k], whose value-for-money score is ["7"] and
    whose confidence is 0.3.  When the rating is not a string and the price
    level can be looked up, the first version returns one whose three
    scores are [k], whose value-for-money score is 7 and whose confidence is
    0.3.  [int] truncates towards zero. *)
Theorem create_fallback_analysis_scores (d : gmap string value) (n : number) (k : Z) :
  value_number (BackendAnalysisService.coerce_rating (dict_get d "rating" (VInt 0))) = Ok n →
  doubled_int n = Ok k →
  formats (dict_get d "rating" (VInt 0)) = true →
  formats (dict_get d "total_ratings" (VInt 0)) = true →
  (is_ok (BackendAnalysisService.price_description (dict_get d "price_level" (VInt 2))) = true →
   str_refused k = false →
   ∃ b, BackendAnalysisService.create_fallback_analysis d = Ok b
        ∧ rated_scores b = replicate 3 (Some (VStr (str_of_int k)))
        ∧ score_of (value_for_money b) = Some (VStr "7")
        ∧ confidence_score b = 0.3%float)
  ∧ (isinstance_str (dict_get d "rating" (VInt 0)) = false →
     is_ok (price_lookup (dict_get d "price_level" (VInt 2))) = true →
     ∃ a, AnalysisService.create_fallback_analysis d = Ok a
          ∧ rated_scores a = replicate 3 (Some (VInt k))
          ∧ score_of (value_for_money a) = Some (VInt 7)
          ∧ confidence_score a = 0.3%float).
Proof.
  intros Hn Hk _ _. split.
  - intros Hprice Hstr.
    unfold BackendAnalysisService.create_fallback_analysis, mbind, result_bind.
    rewrite Hn. simpl.
    destruct (BackendAnalysisService.price_description _) as [desc|]; [|done]. simpl.
    rewrite Hk. simpl. rewrite (py_str_int_accepted k Hstr). simpl.
    eexists. split; [reflexivity|]. done.
  - intros Hstr Hprice.
    rewrite coerce_rating_not_str in Hn by done.
    unfold AnalysisService.create_fallback_analysis, mbind, result_bind.
    rewrite Hn. simpl.
    destruct (price_lookup _) as [desc|]; [|done]. simpl.
    rewrite Hk. simpl. eexists. split; [reflexivity|]. done.
Qed.

(** C9 (as amended): on a record whose rating is not a string and whose
    price level is absent, [None], an integer or a boolean, the backend
    version raises what the first version raises; where the first version
    returns, the backend returns the same analysis with each integer score
    replaced by its decimal string, and raises [ValueError] when [str]
    refuses the score for its number of digits. *)
Theorem create_fallback_analysis_backend_stringifies (d : gmap string value) :
  isinstance_str (dict_get d "rating" (VInt 0)) = false →
  plain_price (dict_get d "price_level" (VInt 2)) = true →
  BackendAnalysisService.create_fallback_analysis d
  = AnalysisService.create_fallback_analysis d ≫= stringify_scores.
Proof.
  intros Hstr Hprice.
  unfold BackendAnalysisService.create_fallback_analysis,
    AnalysisService.create_fallback_analysis, mbind, result_bind.
  rewrite coerce_rating_not_str by done.
  destruct (value_number _) as [n|]; simpl; [|done].
  rewrite plain_price_lookup by done.
  destruct (price_lookup _) as [desc|]; simpl; [|done].
  destruct (doubled_int n) as [k|]; simpl; [|done].
  unfold stringify_scores, mbind, result_bind. simpl.
  rewrite !stringify_block, stringify_value_block.
  by destruct (py_str_int k).
Qed.

End Builtins.

(** *** Concrete records *)

Definition rated (rating : value) : gmap string value := {["rating" := rating]}.

(** Two kinds of record the first version scores and the backend refuses.
    Under the bound of 4300 digits, a rating of 4300 digits is of the second
    kind: its double has 4301. *)
Lemma create_fallback_analysis_price_level_refused (B : PyBuiltins) (s : string) :
  str_isdigit s = true → int_of_isdigit s = Raise ValueError →
  BackendAnalysisService.create_fallback_analysis
    (<["price_level" := VStr s]> (rated (VInt 4))) = Raise ValueError
  ∧ is_ok (AnalysisService.create_fallback_analysis
             (<["price_level" := VStr s]> (rated (VInt 4)))) = true.
Proof.
  intros Hd Hi.
  unfold BackendAnalysisService.create_fallback_analysis,
    AnalysisService.create_fallback_analysis, mbind, result_bind.
  assert (Hr : dict_get (<["price_level" := VStr s]> (rated (VInt 4))) "rating" (VInt 0)
               = VInt 4) by reflexivity.
  assert (Hp : dict_get (<["price_level" := VStr s]> (rated (VInt 4))) "price_level" (VInt 2)
               = VStr s) by reflexivity.
  rewrite Hr, Hp. simpl. by rewrite Hd, Hi.
Qed.

Lemma create_fallback_analysis_score_refused (B : PyBuiltins) (z : Z) :
  str_refused (z * 2) = true →
  BackendAnalysisService.create_fallback_analysis (rated (VInt z)) = Raise ValueError
  ∧ is_ok (AnalysisService.create_fallback_analysis (rated (VInt z))) = true.
Proof.
  intros Hz.
  unfold BackendAnalysisService.create_fallback_analysis,
    AnalysisService.create_fallback_analysis, mbind, result_bind.
  assert (Hr : dict_get (rated (VInt z)) "rating" (VInt 0) = VInt z) by reflexivity.
  assert (Hp : dict_get (rated (VInt z)) "price_level" (VInt 2) = VInt 2) by reflexivity.
  rewrite Hr, Hp. simpl. by rewrite (py_str_int_refused _ Hz).
Qed.

Lemma str_refused_4301_digits (B : PyBuiltins) :
  int_max_str_digits = 4300%N →
  str_refused (5 * 10 ^ 4299) = false ∧ str_refused (5 * 10 ^ 4299 * 2) = true.
Proof. unfold str_refused. intros ->. by vm_compute. Qed.

(** C6, counterexample: for rating 4 the value-for-money score is 7 where
    [round(4 * 2)] is 8; for rating 4.3 the food score is [int(8.6) = 8]
    where [round(8.6)] is 9. *)
Lemma create_fallback_analysis_not_rounded :
  (∀ B : PyBuiltins,
     ∃ a, AnalysisService.create_fallback_analysis (rated (VInt 4)) = Ok a
          ∧ score_of (value_for_money a) = Some (VInt 7))
  ∧ rounded_double (NInt 4) = Ok 8
  ∧ (∀ B : PyBuiltins,
        ∃ a b, AnalysisService.create_fallback_analysis (rated (VFloat 4.3)) = Ok a
               ∧ BackendAnalysisService.create_fallback_analysis (rated (VFloat 4.3)) = Ok b
               ∧ score_of (food_quality a) = Some (VInt 8)
               ∧ score_of (food_quality b) = Some (VStr "8"))
  ∧ rounded_double (NFloat 4.3) = Ok 9.
Proof.
  split; [|split; [|split]].
  - intros B. eexists. split; [reflexivity|]. by vm_compute.
  - by vm_compute.
  - intros B. eexists _, _. split; [reflexivity|]. split; [reflexivity|]. by vm_compute.
  - by vm_compute.
Qed.

Lemma create_fallback_analysis_scores_witness :
  ∃ d n k, ∀ B : PyBuiltins,
    value_number (BackendAnalysisService.coerce_rating (dict_get d "rating" (VInt 0))) = Ok n
    ∧ doubled_int n = Ok k
    ∧ formats (dict_get d "rating" (VInt 0)) = true
    ∧ formats (dict_get d "total_ratings" (VInt 0)) = true
    ∧ (is_ok (BackendAnalysisService.price_description (dict_get d "price_level" (VInt 2)))
       = true →
       str_refused k = false →
       ∃ b, BackendAnalysisService.create_fallback_analysis d = Ok b
            ∧ rated_scores b = replicate 3 (Some (VStr (str_of_int k)))
            ∧ score_of (value_for_money b) = Some (VStr "7")
            ∧ confidence_score b = 0.3%float)
    ∧ (isinstance_str (dict_get d "rating" (VInt 0)) = false →
       is_ok (price_lookup (dict_get d "price_level" (VInt 2))) = true →
       ∃ a, AnalysisService.create_fallback_analysis d = Ok a
            ∧ rated_scores a = replicate 3 (Some (VInt k))
            ∧ score_of (value_for_money a) = Some (VInt 7)
            ∧ confidence_score a = 0.3%float).
Proof.
  exists (rated (VFloat 4.3)), (NFloat 4.3), 8. intros B.
  assert (H1 : value_number (BackendAnalysisService.coerce_rating
                 (dict_get (rated (VFloat 4.3)) "rating" (VInt 0))) = Ok (NFloat 4.3))
    by reflexivity.
  assert (H2 : doubled_int (NFloat 4.3) = Ok 8) by (vm_compute; reflexivity).
  assert (H3 : formats (dict_get (rated (VFloat 4.3)) "rating" (VInt 0)) = true)
    by reflexivity.
  assert (H4 : formats (dict_get (rated (VFloat 4.3)) "total_ratings" (VInt 0)) = true)
    by (vm_compute; reflexivity).
  split; [exact H1|]. split; [exact H2|]. split; [exact H3|]. split; [exact H4|].
  exact (create_fallback_analysis_scores _ _ _ H1 H2 H3 H4).
Defined.

(** C9, counterexample: for rating 4 the first version scores the food
    with the integer 8 and the backend with the string ["8"]; the two
    analyses differ.  A string price level and a string rating are read
    differently too. *)
Lemma create_fallback_analysis_versions_differ :
  (∀ B : PyBuiltins,
     ∃ a b, AnalysisService.create_fallback_analysis (rated (VInt 4)) = Ok a
            ∧ BackendAnalysisService.create_fallback_analysis (rated (VInt 4)) = Ok b
            ∧ score_of (food_quality a) = Some (VInt 8)
            ∧ score_of (food_quality b) = Some (VStr "8")
            ∧ a ≠ b)
  ∧ (∀ B : PyBuiltins,
       ∃ a b, AnalysisService.create_fallback_analysis
                (<["price_level" := VStr "3"]> (rated (VInt 4))) = Ok a
              ∧ BackendAnalysisService.create_fallback_analysis
                  (<["price_level" := VStr "3"]> (rated (VInt 4))) = Ok b
              ∧ recommendation a = "Consider visiting if you enjoy moderately priced dining options"
              ∧ recommendation b = "Consider visiting if you enjoy upscale dining options")
  ∧ (∀ B : PyBuiltins,
       AnalysisService.create_fallback_analysis (rated (VStr "4.5")) = Raise TypeError
       ∧ BackendAnalysisService.create_fallback_analysis (rated (VStr "4.5")) ≠ Raise TypeError).
Proof.
  split; [|split].
  - intros B. eexists _, _. split; [reflexivity|]. split; [reflexivity|].
    split; [by vm_compute|]. split; [by vm_compute|].
    intros Heq. apply (f_equal (λ x, score_of (food_quality x))) in Heq.
    vm_compute in Heq. discriminate.
  - intros B. eexists _, _. split; [reflexivity|]. split; [reflexivity|].
    split; by vm_compute.
  - intros B. split; [reflexivity|].
    unfold BackendAnalysisService.create_fallback_analysis, mbind, result_bind.
    change (dict_get (rated (VStr "4.5")) "rating" (VInt 0)) with (VStr "4.5").
    simpl. destruct (float_of_str "4.5") as [f|]; simpl.
    + unfold int_of_float, py_str_int.
      destruct (Prim2SF (f * 2)); simpl; try done; by destruct (str_refused _).
    + by vm_compute.
Qed.

Lemma create_fallback_analysis_backend_stringifies_witness :
  ∃ d, ∀ B : PyBuiltins,
    isinstance_str (dict_get d "rating" (VInt 0)) = false
    ∧ plain_price (dict_get d "price_level" (VInt 2)) = true
    ∧ BackendAnalysisService.create_fallback_analysis d
      = AnalysisService.create_fallback_analysis d ≫= stringify_scores.
Proof.
  exists (rated (VFloat 4.3)). intros B.
  assert (H1 : isinstance_str (dict_get (rated (VFloat 4.3)) "rating" (VInt 0)) = false)
    by reflexivity.
  assert (H2 : plain_price (dict_get (rated (VFloat 4.3)) "price_level" (VInt 2)) = true)
    by reflexivity.
  split; [exact H1|]. split; [exact H2|].
  exact (create_fallback_analysis_backend_stringifies _ H1 H2).
Defined.

End FallbackFacts.

(** ** Properties of validation *)

Module ValidationFacts.
Import AnalysisModel Validation.

Example strip_sample :
  strip (String (ascii_of_N 10) "  {a}  ") = "{a}"
  ∧ endswith ("x" +:+ fence) fence = true
  ∧ find "{" "ab{c}d}" = Some 2%nat
  ∧ rfind_succ "}" "ab{c}d}" = 7%nat
  ∧ slice "ab{c}d}e" 2 7 = "{c}d}"
  ∧ rfind_succ "}" "abc" = 0%nat.
Proof. vm_compute. repeat split. Qed.

(** *** Floats: strictly below implies below or equal *)

Lemma ltb_leb (x y : float) : PrimFloat.ltb x y = true → PrimFloat.leb x y = true.
Proof.
  rewrite ltb_spec, leb_spec. unfold SFltb, SFleb.
  by destruct (SFcompare (Prim2SF x) (Prim2SF y)) as [[]|].
Qed.

(** The clamp lands in the unit interval, for every float, NaN included. *)
Lemma clamp_unit_range (c : float) :
  PrimFloat.leb 0 (clamp_unit c) = true ∧ PrimFloat.leb (clamp_unit c) 1 = true.
Proof.
  unfold clamp_unit, float_min, float_max.
  destruct (PrimFloat.ltb c 1) eqn:H1.
  - destruct (PrimFloat.ltb 0 c) eqn:H0.
    + split; by apply ltb_leb.
    + by vm_compute.
  - by vm_compute.
Qed.

Lemma clamp_unit_above (c : float) :
  PrimFloat.ltb c 1 = false → clamp_unit c = 1%float.
Proof. unfold clamp_unit, float_min, float_max. by intros ->. Qed.

Section Builtins.
Context {B : PyBuiltins}.

(** *** The loops over the field lists *)

Lemma ensure_lookup_same wanted dflt d field :
  wanted dflt = true →
  ∃ v, ensure wanted dflt d field !! field = Some v ∧ wanted v = true
       ∧ (d !! field = Some v ∨ v = dflt).
Proof.
  intros Hd. unfold ensure. destruct (d !! field) as [v|] eqn:Hv.
  - destruct (wanted v) eqn:Hw.
    + exists v. by rewrite Hv; auto.
    + exists dflt. rewrite lookup_insert_eq. auto.
  - exists dflt. rewrite lookup_insert_eq. auto.
Qed.

Lemma ensure_lookup_other wanted dflt d field k :
  field ≠ k → ensure wanted dflt d field !! k = d !! k.
Proof.
  intros Hne. unfold ensure. destruct (d !! field) as [v|].
  - destruct (wanted v); [done|]. by rewrite lookup_insert_ne.
  - by rewrite lookup_insert_ne.
Qed.

Lemma fold_ensure_other wanted dflt fields d k :
  k ∉ fields → fold_left (ensure wanted dflt) fields d !! k = d !! k.
Proof.
  revert d. induction fields as [|f fields IH]; intros d Hk; simpl; [done|].
  apply not_elem_of_cons in Hk as [Hne Hk].
  rewrite IH by done. by apply ensure_lookup_other.
Qed.

Lemma fold_ensure_in wanted dflt fields d k :
  wanted dflt = true → NoDup fields → k ∈ fields →
  ∃ v, fold_left (ensure wanted dflt) fields d !! k = Some v ∧ wanted v = true
       ∧ (d !! k = Some v ∨ v = dflt).
Proof.
  intros Hd. revert d. induction fields as [|f fields IH]; intros d Hnd Hk; simpl.
  - by apply elem_of_nil in Hk.
  - apply NoDup_cons in Hnd as [Hf Hnd].
    apply elem_of_cons in Hk as [->|Hk].
    + rewrite fold_ensure_other by done. by apply ensure_lookup_same.
    + destruct (IH (ensure wanted dflt d f) Hnd Hk) as (v & Hv & Hw & Hor).
      exists v. split; [done|]. split; [done|].
      rewrite ensure_lookup_other in Hor; [done|]. by intros ->.
Qed.

(** *** The confidence step *)

(** With the key present, the confidence becomes the clamped float when
    [float(...)] succeeds and 0.5 when it raises [ValueError] or
    [TypeError]; the result lies in [0, 1]. *)
Lemma validate_confidence_present (d : gmap string value) (v : value) :
  d !! "confidence_score" = Some v →
  match py_float v with
  | Ok c =>
      validate_confidence d = Ok (<["confidence_score" := VFloat (clamp_unit c)]> d)
      ∧ PrimFloat.leb 0 (clamp_unit c) = true ∧ PrimFloat.leb (clamp_unit c) 1 = true
  | Raise ValueError | Raise TypeError =>
      validate_confidence d = Ok (<["confidence_score" := VFloat 0.5]> d)
  | Raise e => validate_confidence d = Raise e
  end.
Proof.
  intros Hv. unfold validate_confidence. rewrite Hv.
  destruct (py_float v) as [c|e].
  - split; [done|]. apply clamp_unit_range.
  - by destruct e.
Qed.

Ltac decide_fields := compute_done.

(** Equality of two closed terms, checked by evaluation. *)
Ltac vm_refl :=
  match goal with |- ?x = ?y => vm_cast_no_check (@eq_refl _ y) end.

Ltac field_cases H :=
  unfold string_fields, list_fields, dict_fields in H;
  repeat (apply elem_of_cons in H as [->|H]);
  [..|by apply elem_of_nil in H].

(** The loops after the confidence step do not touch the confidence. *)
Lemma validate_keeps_confidence (d d' : gmap string value) :
  _validate_analysis_dict d = Ok d' →
  ∃ d1, validate_confidence d = Ok d1
        ∧ d' !! "confidence_score" = d1 !! "confidence_score".
Proof.
  unfold _validate_analysis_dict, mbind, result_bind.
  destruct (validate_confidence d) as [d1|]; unfold Py.bind; [|done].
  intros H. apply Ok_inj in H. subst d'. exists d1. split; [done|].
  rewrite (fold_ensure_other _ _ dict_fields) by decide_fields.
  rewrite (fold_ensure_other _ _ list_fields) by decide_fields.
  by rewrite (fold_ensure_other _ _ string_fields) by decide_fields.
Qed.

(** The confidence step changes no other key. *)
Lemma validate_confidence_other (d d1 : gmap string value) (k : string) :
  validate_confidence d = Ok d1 → k ≠ "confidence_score" → d1 !! k = d !! k.
Proof.
  intros Hc Hk. unfold validate_confidence in Hc.
  destruct (d !! "confidence_score") as [v|]; [|by apply Ok_inj in Hc as <-].
  destruct (py_float v) as [c|[]]; try done; apply Ok_inj in Hc as <-;
    by rewrite lookup_insert_ne.
Qed.

(** After validation every string, list and dictionary field is present
    with its type, holding the payload's value or the documented default. *)
Lemma validate_shapes (d d' : gmap string value) :
  _validate_analysis_dict d = Ok d' →
  (∀ k, k ∈ string_fields →
        ∃ s, d' !! k = Some (VStr s) ∧ (d !! k = Some (VStr s) ∨ s = "Not available"))
  ∧ (∀ k, k ∈ list_fields →
        ∃ l, d' !! k = Some (VList l) ∧ (d !! k = Some (VList l) ∨ l = []))
  ∧ (∀ k, k ∈ dict_fields →
        ∃ m, d' !! k = Some (VDict m)
             ∧ (d !! k = Some (VDict m) ∨ VDict m = default_block)).
Proof.
  unfold _validate_analysis_dict, mbind, result_bind.
  destruct (validate_confidence d) as [d1|] eqn:Hc; unfold Py.bind; [|done].
  intros H. apply Ok_inj in H. subst d'.
  pose proof (λ k, validate_confidence_other d d1 k Hc) as Hd1.
  assert (Hs : NoDup string_fields) by decide_fields.
  assert (Hl : NoDup list_fields) by decide_fields.
  assert (Hdf : NoDup dict_fields) by decide_fields.
  split; [|split].
  - intros k Hk.
    destruct (fold_ensure_in isinstance_str (VStr "Not available") string_fields d1 k
                eq_refl Hs Hk) as (v & Hv & Hw & Hor).
    destruct v as [| | | |s| |]; try done. exists s.
    rewrite Hd1 in Hor by (field_cases Hk; done).
    split; [|destruct Hor as [Hor|Hor]; [by left|right; congruence]].
    rewrite (fold_ensure_other _ _ dict_fields) by (field_cases Hk; decide_fields).
    by rewrite (fold_ensure_other _ _ list_fields) by (field_cases Hk; decide_fields).
  - intros k Hk.
    destruct (fold_ensure_in isinstance_list (VList []) list_fields
                (fold_left (ensure isinstance_str (VStr "Not available")) string_fields d1) k
                eq_refl Hl Hk) as (v & Hv & Hw & Hor).
    destruct v as [| | | | |l|]; try done. exists l.
    rewrite (fold_ensure_other _ _ string_fields) in Hor by (field_cases Hk; decide_fields).
    rewrite Hd1 in Hor by (field_cases Hk; done).
    split; [|destruct Hor as [Hor|Hor]; [by left|right; congruence]].
    by rewrite (fold_ensure_other _ _ dict_fields) by (field_cases Hk; decide_fields).
  - intros k Hk.
    destruct (fold_ensure_in isinstance_dict default_block dict_fields
                (fold_left (ensure isinstance_list (VList [])) list_fields
                   (fold_left (ensure isinstance_str (VStr "Not available")) string_fields d1)) k
                eq_refl Hdf Hk) as (v & Hv & Hw & Hor).
    destruct v as [| | | | | |m]; try done. exists m.
    rewrite (fold_ensure_other _ _ list_fields) in Hor by (field_cases Hk; decide_fields).
    rewrite (fold_ensure_other _ _ string_fields) in Hor by (field_cases Hk; decide_fields).
    rewrite Hd1 in Hor by (field_cases Hk; done).
    split; [done|]. destruct Hor as [Hor|Hor]; [by left|by right].
Qed.

(** The scenario of the specification: the string ["1.7"] is clamped to
    exactly 1.0 (given that [float("1.7")] is the float 1.7). *)
Lemma validate_confidence_string_above_one (d : gmap string value) :
  float_of_str "1.7" = Some 1.7%float →
  d !! "confidence_score" = Some (VStr "1.7") →
  ∃ d', _validate_analysis_dict d = Ok d'
        ∧ d' !! "confidence_score" = Some (VFloat 1).
Proof.
  intros Hparse Hd.
  pose proof (validate_confidence_present d _ Hd) as Hv.
  simpl in Hv. rewrite Hparse in Hv. destruct Hv as [Hv _].
  unfold _validate_analysis_dict, mbind, result_bind. rewrite Hv. unfold Py.bind.
  eexists. split; [reflexivity|].
  rewrite (fold_ensure_other _ _ dict_fields) by decide_fields.
  rewrite (fold_ensure_other _ _ list_fields) by decide_fields.
  rewrite (fold_ensure_other _ _ string_fields) by decide_fields.
  rewrite lookup_insert_eq. by rewrite clamp_unit_above.
Qed.

Lemma py_float_raises (v : value) (e : exn) :
  py_float v = Raise e → e = TypeError ∨ e = ValueError ∨ e = OverflowError.
Proof.
  destruct v as [|b|z|f|s|l|m]; simpl; try (intros [= <-]; auto); try done.
  - unfold float_of_int. destruct (binary_normalize _ _ _ _ _); intros [= <-]; auto.
  - destruct (float_of_str s); intros [= <-]; auto.
Qed.

(** When the confidence is present and [float(...)] does not overflow on
    it, the confidence step succeeds and leaves a float in [0, 1]. *)
Lemma validate_confidence_in_range (d : gmap string value) (v : value) :
  d !! "confidence_score" = Some v →
  py_float v ≠ Raise OverflowError →
  ∃ c, validate_confidence d = Ok (<["confidence_score" := VFloat c]> d)
       ∧ PrimFloat.leb 0 c = true ∧ PrimFloat.leb c 1 = true.
Proof.
  intros Hv Hover. pose proof (validate_confidence_present d v Hv) as Hc.
  destruct (py_float v) as [c|e] eqn:E.
  - by exists (clamp_unit c).
  - apply py_float_raises in E as [-> | [-> | ->]]; [| |done];
      exists 0.5%float; (split; [done|by vm_compute]).
Qed.

(** With that, and when the payload's lists hold elements pydantic accepts
    as strings, validation and construction give a complete analysis. *)
Lemma analysis_of_payload_complete (d : gmap string value) (v : value) :
  d !! "confidence_score" = Some v →
  py_float v ≠ Raise OverflowError →
  (∀ k l, k ∈ list_fields → d !! k = Some (VList l) → is_Some (mapM element_str l)) →
  is_Some (analysis_of_payload (VDict d)).
Proof.
  intros Hv Hover Hlists. unfold analysis_of_payload.
  destruct (validate_confidence_in_range d v Hv Hover) as (c & Hc & H0 & H1).
  destruct (_validate_analysis_dict d) as [d'|e] eqn:Hval.
  2:{ unfold _validate_analysis_dict, mbind, result_bind in Hval.
      by rewrite Hc in Hval. }
  destruct (validate_shapes d d' Hval) as (Hstr & Hlst & Hdct).
  destruct (validate_keeps_confidence d d' Hval) as (d1 & Hd1 & Hconf).
  assert (Hfc : is_Some (field_confidence d')).
  { unfold field_confidence. rewrite Hconf. rewrite Hc in Hd1. apply Ok_inj in Hd1 as <-.
    by rewrite lookup_insert_eq, H0, H1. }
  assert (Hfs : ∀ k, k ∈ string_fields → is_Some (field_str d' k)).
  { intros k Hk. destruct (Hstr k Hk) as (s & Hs & _). unfold field_str. by rewrite Hs. }
  assert (Hfd : ∀ k, k ∈ dict_fields → is_Some (field_dict d' k)).
  { intros k Hk. destruct (Hdct k Hk) as (m & Hm & _). unfold field_dict. by rewrite Hm. }
  assert (Hfl : ∀ k, k ∈ list_fields → is_Some (field_str_list d' k)).
  { intros k Hk. destruct (Hlst k Hk) as (l & Hl & Hor). unfold field_str_list. rewrite Hl.
    destruct Hor as [Hor| ->]; [by eapply Hlists|done]. }
  unfold RestaurantAnalysis_of_dict.
  destruct (Hfs "overall_rating" ltac:(decide_fields)) as [? ->].
  destruct (Hfs "overall_summary" ltac:(decide_fields)) as [? ->].
  destruct (Hfs "recommendation" ltac:(decide_fields)) as [? ->].
  destruct (Hfs "price_range_assessment" ltac:(decide_fields)) as [? ->].
  destruct (Hfd "food_quality" ltac:(decide_fields)) as [? ->].
  destruct (Hfd "service_quality" ltac:(decide_fields)) as [? ->].
  destruct (Hfd "atmosphere" ltac:(decide_fields)) as [? ->].
  destruct (Hfd "value_for_money" ltac:(decide_fields)) as [? ->].
  destruct (Hfl "key_highlights" ltac:(decide_fields)) as [? ->].
  destruct (Hfl "potential_concerns" ltac:(decide_fields)) as [? ->].
  destruct (Hfl "best_for" ltac:(decide_fields)) as [? ->].
  destruct Hfc as [? ->]. done.
Qed.

(** *** Claims C4 and C5 *)

(** The dictionary validation makes of the empty object: every field but
    the confidence. *)
Definition defaults_without_confidence : gmap string value :=
  list_to_map
    [("overall_rating", VStr "Not available");
     ("overall_summary", VStr "Not available");
     ("recommendation", VStr "Not available");
     ("price_range_assessment", VStr "Not available");
     ("key_highlights", VList []);
     ("potential_concerns", VList []);
     ("best_for", VList []);
     ("food_quality", default_block);
     ("service_quality", default_block);
     ("atmosphere", default_block);
     ("value_for_money", default_block)].

(** C4, at the failing input: the empty object parses as an object, and
    validation gives it every default except a confidence; the constructor
    then rejects the dictionary, [analyze_restaurant] has no analysis, and
    [analyze_single_restaurant] answers with the fallback. *)
Theorem validate_empty_object_incomplete (restaurant_data : gmap string value) :
  _validate_analysis_dict ∅ = Ok defaults_without_confidence
  ∧ defaults_without_confidence !! "confidence_score" = None
  ∧ RestaurantAnalysis_of_dict defaults_without_confidence = None
  ∧ analysis_of_payload (VDict ∅) = None
  ∧ (json_loads "{}" = Some (VDict ∅) →
     analyze_single_restaurant restaurant_data (Content (Some "{}"))
     = BackendAnalysisService.create_fallback_analysis restaurant_data).
Proof.
  assert (Hval : _validate_analysis_dict ∅ = Ok defaults_without_confidence) by vm_refl.
  assert (Hnone : RestaurantAnalysis_of_dict defaults_without_confidence = None) by vm_refl.
  split; [exact Hval|]. split; [vm_refl|]. split; [exact Hnone|].
  assert (Hpay : analysis_of_payload (VDict ∅) = None).
  { unfold analysis_of_payload. by rewrite Hval. }
  split; [done|].
  intros Hjson. unfold analyze_single_restaurant, analyze_restaurant.
  change (String.eqb "{}" "") with false. cbv iota.
  assert (Htext : analysis_of_text "{}" = None).
  { unfold analysis_of_text.
    change (strip "{}") with "{}"%string.
    change (startswith "{}" (fence +:+ "json")) with false. cbv iota.
    change (endswith "{}" fence) with false. cbv iota.
    cbv zeta. by rewrite Hjson. }
  by rewrite Htext.
Qed.

(** An integer literal of 401 digits. *)
Definition huge : Z := 10 ^ 400.

(** C5, at the failing input: a confidence that is an integer beyond the
    range of a float makes [float(...)] raise [OverflowError], which the
    handler for [ValueError] and [TypeError] does not catch: validation
    raises instead of clamping, and the payload yields no analysis. *)
Theorem validate_confidence_overflow :
  py_float (VInt huge) = Raise OverflowError
  ∧ _validate_analysis_dict {["confidence_score" := VInt huge]} = Raise OverflowError
  ∧ analysis_of_payload (VDict {["confidence_score" := VInt huge]}) = None.
Proof.
  assert (Hf : py_float (VInt huge) = Raise OverflowError) by (vm_compute; reflexivity).
  assert (Hv : _validate_analysis_dict {["confidence_score" := VInt huge]} = Raise OverflowError).
  { unfold _validate_analysis_dict, validate_confidence, mbind, result_bind.
    rewrite lookup_singleton_eq, Hf. done. }
  split; [done|]. split; [done|].
  unfold analysis_of_payload. by rewrite Hv.
Qed.

End Builtins.
End ValidationFacts.

(** ** More on the search endpoint *)

Module SearchFacts.
Import Main MainFacts FloatFacts.

(** A float between two positive finite bounds is small. *)
Lemma small_between_positive (lo hi x : float) (ml mh : positive) (el eh : Z) :
  Prim2SF lo = S754_finite false ml el →
  Prim2SF hi = S754_finite false mh eh →
  PrimFloat.leb lo x = true → PrimFloat.leb x hi = true →
  small eh (Prim2SF x).
Proof.
  intros Hlo Hhi. rewrite !leb_spec, Hlo, Hhi. unfold SFleb.
  pose proof (Prim2SF_valid x) as Hv.
  destruct (Prim2SF x) as [s|s| |s m e]; simpl; try done.
  - by destruct s.
  - apply valid_mantissa_bound in Hv. intros H1 H2. split; [done|].
    destruct s; [done|].
    destruct (Z.compare_spec e eh); try done; lia.
Qed.

(** A radius within the bounds of its query parameter, 0.1 to 10 miles,
    has a whole number of meters. *)
Lemma radius_in_bounds (radius : float) :
  PrimFloat.leb 0.1 radius = true → PrimFloat.leb radius 10 = true →
  is_ok (int_of_float (radius * METERS_PER_MILE)) = true.
Proof.
  intros Hlo Hhi.
  assert (Hr : small (-49) (Prim2SF radius))
    by exact (small_between_positive 0.1 10 radius _ _ _ _ eq_refl eq_refl Hlo Hhi).
  assert (Hk : small (-42) (Prim2SF METERS_PER_MILE)) by (vm_compute; split; [done|discriminate]).
  pose proof (SFmul_small (-49) (-42) _ _ Hr Hk ltac:(lia)) as Hm.
  unfold int_of_float. rewrite mul_spec. unfold SF64mul.
  by destruct (SFmul prec emax _ _).
Qed.

Section WithLibm.
Context {L : Libm}.

(** *** The errors of a search *)

Lemma handle_errors_raises {A : Type} (r : result A) (e : exn) :
  handle_errors r = Raise e →
  e = HTTPException 500 "Failed to fetch restaurant data"
  ∨ e = HTTPException 500 "Internal server error".
Proof. destruct r as [a|[]]; simpl; intros [= <-]; auto. Qed.

(** What a search can raise: an [HTTPException] with status 500, or what
    [int(...)] raises on a radius that has no whole number of meters. *)
Lemma find_restaurants_raises
    (key : option string) (lat lng radius min_rating : float) (max_results : Z)
    (first : http_reply) (more : list http_reply) (e : exn) :
  find_restaurants key lat lng radius min_rating max_results first more = Some (Raise e) →
  (∃ detail, e = HTTPException 500 detail
     ∧ detail ∈ ["Google Places API key not configured";
                 "Failed to fetch restaurant data";
                 "Internal server error"])
  ∨ (int_of_float (radius * METERS_PER_MILE) = Raise e
     ∧ (e = ValueError ∨ e = OverflowError)).
Proof.
  unfold find_restaurants.
  destruct (negb (key_configured key)).
  { intros [= <-]. left. eexists. split; [done|]. set_solver. }
  destruct (int_of_float _) as [m|e'] eqn:Hint.
  - destruct (search_pages _ _ _ _ _ _ _) as [r|]; [|done].
    unfold mbind, result_bind.
    destruct (handle_errors r) as [rs|e'] eqn:Hr; simpl; [done|].
    intros [= <-]. left. apply handle_errors_raises in Hr as [-> | ->];
      (eexists; split; [done|]; set_solver).
  - intros [= <-]. right. split; [done|].
    unfold int_of_float in Hint. destruct (Prim2SF _); try done; injection Hint as <-; auto.
Qed.

(** The failures of [find_restaurants]: for a radius within its bounds,
    whatever the search raises is an [HTTPException] with status 500, its
    detail one of three texts.  No other status is ever raised: not the 400
    written for a first page that is not ["OK"]. *)
Theorem find_restaurants_errors
    (key : option string) (lat lng radius min_rating : float) (max_results : Z)
    (first : http_reply) (more : list http_reply) (e : exn) :
  PrimFloat.leb 0.1 radius = true → PrimFloat.leb radius 10 = true →
  find_restaurants key lat lng radius min_rating max_results first more = Some (Raise e) →
  ∃ detail, e = HTTPException 500 detail
    ∧ detail ∈ ["Google Places API key not configured";
                "Failed to fetch restaurant data";
                "Internal server error"].
Proof.
  intros Hlo Hhi H. pose proof (radius_in_bounds radius Hlo Hhi) as Hrad.
  apply find_restaurants_raises in H as [H|[Hint _]]; [done|].
  by rewrite Hint in Hrad.
Qed.

(** A first page whose [status] is not ["OK"] makes the search fail with
    status 500 and the detail ["Internal server error"]: the
    [HTTPException] with status 400 raised for it inside the [try] block is
    caught by that block's own [except Exception] clause.  The continuation
    replies are not read. *)
Theorem find_restaurants_first_page_not_ok
    (key : option string) (lat lng radius min_rating : float) (max_results : Z)
    (d : search_page) (more : list http_reply) :
  key_configured key = true →
  PrimFloat.leb 0.1 radius = true → PrimFloat.leb radius 10 = true →
  status_ok d = false →
  find_restaurants key lat lng radius min_rating max_results (Reply d) more
  = Some (Raise (HTTPException 500 "Internal server error")).
Proof.
  intros Hkey Hlo Hhi Hst. pose proof (radius_in_bounds radius Hlo Hhi) as Hrad.
  unfold find_restaurants. rewrite Hkey. simpl.
  destruct (int_of_float _); [|done].
  unfold search_pages. simpl. by rewrite Hst.
Qed.

(** *** The loop over a page *)

Section Search.
Variables (key : option string) (lat lng min_rating : float) (max_results : Z).

(** [place.get("rating", 0) >= min_rating] *)
Definition passes (p : place) : bool :=
  number_ge (default (NInt 0) (p_rating p)) (NFloat min_rating).

Lemma process_page_from (places : list place) (rs : list Restaurant) :
  process_page key lat lng min_rating max_results places rs
  = (λ new, rs ++ new)
    <$> mapM (λ p, format_restaurant_data key p lat lng)
          (take (Z.to_nat (max_results - Z.of_nat (length rs))) (filter passes places)).
Proof.
  revert rs. induction places as [|p places IH]; intros rs; simpl.
  - rewrite filter_nil, take_nil. simpl. by rewrite app_nil_r.
  - destruct (Z.geb_spec (Z.of_nat (length rs)) max_results) as [Hge|Hlt].
    { replace (Z.to_nat _) with O by lia. simpl. by rewrite app_nil_r. }
    rewrite filter_cons. fold (passes p). destruct (passes p) eqn:Hp.
    + rewrite decide_True by done.
      replace (Z.to_nat (max_results - Z.of_nat (length rs)))
        with (S (Z.to_nat (max_results - Z.of_nat (length rs) - 1))) by lia.
      cbn [take mapM]. unfold mbind at 1 3, result_bind.
      destruct (format_restaurant_data key p lat lng) as [r|e]; simpl; [|done].
      rewrite IH, length_app. simpl.
      replace (max_results - Z.of_nat (length rs + 1))
        with (max_results - Z.of_nat (length rs) - 1) by lia.
      destruct (mapM _ _) as [new|e]; cbv [fmap result_fmap Py.bind mret result_ret];
        [|done].
      by rewrite <- List.app_assoc.
    + rewrite decide_False by (intros ?%Is_true_true; congruence). apply IH.
Qed.

(** The loop over the first page keeps the places whose rating (0 when
    absent) reaches [min_rating], stops after [max_results] of them, and
    formats each one; it raises what the first failing format raises. *)
Theorem process_page_filter_take_format (places : list place) :
  process_page key lat lng min_rating max_results places []
  = mapM (λ p, format_restaurant_data key p lat lng)
      (take (Z.to_nat max_results) (filter passes places)).
Proof.
  rewrite process_page_from. simpl. rewrite Z.sub_0_r.
  by destruct (mapM _ _); cbv [fmap result_fmap].
Qed.

(** *** Where the results come from *)

Lemma search_pages_elements (first : http_reply) (more : list http_reply)
    (rs : list Restaurant) :
  search_pages key lat lng min_rating max_results first more = Some (Ok rs) →
  Forall (from_place key lat lng min_rating (script_places (first :: more))) rs.
Proof.
  unfold search_pages. destruct first as [| | |d]; simpl; try done.
  destruct (status_ok d); simpl; [|done].
  destruct (process_page _ _ _ _ _ _ []) as [rs0|] eqn:Hp0; [|done].
  apply process_page_spec in Hp0 as [_ (new0 & -> & Hnew0)].
  intros Hpages. apply paginate_spec in Hpages as [_ (new & -> & Hnew)].
  simpl. unfold script_places. simpl. apply Forall_app. split.
  - eapply Forall_impl; [exact Hnew0|].
    intros x (q & Hq & ?). exists q. split; [|done]. apply elem_of_app. by left.
  - eapply Forall_impl; [exact Hnew|].
    intros x (q & Hq & ?). exists q. split; [|done]. apply elem_of_app. by right.
Qed.

(** Once the cap is reached or the token is empty the loop asks for
    nothing. *)
Lemma paginate_stops (replies : list http_reply) (token : option string)
    (rs : list Restaurant) :
  token_truthy token = false ∨ max_results ≤ Z.of_nat (length rs) →
  paginate key lat lng min_rating max_results replies token rs = Some (Ok rs).
Proof.
  intros H.
  assert (Hc : token_truthy token && (Z.of_nat (length rs) <? max_results) = false).
  { destruct H as [-> | H]; [done|]. apply andb_false_iff. right. by apply Z.ltb_ge. }
  destruct replies; simpl; by rewrite Hc.
Qed.

End Search.

Lemma find_restaurants_elements
    (key : option string) (lat lng radius min_rating : float) (max_results : Z)
    (first : http_reply) (more : list http_reply) (resp : RestaurantSearchResponse) :
  find_restaurants key lat lng radius min_rating max_results first more = Some (Ok resp) →
  Forall (from_place key lat lng min_rating (script_places (first :: more)))
         (restaurants resp).
Proof.
  unfold find_restaurants. destruct (negb _); [done|].
  destruct (int_of_float _); [|done].
  destruct (search_pages _ _ _ _ _ _ _) as [r|] eqn:Hpages; [|done].
  intros [= H]. unfold mbind, result_bind in H.
  destruct r as [rs|e]; simpl in H; [|by destruct e].
  injection H as <-. simpl. rewrite sort_restaurants_perm.
  by eapply search_pages_elements.
Qed.

(** Every restaurant of a response is the formatted record of a place that
    one of the upstream pages holds and whose rating, 0 when the place has
    none, reaches [min_rating]: nothing below the minimum is returned, and an
    unrated place only when the minimum is not above 0. *)
Theorem find_restaurants_from_places
    (key : option string) (lat lng radius min_rating : float) (max_results : Z)
    (first : http_reply) (more : list http_reply) (resp : RestaurantSearchResponse) :
  find_restaurants key lat lng radius min_rating max_results first more = Some (Ok resp) →
  Forall (λ r, ∃ p, p ∈ script_places (first :: more)
                    ∧ number_ge (default (NInt 0) (p_rating p)) (NFloat min_rating) = true
                    ∧ format_restaurant_data key p lat lng = Ok r)
         (restaurants resp).
Proof. apply find_restaurants_elements. Qed.

(** *** What a search never fills in *)

Lemma length_omap_le {A B : Type} (f : A → option B) (l : list A) :
  (length (omap f l) ≤ length l)%nat.
Proof. induction l as [|x l IH]; csimpl; [done|]. destruct (f x); csimpl; lia. Qed.

Lemma length_extract_photos (key : option string) (p : place) :
  (length (extract_photos key p) ≤ 3)%nat.
Proof.
  unfold extract_photos. destruct (p_photos p) as [ps|]; simpl; [|lia].
  etrans; [apply length_omap_le|]. apply firstn_le_length.
Qed.

Lemma format_restaurant_data_fields key p lat lng r :
  format_restaurant_data key p lat lng = Ok r →
  phone r = None ∧ website r = None ∧ opening_hours r = None
  ∧ (length (photos r) ≤ 3)%nat.
Proof.
  unfold format_restaurant_data, mbind, result_bind. intros H.
  destruct (number_to_float _) as [rlat|] eqn:E1; simpl in H; [|done].
  destruct (number_to_float _) as [rlng|] eqn:E2 in H; simpl in H; [|done].
  destruct (calculate_distance lat lng rlat rlng) as [d|] eqn:E3; simpl in H; [|done].
  destruct (opt_number_to_float _) as [rt|]; simpl in H; [|done].
  injection H as <-. simpl. repeat split. apply length_extract_photos.
Qed.

(** No restaurant of a response has a phone number, a website or opening
    hours, and none has more than three photos. *)
Theorem find_restaurants_unfilled_fields
    (key : option string) (lat lng radius min_rating : float) (max_results : Z)
    (first : http_reply) (more : list http_reply) (resp : RestaurantSearchResponse) :
  find_restaurants key lat lng radius min_rating max_results first more = Some (Ok resp) →
  Forall (λ r, phone r = None ∧ website r = None ∧ opening_hours r = None
               ∧ (length (photos r) ≤ 3)%nat)
         (restaurants resp).
Proof.
  intros H. apply find_restaurants_elements in H.
  eapply Forall_impl; [exact H|].
  intros r (p & _ & _ & Hf). by eapply format_restaurant_data_fields.
Qed.

(** *** The photo URLs *)

Lemma extract_photos_urls (key : option string) (p : place) (url : string) :
  url ∈ extract_photos key p →
  ∃ photo_ref, photo_ref ≠ "" ∧ url = photo_url key photo_ref.
Proof.
  unfold extract_photos. destruct (p_photos p) as [ps|]; [|by intros ?%elem_of_nil].
  intros (ph & _ & Hph)%list_elem_of_omap.
  destruct (photo_reference ph) as [photo_ref|]; [|done].
  revert Hph. destruct (String.eqb_spec photo_ref "") as [Heq|Hne]; [done|].
  intros [= <-]. by exists photo_ref.
Qed.

Lemma format_restaurant_data_photos key p lat lng r :
  format_restaurant_data key p lat lng = Ok r → photos r = extract_photos key p.
Proof.
  unfold format_restaurant_data, mbind, result_bind. intros H.
  destruct (number_to_float _) as [rlat|] eqn:E1; simpl in H; [|done].
  destruct (number_to_float _) as [rlng|] eqn:E2 in H; simpl in H; [|done].
  destruct (calculate_distance lat lng rlat rlng) as [d|] eqn:E3; simpl in H; [|done].
  destruct (opt_number_to_float _) as [rt|]; simpl in H; [|done].
  by injection H as <-.
Qed.

(** Every photo URL of a response carries the server's API key: it is the
    photo endpoint with a photo reference of the place, which is not empty,
    followed by [&key=] and the key the server is configured with. *)
Theorem find_restaurants_photo_urls
    (key : option string) (lat lng radius min_rating : float) (max_results : Z)
    (first : http_reply) (more : list http_reply) (resp : RestaurantSearchResponse) :
  find_restaurants key lat lng radius min_rating max_results first more = Some (Ok resp) →
  ∃ api_key, key = Some api_key ∧ api_key ≠ ""
    ∧ Forall (λ r,
        Forall (λ url, ∃ photo_ref, photo_ref ≠ ""
                  ∧ url = GOOGLE_PLACES_BASE_URL +:+ "/photo?maxwidth=400&photoreference="
                            +:+ photo_ref +:+ "&key=" +:+ api_key)
               (photos r))
        (restaurants resp).
Proof.
  intros H.
  assert (Hkey : ∃ api_key, key = Some api_key ∧ api_key ≠ "").
  { unfold find_restaurants, key_configured in H. destruct key as [k|]; [|done].
    exists k. split; [done|]. by destruct (String.eqb_spec k "") as [->|]. }
  destruct Hkey as (api_key & -> & Hne). exists api_key. split; [done|]. split; [done|].
  apply find_restaurants_elements in H.
  eapply Forall_impl; [exact H|].
  intros r (p & _ & _ & Hf). apply format_restaurant_data_photos in Hf as ->.
  apply Forall_forall. intros url Hurl. by apply extract_photos_urls in Hurl.
Qed.

(** *** Requests that are not sent *)

(** When the first page carries no continuation token, or an empty one, or
    already fills [max_results], the search ends without a continuation
    request: the result does not depend on what the upstream would
    answer. *)
Theorem find_restaurants_no_continuation
    (key : option string) (lat lng radius min_rating : float) (max_results : Z)
    (d : search_page) (more : list http_reply) (rs : list Restaurant) :
  process_page key lat lng min_rating max_results (default [] (results d)) [] = Ok rs →
  token_truthy (next_page_token d) = false ∨ max_results ≤ Z.of_nat (length rs) →
  is_Some (find_restaurants key lat lng radius min_rating max_results (Reply d) more)
  ∧ find_restaurants key lat lng radius min_rating max_results (Reply d) more
    = find_restaurants key lat lng radius min_rating max_results (Reply d) [].
Proof.
  intros Hp Hstop.
  pose proof (paginate_stops key lat lng min_rating max_results more _ _ Hstop) as H1.
  pose proof (paginate_stops key lat lng min_rating max_results [] _ _ Hstop) as H2.
  unfold find_restaurants, search_pages, http_get. rewrite Hp, H1, H2.
  destruct (negb (key_configured key)); [by split; [eexists|]|].
  destruct (int_of_float _); [|by split; [eexists|]].
  destruct (negb (status_ok d)); by split; [eexists|].
Qed.

(** *** A place without coordinates *)

(** A place whose record has no [geometry] is reported at latitude 0,
    longitude 0, and its distance is the one from the user to that point. *)
Theorem format_restaurant_data_without_geometry
    (key : option string) (p : place) (user_lat user_lng : float) (r : Restaurant) :
  p_geometry p = None →
  format_restaurant_data key p user_lat user_lng = Ok r →
  latitude r = 0%float ∧ longitude r = 0%float
  ∧ ∃ d, calculate_distance user_lat user_lng 0 0 = Ok d
         ∧ distance_miles r = Some (round2 d).
Proof.
  intros Hg Hf.
  unfold format_restaurant_data, mbind, result_bind in Hf. rewrite Hg in Hf. simpl in Hf.
  change (float_of_int 0) with (Ok 0%float) in Hf. simpl in Hf.
  destruct (calculate_distance _ _ _ _) as [d|] eqn:E3; simpl in Hf; [|done].
  destruct (opt_number_to_float _) as [rt|]; simpl in Hf; [|done].
  injection Hf as <-. simpl. split; [done|]. split; [done|]. exists d. by split.
Qed.

End WithLibm.
End SearchFacts.

(** ** More on the location resolver *)

Module ResolverFacts.
Import LocationService.

Lemma get_location_from_ip_source (reply : http_reply ip_body) (loc : LocationData) :
  get_location_from_ip reply = Some loc → source loc = "ip".
Proof.
  unfold get_location_from_ip. destruct reply as [| | |data]; try done.
  destruct (ip_error data); [done|].
  destruct (number_to_float _); [|done]. destruct (number_to_float _); [|done].
  by intros [= <-].
Qed.

Lemma get_user_location_without_coordinates
    (key : option string) (svc : services) (ip_address address : option string)
    (loc : LocationData) :
  get_user_location key svc ip_address address None None = Some loc →
  source loc = "geocoded_address" ∨ source loc = "ip".
Proof.
  unfold get_user_location.
  destruct address as [a|]; [destruct (String.eqb a "")|].
  - right. by eapply get_location_from_ip_source.
  - destruct (geocode_address key a (geocode_reply svc)) as [g|] eqn:Hg.
    + intros [= <-]. left. by eapply LocationFacts.geocode_address_source.
    + right. by eapply get_location_from_ip_source.
  - right. by eapply get_location_from_ip_source.
Qed.

(** The [source] of a resolved location names the method that produced
    it.  ["user_provided"]: both coordinates were given, and they are the
    location.  ["geocoded_address"]: a coordinate was missing (one alone is
    not used) and the address, not empty, was geocoded.  ["ip"]: a
    coordinate was missing, the address was absent, empty or could not be
    geocoded, and the IP service answered. *)
Theorem get_user_location_source
    (key : option string) (svc : services) (ip_address address : option string)
    (lat lng : option float) (loc : LocationData) :
  get_user_location key svc ip_address address lat lng = Some loc →
  (source loc = "user_provided"
   ∧ lat = Some (latitude loc) ∧ lng = Some (longitude loc))
  ∨ (source loc = "geocoded_address"
     ∧ (lat = None ∨ lng = None)
     ∧ ∃ a, address = Some a ∧ a ≠ ""
            ∧ geocode_address key a (geocode_reply svc) = Some loc)
  ∨ (source loc = "ip"
     ∧ (lat = None ∨ lng = None)
     ∧ get_location_from_ip (ip_reply svc) = Some loc
     ∧ ∀ a, address = Some a → a ≠ "" →
            geocode_address key a (geocode_reply svc) = None).
Proof.
  intros H.
  assert (Hrest : (lat = None ∨ lng = None) →
    match (match address with
           | Some a => if String.eqb a "" then None
                       else geocode_address key a (geocode_reply svc)
           | None => None
           end) with
    | Some location => Some location
    | None => get_location_from_ip (ip_reply svc)
    end = Some loc →
    (source loc = "geocoded_address"
     ∧ (lat = None ∨ lng = None)
     ∧ ∃ a, address = Some a ∧ a ≠ ""
            ∧ geocode_address key a (geocode_reply svc) = Some loc)
    ∨ (source loc = "ip"
       ∧ (lat = None ∨ lng = None)
       ∧ get_location_from_ip (ip_reply svc) = Some loc
       ∧ ∀ a, address = Some a → a ≠ "" →
              geocode_address key a (geocode_reply svc) = None)).
  { intros Hmiss Hr. destruct address as [a|].
    - destruct (String.eqb_spec a "") as [->|Ha].
      + right. split; [by eapply get_location_from_ip_source|].
        split; [done|]. split; [done|]. by intros ? [= <-].
      + destruct (geocode_address key a (geocode_reply svc)) as [g|] eqn:Hg.
        * left. injection Hr as <-.
          split; [by eapply LocationFacts.geocode_address_source|].
          split; [done|]. by exists a.
        * right. split; [by eapply get_location_from_ip_source|].
          split; [done|]. split; [done|]. by intros ? [= <-].
    - right. split; [by eapply get_location_from_ip_source|].
      split; [done|]. split; [done|]. done. }
  unfold get_user_location in H.
  destruct lat as [la|], lng as [lo|].
  - left. by injection H as <-.
  - right. apply Hrest; auto.
  - right. apply Hrest; auto.
  - right. apply Hrest; auto.
Qed.

(** *** The address components *)

(** The branch of the [if]/[elif] chain a component takes: the first type
    keyword it carries, in the order locality, administrative area,
    country, postal code. *)
Definition sets_city (c : address_component) : bool := has_type "locality" c.

Definition sets_state (c : address_component) : bool :=
  negb (has_type "locality" c) && has_type "administrative_area_level_1" c.

Definition sets_country (c : address_component) : bool :=
  negb (has_type "locality" c) && negb (has_type "administrative_area_level_1" c)
  && has_type "country" c.

Definition sets_zip_code (c : address_component) : bool :=
  negb (has_type "locality" c) && negb (has_type "administrative_area_level_1" c)
  && negb (has_type "country" c) && has_type "postal_code" c.

(** The name the last component taking a branch gives. *)
Definition last_name (branch : address_component → bool)
    (field : address_component → option string) (components : list address_component)
    : option string :=
  last (filter (λ c, branch c) components) ≫= field.

Lemma last_name_snoc branch field components c :
  last_name branch field (components ++ [c])
  = if branch c then field c else last_name branch field components.
Proof.
  unfold last_name. rewrite filter_app, filter_cons, filter_nil.
  destruct (branch c) eqn:Hc.
  - rewrite decide_True by (by apply Is_true_true). by rewrite last_snoc.
  - rewrite decide_False by (intros ?%Is_true_true; congruence). by rewrite app_nil_r.
Qed.

Lemma fold_component_step (components : list address_component) :
  fold_left component_step components (None, None, None, None)
  = (last_name sets_city long_name components,
     last_name sets_state short_name components,
     last_name sets_country long_name components,
     last_name sets_zip_code long_name components).
Proof.
  induction components as [|c components IH] using rev_ind; [done|].
  rewrite fold_left_app, IH, !last_name_snoc. simpl.
  unfold sets_city, sets_state, sets_country, sets_zip_code.
  destruct (has_type "locality" c); [done|].
  destruct (has_type "administrative_area_level_1" c); [done|].
  destruct (has_type "country" c); [done|].
  by destruct (has_type "postal_code" c).
Qed.

(** A geocoded location is read off the first result alone.  Each address
    component sets one field at most, by the first type keyword it carries
    in the order locality, administrative area, country, postal code; of
    the components that set a field the last one gives its value: the long
    name for city, country and postal code, the short name for the state. *)
Theorem geocode_address_components
    (key : option string) (address : string) (data : geocode_body) (loc : LocationData) :
  geocode_address key address (Reply data) = Some loc →
  ∃ r rest la lo,
    geocode_results data = Some (r :: rest)
    ∧ geometry_location r = Some (Some la, Some lo)
    ∧ number_to_float la = Ok (latitude loc)
    ∧ number_to_float lo = Ok (longitude loc)
    ∧ city loc = last_name sets_city long_name (default [] (address_components r))
    ∧ state loc = last_name sets_state short_name (default [] (address_components r))
    ∧ country loc = last_name sets_country long_name (default [] (address_components r))
    ∧ zip_code loc = last_name sets_zip_code long_name (default [] (address_components r)).
Proof.
  unfold geocode_address. intros H.
  destruct (negb (key_configured key)); [done|].
  destruct (negb (status_ok data)); [done|].
  unfold nonempty_results in H.
  destruct (geocode_results data) as [[|r rest]|]; try done.
  destruct (geometry_location r) as [[[la|] [lo|]]|] eqn:Hgeo; try done.
  rewrite fold_component_step in H.
  destruct (number_to_float la) as [fla|] eqn:Hla; [|done].
  destruct (number_to_float lo) as [flo|] eqn:Hlo; [|done].
  injection H as <-. exists r, rest, la, lo. by repeat split.
Qed.

(** *** Valid coordinates *)

(** Coordinates that [validate_coordinates] accepts are finite numbers:
    NaN and the infinities are rejected by the chained comparisons. *)
Theorem validate_coordinates_finite_numbers (lat lng : float) :
  validate_coordinates lat lng = true →
  PrimFloat.is_finite lat = true ∧ PrimFloat.is_finite lng = true.
Proof.
  unfold validate_coordinates. intros H.
  apply andb_true_iff in H as [Hlat Hlng].
  apply andb_true_iff in Hlat as [Hlat1 Hlat2].
  apply andb_true_iff in Hlng as [Hlng1 Hlng2].
  split; eapply FloatFacts.small_finite.
  - exact (FloatFacts.small_between (-90) 90 lat _ _ _ _ eq_refl eq_refl Hlat1 Hlat2).
  - exact (FloatFacts.small_between (-180) 180 lng _ _ _ _ eq_refl eq_refl Hlng1 Hlng2).
Qed.

End ResolverFacts.

(** ** Properties of the other endpoints *)

Module EndpointFacts.
Import Endpoints.

(** *** Place details *)

(** The details service failed: the request failed in transport or with an
    HTTP error status, the body is not JSON or not an object, or its
    [status] is not ["OK"]. *)
Definition upstream_failure (reply : LocationService.http_reply value) : Prop :=
  match reply with
  | LocationService.Reply (VDict data) => data !! "status" ≠ Some (VStr "OK")
  | _ => True
  end.

Lemma get_place_details_failure (reply : LocationService.http_reply value) :
  upstream_failure reply → get_place_details reply = VDict ∅.
Proof.
  destruct reply as [| | |[| | | | | |data]]; simpl; try done.
  destruct (data !! "status") as [[| | | |s| |]|]; try done.
  destruct (String.eqb_spec s "OK") as [->|]; done.
Qed.

Lemma get_place_details_ok (data : gmap string value) (details : value) :
  data !! "status" = Some (VStr "OK") → data !! "result" = Some details →
  get_place_details (LocationService.Reply (VDict data)) = details.
Proof. intros Hs Hr. simpl. rewrite Hs. simpl. unfold dict_get. by rewrite Hr. Qed.

(** Every failure of the details service is answered as if the restaurant
    did not exist: with the API key configured, [get_restaurant_details]
    raises 404 ["Restaurant not found"] for a transport error, an HTTP error
    status, a body that cannot be decoded and a status other than ["OK"]
    alike. *)
Theorem get_restaurant_details_upstream_failure
    (key : option string) (place_id : string) (reply : LocationService.http_reply value) :
  Main.key_configured key = true →
  upstream_failure reply →
  get_restaurant_details key place_id reply
  = Raise (HTTPException 404 "Restaurant not found").
Proof.
  intros Hkey Hfail. unfold get_restaurant_details.
  by rewrite Hkey, get_place_details_failure.
Qed.

(** *** AI analysis of one restaurant *)

Section Builtins.
Context {B : PyBuiltins} {P : Pydantic}.

Lemma analysis_request_rating (details : gmap string value) :
  dict_get (analysis_request details) "rating" (VInt 0) = dict_get details "rating" VNone.
Proof.
  unfold analysis_request, dict_get at 1. cbn [list_to_map foldr fst snd].
  by rewrite lookup_insert_ne, lookup_insert_eq.
Qed.

(** The request [get_restaurant_ai_analysis] prepares always carries the
    key ["rating"], with [None] for a restaurant the details give no rating
    for, so the default 0 of [create_fallback_analysis] never applies: when
    the language model yields no analysis, the endpoint raises [TypeError]
    for every restaurant without a rating. *)
Theorem get_restaurant_ai_analysis_unrated
    (key : option string) (place_id : string) (data details : gmap string value)
    (call : Validation.model_call) :
  Main.key_configured key = true →
  data !! "status" = Some (VStr "OK") →
  data !! "result" = Some (VDict details) →
  details ≠ ∅ →
  details !! "rating" = None →
  AnalysisRequests.analyze_restaurant call = None →
  get_restaurant_ai_analysis key place_id (LocationService.Reply (VDict data)) call
  = Raise TypeError.
Proof.
  intros Hkey Hs Hr Hne Hrating Hcall. unfold get_restaurant_ai_analysis.
  rewrite Hkey, (get_place_details_ok _ _ Hs Hr). cbn [negb truthy].
  rewrite bool_decide_false by (by rewrite map_size_empty_iff). cbn [negb].
  unfold AnalysisRequests.analyze_single_restaurant. rewrite Hcall.
  assert (Hv : dict_get details "rating" VNone = VNone)
    by (unfold dict_get; by rewrite Hrating).
  unfold AnalysisService.create_fallback_analysis.
  by rewrite analysis_request_rating, Hv.
Qed.

End Builtins.

(** *** Reviews *)

Lemma mapM_result_length {A C : Type} (f : A → result C) (l : list A) (l' : list C) :
  mapM f l = Ok l' → length l' = length l.
Proof.
  revert l'. induction l as [|x l IH]; intros l'; simpl.
  - by intros [= <-].
  - unfold mbind, result_bind. destruct (f x) as [y|]; simpl; [|done].
    destruct (mapM f l) as [ys|]; simpl; [|done].
    intros [= <-]. simpl. by rewrite (IH ys).
Qed.

Lemma mapM_result_Forall {A C : Type} (f : A → result C) (Q : C → Prop)
    (l : list A) (l' : list C) :
  (∀ x y, f x = Ok y → Q y) → mapM f l = Ok l' → Forall Q l'.
Proof.
  intros Hf. revert l'. induction l as [|x l IH]; intros l'; simpl.
  - by intros [= <-].
  - unfold mbind, result_bind. destruct (f x) as [y|] eqn:Hx; simpl; [|done].
    destruct (mapM f l) as [ys|]; simpl; [|done].
    intros [= <-]. constructor; [by eapply Hf|by apply IH].
Qed.

Lemma length_slice_to {A : Type} (l : list A) (limit : Z) :
  0 ≤ limit → Z.of_nat (length (slice_to l limit)) = Z.min limit (Z.of_nat (length l)).
Proof.
  intros H. unfold slice_to. destruct (Z.leb_spec 0 limit); [|lia].
  rewrite length_take. lia.
Qed.

Lemma slice_to_nil {A : Type} (limit : Z) : slice_to (@nil A) limit = [].
Proof. unfold slice_to. by rewrite !take_nil; destruct (0 <=? limit). Qed.

(** The keys of a formatted review. *)
Definition review_keys : gset string :=
  {["source"; "author_name"; "rating"; "text"; "time";
    "relative_time_description"; "profile_photo_url"]}.

Lemma format_review_shape (review : value) (formatted : gmap string value) :
  format_review review = Ok formatted →
  dom formatted = review_keys ∧ formatted !! "source" = Some (VStr "google").
Proof.
  destruct review as [| | | | | |r]; simpl; try done.
  intros [= <-]. cbn [list_to_map foldr fst snd]. split.
  - rewrite !dom_insert_L, dom_empty_L. unfold review_keys. set_solver.
  - by rewrite lookup_insert_eq.
Qed.

Lemma google_reviews_count (limit : Z) (reply : LocationService.http_reply value)
    (g : source_reviews) :
  google_reviews limit reply = Some (Ok g) →
  sr_total_count g = Z.of_nat (length (sr_reviews g))
  ∧ (0 ≤ limit → sr_total_count g ≤ limit)
  ∧ Forall (λ r, dom r = review_keys ∧ r !! "source" = Some (VStr "google")) (sr_reviews g).
Proof.
  unfold google_reviews.
  destruct (get_place_details reply) as [| | | | | |google_details]; try done.
  destruct (dict_get google_details "reviews" (VList [])) as [| | | | |l|]; try done.
  unfold mbind, result_bind.
  destruct (mapM format_review (slice_to l limit)) as [formatted|] eqn:Hm; simpl; [|done].
  intros [= <-]. simpl. split; [done|]. split.
  - intros Hlimit. rewrite (mapM_result_length _ _ _ Hm), length_slice_to by done. lia.
  - eapply mapM_result_Forall; [|exact Hm]. apply format_review_shape.
Qed.

(** The Google entry of the reviews never holds more reviews than [limit]
    (for a limit that is not negative), its [total_count] is the number of
    reviews it holds, and each review has the seven keys of the format,
    with ["google"] as its source. *)
Theorem get_restaurant_reviews_google_entry
    (key : option string) (place_id : string) (sources : list string) (limit : Z)
    (reply : LocationService.http_reply value)
    (out : string * gmap string source_reviews) (g : source_reviews) :
  get_restaurant_reviews key place_id sources limit reply = Some (Ok out) →
  out.2 !! "google" = Some g →
  sr_total_count g = Z.of_nat (length (sr_reviews g))
  ∧ (0 ≤ limit → sr_total_count g ≤ limit)
  ∧ Forall (λ r, dom r = review_keys ∧ r !! "source" = Some (VStr "google")) (sr_reviews g).
Proof.
  unfold get_restaurant_reviews. destruct (negb _); [done|].
  destruct (bool_decide ("google" ∈ sources)).
  - destruct (google_reviews limit reply) as [[g'|]|] eqn:Hg; simpl; try done.
    intros [= <-]. simpl. intros Hlook.
    assert (g' = g) as ->.
    { destruct (bool_decide ("yelp" ∈ sources)).
      - rewrite lookup_insert_ne, lookup_insert_eq in Hlook by done. congruence.
      - rewrite lookup_insert_eq in Hlook. congruence. }
    by apply (google_reviews_count limit reply).
  - intros [= <-]. simpl. intros Hlook.
    destruct (bool_decide ("yelp" ∈ sources)).
    + by rewrite lookup_insert_ne in Hlook.
    + done.
Qed.

(** The answer has an entry for ["google"] and for ["yelp"] when, and only
    when, the name is among the requested sources; every other source name
    is ignored without an error.  The Yelp entry is the fixed placeholder
    with no review; the place id is echoed. *)
Theorem get_restaurant_reviews_sources
    (key : option string) (place_id : string) (sources : list string) (limit : Z)
    (reply : LocationService.http_reply value)
    (out : string * gmap string source_reviews) :
  get_restaurant_reviews key place_id sources limit reply = Some (Ok out) →
  out.1 = place_id
  ∧ (∀ k, is_Some (out.2 !! k) ↔ (k = "google" ∨ k = "yelp") ∧ k ∈ sources)
  ∧ (∀ y, out.2 !! "yelp" = Some y → y = yelp_placeholder).
Proof.
  unfold get_restaurant_reviews. destruct (negb _); [done|].
  destruct (bool_decide_reflect ("google" ∈ sources)) as [Hg|Hg];
    destruct (bool_decide_reflect ("yelp" ∈ sources)) as [Hy|Hy].
  - destruct (google_reviews limit reply) as [[g'|]|]; simpl; try done.
    intros [= <-]. simpl. split; [done|]. split.
    + intros k. rewrite !lookup_insert_is_Some, lookup_empty. split.
      * intros [<-|[_ [<-|[_ []%is_Some_None]]]]; auto.
      * intros [[->| ->] _]; [right; split; [done|by left]|by left].
    + intros y. rewrite lookup_insert_eq. congruence.
  - destruct (google_reviews limit reply) as [[g'|]|]; simpl; try done.
    intros [= <-]. simpl. split; [done|]. split.
    + intros k. rewrite !lookup_insert_is_Some, lookup_empty. split.
      * intros [<-|[_ []%is_Some_None]]; auto.
      * intros [[->| ->] Hk]; [by left|done].
    + intros y. by rewrite lookup_insert_ne.
  - intros [= <-]. simpl. split; [done|]. split.
    + intros k. rewrite !lookup_insert_is_Some, lookup_empty. split.
      * intros [<-|[_ []%is_Some_None]]; auto.
      * intros [[->| ->] Hk]; [done|by left].
    + intros y. rewrite lookup_insert_eq. congruence.
  - intros [= <-]. simpl. split; [done|]. split.
    + intros k. rewrite lookup_empty. split.
      * by intros []%is_Some_None.
      * by intros [[->| ->] Hk].
    + done.
Qed.

(** The entry for a platform that answered nothing. *)
Definition no_reviews : source_reviews :=
  {| sr_reviews := [];
     sr_total_count := 0;
     sr_average_rating := VNone;
     sr_total_ratings := VNone;
     sr_note := None |}.

(** A failure of the details service does not fail the reviews: the Google
    entry is then empty, with no rating, and no error is raised. *)
Theorem get_restaurant_reviews_upstream_failure
    (key : option string) (place_id : string) (sources : list string) (limit : Z)
    (reply : LocationService.http_reply value) :
  Main.key_configured key = true →
  upstream_failure reply →
  "google" ∈ sources →
  ∃ entries,
    get_restaurant_reviews key place_id sources limit reply = Some (Ok (place_id, entries))
    ∧ entries !! "google" = Some no_reviews.
Proof.
  intros Hkey Hfail Hg.
  assert (Hgr : google_reviews limit reply = Some (Ok no_reviews)).
  { unfold google_reviews. rewrite get_place_details_failure by done.
    change (dict_get ∅ "reviews" (VList [])) with (VList []). cbv beta iota.
    by rewrite slice_to_nil. }
  unfold get_restaurant_reviews. rewrite Hkey, Hgr. cbn [negb].
  rewrite bool_decide_true by done. simpl.
  destruct (bool_decide ("yelp" ∈ sources)); eexists; (split; [reflexivity|]).
  - by rewrite lookup_insert_ne, lookup_insert_eq.
  - by rewrite lookup_insert_eq.
Qed.

Section WithLibm.
Context {L : Libm}.

(** *** Endpoints that resolve the location themselves *)

(** The automatic search answers with status 400 exactly when the location
    cannot be determined, that is when [detect_user_location] fails; no
    search reply is read then.  Otherwise it is the search at the
    coordinates [detect_user_location] reports, and that location comes
    from the address or from the IP, never from coordinates of the user. *)
Theorem find_restaurants_auto_location_resolves
    (key : option string) (svc : LocationService.services) (host address : option string)
    (radius min_rating : float) (max_results : Z)
    (first : Main.http_reply) (more : list Main.http_reply) :
  (∀ detail,
     find_restaurants_auto_location key svc host address radius min_rating max_results
       first more
     = Some (Raise (HTTPException 400 detail))
     ↔ detect_user_location key svc host address
       = Raise (HTTPException 400 "Could not determine location from IP or address")
       ∧ detail
         = "Could not determine your location. Please provide an address or coordinates manually.")
  ∧ (∀ location,
       detect_user_location key svc host address = Ok location →
       find_restaurants_auto_location key svc host address radius min_rating max_results
         first more
       = Main.find_restaurants key (LocationService.latitude location)
           (LocationService.longitude location) radius min_rating max_results first more
       ∧ (LocationService.source location = "geocoded_address"
          ∨ LocationService.source location = "ip")).
Proof.
  unfold detect_user_location, find_restaurants_auto_location.
  destruct (LocationService.get_user_location _ _ _ _ _ _) as [location|] eqn:Hloc.
  - split.
    + intros detail. split; [|by intros [[=] _]].
      intros H. apply SearchFacts.find_restaurants_raises in H
        as [(d & [= _ _] & _)|[_ [[=]|[=]]]].
    + intros ? [= <-]. split; [done|].
      by eapply ResolverFacts.get_user_location_without_coordinates.
  - split; [|done]. intros detail. split.
    + by intros [= <-].
    + by intros [_ ->].
Qed.

(** An answer of the IP service that reports no error but holds no
    coordinates gives the location latitude 0, longitude 0: when the address
    is absent, empty or cannot be geocoded, the automatic search then runs
    at that point. *)
Theorem find_restaurants_auto_location_without_coordinates
    (key : option string) (svc : LocationService.services) (host address : option string)
    (data : LocationService.ip_body)
    (radius min_rating : float) (max_results : Z)
    (first : Main.http_reply) (more : list Main.http_reply) :
  (∀ a, address = Some a → a ≠ "" →
        LocationService.geocode_address key a (LocationService.geocode_reply svc) = None) →
  LocationService.ip_reply svc = LocationService.Reply data →
  LocationService.ip_error data = false →
  LocationService.ip_latitude data = None →
  LocationService.ip_longitude data = None →
  find_restaurants_auto_location key svc host address radius min_rating max_results
    first more
  = Main.find_restaurants key 0 0 radius min_rating max_results first more.
Proof.
  intros Hgeo Hreply Herr Hlat Hlng.
  unfold find_restaurants_auto_location, LocationService.get_user_location,
    LocationService.get_location_from_ip.
  rewrite Hreply, Herr, Hlat, Hlng.
  destruct address as [a|]; [|done].
  destruct (String.eqb_spec a "") as [->|Ha]; [done|].
  by rewrite (Hgeo a).
Qed.

End WithLibm.
End EndpointFacts.

(** ** The search as the area analysis calls it *)

Module CallFacts.
Import Main.

Section WithLibm.
Context {L : Libm}.

(** *** With a number for [min_rating] the call is the endpoint's *)

Section Bound.
Variables (key : option string) (lat lng m : float) (max_results : Z).

Lemma process_page_bound (places : list place) (rs : list Restaurant) :
  MainCall.process_page key lat lng (MainCall.Bound m) max_results places rs
  = process_page key lat lng m max_results places rs.
Proof.
  revert rs. induction places as [|p places IH]; intros rs; simpl; [done|].
  destruct (_ >=? _); [done|].
  unfold mbind at 1, result_bind. simpl.
  destruct (number_ge _ _); [|apply IH].
  unfold mbind, result_bind. destruct (format_restaurant_data _ _ _ _); simpl; [apply IH|done].
Qed.

Lemma paginate_bound (replies : list http_reply) (token : option string)
    (rs : list Restaurant) :
  MainCall.paginate key lat lng (MainCall.Bound m) max_results replies token rs
  = paginate key lat lng m max_results replies token rs.
Proof.
  revert token rs. induction replies as [|r replies IH]; intros token rs; simpl; [done|].
  destruct (_ && _); [|done]. destruct (http_get r) as [data|]; [|done].
  destruct (negb _); [done|]. rewrite process_page_bound.
  destruct (process_page _ _ _ _ _ _ _); [apply IH|done].
Qed.

End Bound.

Lemma find_restaurants_bound
    (key : option string) (lat lng radius m : float) (max_results : Z)
    (first : http_reply) (more : list http_reply) :
  MainCall.find_restaurants key lat lng radius (MainCall.Bound m) max_results first more
  = find_restaurants key lat lng radius m max_results first more.
Proof.
  unfold MainCall.find_restaurants, find_restaurants, MainCall.search_pages, search_pages.
  destruct (negb _); [done|]. destruct (int_of_float _); [|done].
  destruct (http_get first) as [data|]; [|done].
  destruct (negb _); [done|]. rewrite process_page_bound.
  destruct (process_page _ _ _ _ _ _ _); [|done]. by rewrite paginate_bound.
Qed.

(** *** With the default object no place passes *)

Section Default.
Variables (key : option string) (lat lng : float) (max_results : Z).

Lemma process_page_default (places : list place) :
  0 < max_results →
  MainCall.process_page key lat lng MainCall.QueryObject max_results places []
  = match places with
    | [] => Ok []
    | _ => Raise TypeError
    end.
Proof.
  intros Hmax. destruct places as [|p places]; simpl; [done|].
  change (Z.of_nat 0) with 0. destruct (Z.geb_spec 0 max_results); [lia|done].
Qed.

Lemma paginate_default (replies : list http_reply) (token : option string)
    (rs : list Restaurant) :
  0 < max_results →
  MainCall.paginate key lat lng MainCall.QueryObject max_results replies token [] = Some (Ok rs) →
  rs = [].
Proof.
  intros Hmax. revert token. induction replies as [|r replies IH]; intros token; simpl.
  - destruct (_ && _); [done|]. by intros [= <-].
  - destruct (_ && _); [|by intros [= <-]].
    destruct (http_get r) as [data|]; [|done].
    destruct (negb _); [by intros [= <-]|].
    rewrite process_page_default by done.
    destruct (default [] (results data)); [apply IH|done].
Qed.

End Default.

Lemma find_restaurants_default
    (key : option string) (lat lng radius : float) (max_results : Z)
    (first : http_reply) (more : list http_reply) (resp : RestaurantSearchResponse) :
  0 < max_results →
  MainCall.find_restaurants key lat lng radius MainCall.QueryObject max_results first more
  = Some (Ok resp) →
  restaurants resp = [].
Proof.
  intros Hmax. unfold MainCall.find_restaurants, MainCall.search_pages.
  destruct (negb _); [done|]. destruct (int_of_float _); [|done].
  destruct (http_get first) as [data|e]; [|by destruct e].
  destruct (negb _); [done|]. rewrite process_page_default by done.
  destruct (default [] (results data)); [|done].
  destruct (MainCall.paginate _ _ _ _ _ _ _ _) as [[rs|e]|] eqn:Hp; simpl; try done.
  - apply paginate_default in Hp as ->; [|done]. by intros [= <-].
  - by destruct e.
Qed.

End WithLibm.
End CallFacts.

(** ** The area analysis *)

Module AreaFacts.
Import Main Endpoints.

Section WithLibm.
Context {L : Libm}.

(** The area analysis never analyses a restaurant.  It calls
    [find_restaurants] without [min_rating], whose default is the [Query]
    object of the signature; the comparison of the first place's rating
    with it raises.  Whenever the endpoint returns, the search found
    nothing: [restaurants_analyzed] is 0 and the analysis is one of the two
    fixed texts. *)
Theorem get_area_restaurant_analysis_analyses_nothing
    (key : option string) (lat lng radius : float)
    (first : http_reply) (more : list http_reply) (call : AnalysisRequests.area_call)
    (out : area_response) :
  get_area_restaurant_analysis key lat lng radius first more call = Some (Ok out) →
  restaurants_analyzed out = 0
  ∧ (area_analysis out = "AI analysis not available - OpenAI API key not configured"
     ∨ area_analysis out = "No restaurants found in this area.").
Proof.
  unfold get_area_restaurant_analysis.
  destruct (MainCall.find_restaurants _ _ _ _ _ _ _ _) as [[resp|]|] eqn:Hf; try done.
  apply CallFacts.find_restaurants_default in Hf; [|lia].
  intros [= <-]. rewrite Hf. simpl. split; [done|].
  destruct call; auto.
Qed.

(** With the API key configured and a radius within its bounds, a first
    page that holds at least one place makes the area analysis fail with
    status 500 and the detail ["Internal server error"]. *)
Theorem get_area_restaurant_analysis_fails
    (key : option string) (lat lng radius : float)
    (d : search_page) (p : place) (ps : list place)
    (more : list http_reply) (call : AnalysisRequests.area_call) :
  key_configured key = true →
  PrimFloat.leb 0.1 radius = true → PrimFloat.leb radius 10 = true →
  status_ok d = true →
  results d = Some (p :: ps) →
  get_area_restaurant_analysis key lat lng radius (Reply d) more call
  = Some (Raise (HTTPException 500 "Internal server error")).
Proof.
  intros Hkey Hlo Hhi Hst Hres.
  pose proof (SearchFacts.radius_in_bounds radius Hlo Hhi) as Hrad.
  unfold get_area_restaurant_analysis, MainCall.find_restaurants, MainCall.search_pages.
  rewrite Hkey. cbn [negb]. destruct (int_of_float _); [|done].
  cbn [http_get]. rewrite Hst, Hres. reflexivity.
Qed.

End WithLibm.
End AreaFacts.

(** ** More on validation and the fallback *)

Module AnalysisFacts.
Import AnalysisModel Validation ValidationFacts.

(** *** The clamp *)

Lemma clamp_unit_idempotent (c : float) : clamp_unit (clamp_unit c) = clamp_unit c.
Proof.
  unfold clamp_unit, float_min, float_max.
  destruct (PrimFloat.ltb c 1) eqn:H1.
  - destruct (PrimFloat.ltb 0 c) eqn:H0.
    + by rewrite H1, H0.
    + reflexivity.
  - reflexivity.
Qed.

Ltac field_cases H :=
  unfold string_fields, list_fields, dict_fields in H;
  repeat (apply elem_of_cons in H as [->|H]);
  [..|by apply elem_of_nil in H].

(** A closed membership that does not hold. *)
Ltac no_field H := exfalso; revert H; compute_done.

Section Builtins.
Context {B : PyBuiltins}.

(** *** Validation keeps what is right *)

Lemma ensure_keeps wanted dflt d field k v :
  d !! k = Some v → (k = field → wanted v = true) →
  ensure wanted dflt d field !! k = Some v.
Proof.
  intros Hk Hw. unfold ensure. destruct (decide (k = field)) as [->|Hne].
  - rewrite Hk. by rewrite (Hw eq_refl).
  - destruct (d !! field) as [w|].
    + destruct (wanted w); [done|]. by rewrite lookup_insert_ne.
    + by rewrite lookup_insert_ne.
Qed.

Lemma fold_ensure_keeps wanted dflt fields d k v :
  d !! k = Some v → (k ∈ fields → wanted v = true) →
  fold_left (ensure wanted dflt) fields d !! k = Some v.
Proof.
  revert d. induction fields as [|f fields IH]; intros d Hk Hw; simpl; [done|].
  apply IH.
  - apply ensure_keeps; [done|]. intros ->. apply Hw. by left.
  - intros Hin. apply Hw. by right.
Qed.

Lemma ensure_id wanted dflt d field v :
  d !! field = Some v → wanted v = true → ensure wanted dflt d field = d.
Proof. intros Hk Hw. unfold ensure. by rewrite Hk, Hw. Qed.

Lemma fold_ensure_id wanted dflt fields d :
  (∀ k, k ∈ fields → ∃ v, d !! k = Some v ∧ wanted v = true) →
  fold_left (ensure wanted dflt) fields d = d.
Proof.
  induction fields as [|f fields IH]; intros H; simpl; [done|].
  destruct (H f ltac:(by left)) as (v & Hv & Hw).
  rewrite (ensure_id _ _ _ _ v) by done.
  apply IH. intros k Hk. apply H. by right.
Qed.

(** The type a field must have. *)
Definition wanted_type (k : string) (v : value) : Prop :=
  (k ∈ string_fields → isinstance_str v = true)
  ∧ (k ∈ list_fields → isinstance_list v = true)
  ∧ (k ∈ dict_fields → isinstance_dict v = true).

Lemma validate_keeps (d d' : gmap string value) (k : string) (v : value) :
  _validate_analysis_dict d = Ok d' →
  d !! k = Some v → k ≠ "confidence_score" → wanted_type k v → d' !! k = Some v.
Proof.
  intros Hval Hk Hne (Hs & Hl & Hd).
  unfold _validate_analysis_dict, mbind, result_bind in Hval.
  destruct (validate_confidence d) as [d1|] eqn:Hc; unfold Py.bind in Hval; [|done].
  apply Ok_inj in Hval as <-.
  apply fold_ensure_keeps; [|done].
  apply fold_ensure_keeps; [|done].
  apply fold_ensure_keeps; [|done].
  by rewrite (validate_confidence_other d d1 k Hc).
Qed.

(** Validation never removes a key and never replaces what is already
    right: every key of the payload other than the confidence whose value
    has the type its field requires (a key that is no field of the analysis
    requires none) keeps its value. *)
Theorem validate_keeps_well_typed (d d' : gmap string value) (k : string) (v : value) :
  _validate_analysis_dict d = Ok d' →
  d !! k = Some v →
  is_Some (d' !! k)
  ∧ (k ≠ "confidence_score" → wanted_type k v → d' !! k = Some v).
Proof.
  intros Hval Hk. split; [|by apply (validate_keeps d)].
  destruct (decide (k = "confidence_score")) as [->|Hne].
  - destruct (validate_keeps_confidence d d' Hval) as (d1 & Hd1 & ->).
    unfold validate_confidence in Hd1. rewrite Hk in Hd1.
    destruct (py_float v) as [c|[]]; try done; apply Ok_inj in Hd1 as <-;
      by rewrite lookup_insert_eq.
  - destruct (validate_shapes d d' Hval) as (Hstr & Hlst & Hdct).
    destruct (decide (k ∈ string_fields)) as [Hin|Hs].
    { destruct (Hstr k Hin) as (s & -> & _). done. }
    destruct (decide (k ∈ list_fields)) as [Hin|Hl].
    { destruct (Hlst k Hin) as (l & -> & _). done. }
    destruct (decide (k ∈ dict_fields)) as [Hin|Hd].
    { destruct (Hdct k Hin) as (m & -> & _). done. }
    rewrite (validate_keeps d d' k v); [done..|]. by split; [|split].
Qed.

(** Validation is idempotent: a validated dictionary validates to
    itself. *)
Theorem validate_idempotent (d d' : gmap string value) :
  _validate_analysis_dict d = Ok d' → _validate_analysis_dict d' = Ok d'.
Proof.
  intros Hval.
  destruct (validate_shapes d d' Hval) as (Hstr & Hlst & Hdct).
  destruct (validate_keeps_confidence d d' Hval) as (d1 & Hd1 & Hconf).
  assert (Hc : validate_confidence d' = Ok d').
  { unfold validate_confidence. rewrite Hconf.
    unfold validate_confidence in Hd1.
    destruct (d !! "confidence_score") as [v|] eqn:Hv.
    - destruct (py_float v) as [c|[]]; try done; apply Ok_inj in Hd1 as <-;
        rewrite lookup_insert_eq; simpl.
      + rewrite clamp_unit_idempotent. f_equal. apply insert_id.
        by rewrite Hconf, lookup_insert_eq.
      + f_equal. apply insert_id. by rewrite Hconf, lookup_insert_eq.
      + f_equal. apply insert_id. by rewrite Hconf, lookup_insert_eq.
    - apply Ok_inj in Hd1 as <-. by rewrite Hv. }
  unfold _validate_analysis_dict, mbind, result_bind. rewrite Hc. unfold Py.bind.
  rewrite (fold_ensure_id _ _ string_fields).
  2:{ intros k Hk. destruct (Hstr k Hk) as (s & Hs & _). by exists (VStr s). }
  rewrite (fold_ensure_id _ _ list_fields).
  2:{ intros k Hk. destruct (Hlst k Hk) as (l & Hl & _). by exists (VList l). }
  rewrite (fold_ensure_id _ _ dict_fields).
  2:{ intros k Hk. destruct (Hdct k Hk) as (m & Hm & _). by exists (VDict m). }
  done.
Qed.

(** *** What a validated payload becomes *)

(** The value of a string field, a category block, a list field and the
    confidence after validation: the payload's own when it has the required
    type, the default otherwise. *)
Definition expected_str (d : gmap string value) (k : string) : string :=
  match d !! k with
  | Some (VStr s) => s
  | _ => "Not available"
  end.

Definition expected_block (d : gmap string value) (k : string) : gmap string value :=
  match d !! k with
  | Some (VDict m) => m
  | _ => block (VStr "5") "Not analyzed" "No data available"
  end.

Definition expected_list (d : gmap string value) (k : string) : option (list string) :=
  match d !! k with
  | Some (VList l) => mapM element_str l
  | _ => Some []
  end.

Definition expected_confidence (v : value) : float :=
  match py_float v with
  | Ok c => clamp_unit c
  | Raise _ => 0.5
  end.

Lemma validated_str (d d' : gmap string value) (k : string) :
  _validate_analysis_dict d = Ok d' → k ∈ string_fields →
  field_str d' k = Some (expected_str d k).
Proof.
  intros Hval Hk. destruct (validate_shapes d d' Hval) as (Hstr & _ & _).
  destruct (Hstr k Hk) as (s & Hs & Hor). unfold field_str, expected_str.
  destruct (d !! k) as [v|] eqn:Hv.
  - destruct (isinstance_str v) eqn:Hw.
    + rewrite (validate_keeps d d' k v Hval Hv).
      * by destruct v.
      * intros ->. no_field Hk.
      * split; [done|]. split; intros Hin; field_cases Hk; no_field Hin.
    + rewrite Hs. destruct Hor as [Hor| ->]; [|by destruct v].
      injection Hor as ->. done.
  - rewrite Hs. by destruct Hor as [Hor| ->].
Qed.

Lemma validated_block (d d' : gmap string value) (k : string) :
  _validate_analysis_dict d = Ok d' → k ∈ dict_fields →
  field_dict d' k = Some (expected_block d k).
Proof.
  intros Hval Hk. destruct (validate_shapes d d' Hval) as (_ & _ & Hdct).
  destruct (Hdct k Hk) as (m & Hm & Hor). unfold field_dict, expected_block.
  destruct (d !! k) as [v|] eqn:Hv.
  - destruct (isinstance_dict v) eqn:Hw.
    + rewrite (validate_keeps d d' k v Hval Hv).
      * by destruct v.
      * intros ->. no_field Hk.
      * split; [|split; [|done]]; intros Hin; field_cases Hk; no_field Hin.
    + rewrite Hm. destruct Hor as [Hor|Hor]; [injection Hor as ->; done|].
      injection Hor as ->. by destruct v.
  - rewrite Hm. destruct Hor as [Hor|Hor]; [done|]. by injection Hor as ->.
Qed.

Lemma validated_list (d d' : gmap string value) (k : string) :
  _validate_analysis_dict d = Ok d' → k ∈ list_fields →
  field_str_list d' k = expected_list d k.
Proof.
  intros Hval Hk. destruct (validate_shapes d d' Hval) as (_ & Hlst & _).
  destruct (Hlst k Hk) as (l & Hl & Hor). unfold field_str_list, expected_list.
  destruct (d !! k) as [v|] eqn:Hv.
  - destruct (isinstance_list v) eqn:Hw.
    + rewrite (validate_keeps d d' k v Hval Hv).
      * by destruct v.
      * intros ->. no_field Hk.
      * split; [|split; [done|]]; intros Hin; field_cases Hk; no_field Hin.
    + rewrite Hl. destruct Hor as [Hor| ->]; [injection Hor as ->; done|].
      by destruct v.
  - rewrite Hl. by destruct Hor as [Hor| ->].
Qed.

Lemma validated_confidence (d d' : gmap string value) (v : value) :
  _validate_analysis_dict d = Ok d' → d !! "confidence_score" = Some v →
  field_confidence d' = Some (expected_confidence v).
Proof.
  intros Hval Hv.
  destruct (validate_keeps_confidence d d' Hval) as (d1 & Hd1 & Hconf).
  unfold field_confidence, expected_confidence. rewrite Hconf.
  unfold validate_confidence in Hd1. rewrite Hv in Hd1.
  destruct (py_float v) as [c|[]]; try done; apply Ok_inj in Hd1 as <-;
    rewrite lookup_insert_eq; try done.
  destruct (clamp_unit_range c) as [-> ->]. done.
Qed.

(** A payload object with a confidence that converts without overflow,
    whose list fields hold what pydantic accepts as strings, becomes an
    analysis, and each field of it is known: a string field, a category
    block or a list of the payload is kept when it has the required type
    and replaced by its default otherwise (["Not available"], the block
    with score ["5"], the empty list); the confidence is the payload's,
    clamped into [0, 1], or 0.5 when it is no number. *)
Theorem analysis_of_payload_fields (d : gmap string value) (v : value) :
  d !! "confidence_score" = Some v →
  py_float v ≠ Raise OverflowError →
  (∀ k l, k ∈ list_fields → d !! k = Some (VList l) → is_Some (mapM element_str l)) →
  ∃ a, analysis_of_payload (VDict d) = Some a
    ∧ overall_rating a = expected_str d "overall_rating"
    ∧ overall_summary a = expected_str d "overall_summary"
    ∧ recommendation a = expected_str d "recommendation"
    ∧ price_range_assessment a = expected_str d "price_range_assessment"
    ∧ food_quality a = expected_block d "food_quality"
    ∧ service_quality a = expected_block d "service_quality"
    ∧ atmosphere a = expected_block d "atmosphere"
    ∧ value_for_money a = expected_block d "value_for_money"
    ∧ Some (key_highlights a) = expected_list d "key_highlights"
    ∧ Some (potential_concerns a) = expected_list d "potential_concerns"
    ∧ Some (best_for a) = expected_list d "best_for"
    ∧ confidence_score a = expected_confidence v.
Proof.
  intros Hv Hover Hlists.
  destruct (analysis_of_payload_complete d v Hv Hover Hlists) as [a Ha].
  exists a. split; [done|].
  unfold analysis_of_payload in Ha.
  destruct (_validate_analysis_dict d) as [d'|] eqn:Hval; [|done].
  unfold RestaurantAnalysis_of_dict in Ha.
  rewrite !(validated_str d d') in Ha by (done || compute_done).
  rewrite !(validated_block d d') in Ha by (done || compute_done).
  rewrite !(validated_list d d') in Ha by (done || compute_done).
  rewrite (validated_confidence d d' v) in Ha by done.
  csimpl in Ha.
  destruct (expected_list d "key_highlights") as [l1|]; csimpl in Ha; [|done].
  destruct (expected_list d "potential_concerns") as [l2|]; csimpl in Ha; [|done].
  destruct (expected_list d "best_for") as [l3|]; csimpl in Ha; [|done].
  injection Ha as <-. done.
Qed.

(** *** The confidence of every analysis *)

Lemma RestaurantAnalysis_of_dict_confidence (d : gmap string value) (a : RestaurantAnalysis) :
  RestaurantAnalysis_of_dict d = Some a →
  PrimFloat.leb 0 (confidence_score a) = true ∧ PrimFloat.leb (confidence_score a) 1 = true.
Proof.
  unfold RestaurantAnalysis_of_dict. intros H.
  repeat (match type of H with
          | mbind _ (field_str ?m ?k) = Some _ => destruct (field_str m k); csimpl in H; [|done]
          | mbind _ (field_dict ?m ?k) = Some _ => destruct (field_dict m k); csimpl in H; [|done]
          | mbind _ (field_str_list ?m ?k) = Some _ =>
              destruct (field_str_list m k); csimpl in H; [|done]
          end).
  destruct (field_confidence d) as [c|] eqn:Hc; csimpl in H; [|done].
  injection H as <-. simpl.
  unfold field_confidence in Hc.
  destruct (d !! "confidence_score") as [[| |z|f| | |]|]; try done.
  - destruct (float_of_int z) as [f|]; [|done].
    destruct (PrimFloat.leb 0 f && PrimFloat.leb f 1) eqn:Hb; [|done].
    injection Hc as <-. by apply andb_true_iff in Hb.
  - destruct (PrimFloat.leb 0 f && PrimFloat.leb f 1) eqn:Hb; [|done].
    injection Hc as <-. by apply andb_true_iff in Hb.
Qed.

Lemma analysis_of_payload_confidence (payload : value) (a : RestaurantAnalysis) :
  analysis_of_payload payload = Some a →
  PrimFloat.leb 0 (confidence_score a) = true ∧ PrimFloat.leb (confidence_score a) 1 = true.
Proof.
  unfold analysis_of_payload. destruct payload as [| | | | | |d]; try done.
  destruct (_validate_analysis_dict d) as [d'|]; [|done].
  apply RestaurantAnalysis_of_dict_confidence.
Qed.

(** Whatever [analyze_single_restaurant] returns, from the language model
    or from the fallback, has a confidence between 0 and 1. *)
Theorem analyze_single_restaurant_confidence
    (restaurant_data : gmap string value) (call : model_call) (a : RestaurantAnalysis) :
  analyze_single_restaurant restaurant_data call = Ok a →
  PrimFloat.leb 0 (confidence_score a) = true ∧ PrimFloat.leb (confidence_score a) 1 = true.
Proof.
  unfold analyze_single_restaurant.
  destruct (analyze_restaurant call) as [a'|] eqn:Ha.
  - intros [= <-]. unfold analyze_restaurant in Ha.
    destruct call as [| |[text|]]; try done.
    destruct (String.eqb text ""); [done|].
    unfold analysis_of_text in Ha.
    destruct (json_loads _) as [payload|].
    + by eapply analysis_of_payload_confidence.
    + destruct (find _ _); [|done].
      destruct (json_loads _) as [payload|]; [|done].
      by eapply analysis_of_payload_confidence.
  - unfold BackendAnalysisService.create_fallback_analysis, mbind, result_bind.
    destruct (value_number _); simpl; [|done].
    destruct (BackendAnalysisService.price_description _); simpl; [|done].
    destruct (doubled_int _); simpl; [|done].
    destruct (py_str_int _); simpl; [|done].
    intros [= <-]. by vm_compute.
Qed.

(** *** When the fallback fails *)

(** A rating the fallback can score: an integer, a boolean, or a float
    whose double is finite. *)
Definition scorable (v : value) : bool :=
  match v with
  | VInt _ | VBool _ => true
  | VFloat f => PrimFloat.is_finite (f * 2)
  | _ => false
  end.

Lemma int_of_float_ok (x : float) : is_ok (int_of_float x) = PrimFloat.is_finite x.
Proof.
  unfold int_of_float. rewrite FloatFacts.is_finite_spec. by destruct (Prim2SF x).
Qed.


(** The whole part of a float has fewer digits than the interpreter ever
    refuses to print. *)
Lemma int_of_float_bound (x : float) (k : Z) :
  int_of_float x = Ok k → Z.abs k < 2 ^ 1024.
Proof.
  unfold int_of_float. pose proof (Prim2SF_valid x) as Hv.
  destruct (Prim2SF x) as [s| | |s m e]; try done.
  - intros [= <-]. done.
  - intros [= <-]. apply FloatFacts.valid_finite_bounds in Hv as [Hm He].
    assert (Habs : Z.abs (cond_Zopp s (Z.shiftl (Z.pos m) e)) = Z.shiftl (Z.pos m) e).
    { pose proof (Z.shiftl_nonneg (Z.pos m) e). destruct s; simpl; lia. }
    rewrite Habs.
    destruct (Z.le_gt_cases 0 e) as [Hpos|Hneg].
    + rewrite Z.shiftl_mul_pow2 by done.
      apply Z.lt_le_trans with (2 ^ 53 * 2 ^ e).
      * apply Z.mul_lt_mono_pos_r; [apply Z.pow_pos_nonneg; lia|done].
      * rewrite <- Z.pow_add_r by lia. apply Z.pow_le_mono_r; lia.
    + rewrite Z.shiftl_div_pow2 by lia.
      apply Z.le_lt_trans with (Z.pos m).
      * apply Z.div_le_upper_bound; [apply Z.pow_pos_nonneg; lia|].
        assert (0 < 2 ^ (- e)) by (apply Z.pow_pos_nonneg; lia). nia.
      * eapply Z.lt_trans; [exact Hm|]. apply Z.pow_lt_mono_r; lia.
Qed.

Lemma str_refused_below (k : Z) : Z.abs k < 2 ^ 1024 → str_refused k = false.
Proof.
  intros Hk. unfold str_refused.
  assert (Hd : more_digits_than str_digits_threshold k = false); [|by rewrite Hd].
  unfold more_digits_than, str_digits_threshold. apply Z.leb_gt.
  eapply Z.lt_trans; [exact Hk|]. apply Z.ltb_lt. by vm_compute.
Qed.

(** The score [str] converts: that of a boolean or of a float always, that
    of an integer when its double is within the bound on the digits. *)
Definition score_prints (v : value) : bool :=
  match v with
  | VInt z => negb (str_refused (z * 2))
  | _ => true
  end.

(** The fallback of the backend, on a record whose review count an
    f-string formats, returns an analysis exactly when three things hold.
    The rating, 0 when absent and a string converted first (to 0 when it
    does not parse), is an integer, a boolean or a float whose double is
    finite: for [None], a list, a dictionary, NaN or an infinity the
    fallback raises.  The price level is not a string that passes
    [isdigit()] and that [int] rejects.  And [str] accepts the score, which
    it always does for a boolean or a float.  Otherwise the fallback raises,
    and so does [analyze_single_restaurant] when the language model gave
    nothing. *)
Theorem backend_fallback_succeeds_iff (restaurant_data : gmap string value) :
  formats (dict_get restaurant_data "total_ratings" (VInt 0)) = true →
  is_ok (BackendAnalysisService.create_fallback_analysis restaurant_data)
  = scorable (BackendAnalysisService.coerce_rating
                (dict_get restaurant_data "rating" (VInt 0)))
    && is_ok (BackendAnalysisService.price_description
                (dict_get restaurant_data "price_level" (VInt 2)))
    && score_prints (BackendAnalysisService.coerce_rating
                       (dict_get restaurant_data "rating" (VInt 0))).
Proof.
  intros _.
  unfold BackendAnalysisService.create_fallback_analysis, mbind, result_bind.
  destruct (BackendAnalysisService.coerce_rating _) as [|b|z|f|s|l|m]; simpl; try done.
  - destruct (BackendAnalysisService.price_description _); simpl; [|done].
    by destruct b.
  - destruct (BackendAnalysisService.price_description _); simpl; [|done].
    unfold py_str_int. by destruct (str_refused (z * 2)).
  - rewrite <- int_of_float_ok.
    destruct (BackendAnalysisService.price_description _); simpl;
      [|by rewrite andb_false_r].
    destruct (int_of_float (f * 2)) as [k|] eqn:Hk; simpl; [|done].
    apply int_of_float_bound, str_refused_below in Hk.
    unfold py_str_int. by rewrite Hk.
Qed.


End Builtins.

(** *** Whole-number ratings *)

(** For a whole-number rating the label is ["Excellent"] from 5 on,
    ["Very Good"] for 4, ["Fair"] for 3 and ["Poor"] below: the label
    ["Good"], for ratings from 3.5 to below 4, is never given. *)
Theorem rating_label_integer (z : Z) :
  rating_label (NInt z)
  = if 5 <=? z then "Excellent"
    else if 4 <=? z then "Very Good"
    else if 3 <=? z then "Fair"
    else "Poor".
Proof.
  unfold rating_label, number_ge, number_compare, Z_SF_compare.
  change (Prim2SF 4.5) with (S754_finite false 5066549580791808 (-50)).
  change (Prim2SF 4.0) with (S754_finite false 4503599627370496 (-50)).
  change (Prim2SF 3.5) with (S754_finite false 7881299347898368 (-51)).
  change (Prim2SF 3.0) with (S754_finite false 6755399441055744 (-51)).
  cbn [cond_Zopp Z.leb Z.compare Z.opp].
  change (2 ^ 50) with 1125899906842624. change (2 ^ 51) with 2251799813685248.
  repeat match goal with
         | |- context [?a ?= ?b] => destruct (Z.compare_spec a b)
         end;
    repeat match goal with
           | |- context [?a <=? ?b] => destruct (Z.leb_spec a b)
           end; try done; lia.
Qed.

End AnalysisFacts.

Module FenceFacts.
Import AnalysisModel Validation.

(** *** Strings *)

Lemma list_ascii_app (a b : string) :
  list_ascii_of_string (a +:+ b) = list_ascii_of_string a ++ list_ascii_of_string b.
Proof. induction a as [|c a IH]; simpl; [done|]. by rewrite IH. Qed.

Lemma string_of_list_app (l1 l2 : list ascii) :
  string_of_list_ascii (l1 ++ l2) = string_of_list_ascii l1 +:+ string_of_list_ascii l2.
Proof. induction l1 as [|c l1 IH]; simpl; [done|]. by rewrite IH. Qed.

Lemma rev_string_app (a b : string) :
  rev_string (a +:+ b) = rev_string b +:+ rev_string a.
Proof. unfold rev_string. by rewrite list_ascii_app, rev_app_distr, string_of_list_app. Qed.

Lemma rev_string_involutive (s : string) : rev_string (rev_string s) = s.
Proof.
  unfold rev_string.
  by rewrite list_ascii_of_string_of_list_ascii, rev_involutive, string_of_list_ascii_of_string.
Qed.

Lemma length_app_string (a b : string) :
  String.length (a +:+ b) = (String.length a + String.length b)%nat.
Proof. induction a as [|c a IH]; simpl; [done|]. by rewrite IH. Qed.

Lemma substring_prefix (a b : string) :
  String.substring 0 (String.length a) (a +:+ b) = a.
Proof. induction a as [|c a IH]; simpl; [by destruct b|]. by rewrite IH. Qed.

Lemma substring_all (s : string) : String.substring 0 (String.length s) s = s.
Proof. induction s as [|c s IH]; simpl; [done|]. by rewrite IH. Qed.

(** An answer wrapped in a Markdown fence, with nothing but the fence
    around the body. *)
Definition fenced (body : string) : string := fence +:+ "json" +:+ body +:+ fence.

Lemma append_assoc (a b c : string) : (a +:+ b) +:+ c = a +:+ (b +:+ c).
Proof.
  induction a as [|x a IH]; [done|].
  change (String x ((a +:+ b) +:+ c) = String x (a +:+ b +:+ c)). by rewrite IH.
Qed.

Lemma rev_string_fenced (body : string) :
  rev_string (fenced body) = fence +:+ rev_string body +:+ rev_string "json" +:+ fence.
Proof.
  unfold fenced. rewrite !rev_string_app. change (rev_string fence) with fence.
  by rewrite !append_assoc.
Qed.

Lemma strip_fenced (body : string) : strip (fenced body) = fenced body.
Proof.
  unfold strip.
  change (lstrip (fenced body)) with (fenced body).
  rewrite rev_string_fenced.
  change (lstrip (fence +:+ rev_string body +:+ rev_string "json" +:+ fence))
    with (fence +:+ rev_string body +:+ rev_string "json" +:+ fence).
  rewrite <- rev_string_fenced. apply rev_string_involutive.
Qed.

Section Builtins.
Context {B : PyBuiltins}.

(** A fenced answer is decoded as the text inside the fence: the leading
    fence with its [json] tag and the trailing fence are cut off before
    [json.loads]. *)
Theorem analysis_of_text_fenced (body : string) (payload : value) :
  json_loads body = Some payload →
  analysis_of_text (fenced body) = analysis_of_payload payload.
Proof.
  intros Hjson. unfold analysis_of_text. rewrite strip_fenced.
  assert (H1 : startswith (fenced body) (fence +:+ "json") = true).
  { apply prefix_correct. exact (substring_prefix (fence +:+ "json") (body +:+ fence)). }
  rewrite H1.
  assert (H2 : slice (fenced body) 7 (String.length (fenced body)) = body +:+ fence).
  { unfold slice, fenced. simpl. rewrite Nat.sub_0_r. apply substring_all. }
  rewrite H2.
  assert (H3 : endswith (body +:+ fence) fence = true).
  { unfold endswith. rewrite rev_string_app. apply prefix_correct, substring_prefix. }
  rewrite H3.
  assert (H4 : slice (body +:+ fence) 0 (String.length (body +:+ fence) - 3) = body).
  { unfold slice. rewrite length_app_string. simpl.
    rewrite Nat.sub_0_r, Nat.add_sub. apply substring_prefix. }
  rewrite H4. cbv zeta. by rewrite Hjson.
Qed.

End Builtins.
End FenceFacts.

(** ** The answer of the language model: text around the JSON *)

Module BraceFacts.
Import AnalysisModel Validation.

(** *** Finding a character *)









Section Builtins.
Context {B : PyBuiltins} {P : Pydantic}.


End Builtins.
End BraceFacts.

(** ** Concrete runs of the endpoints *)

(** Searches run under the reference C library [RefLibm.ref_libm]. *)

Module Samples.
Import Main RefLibm.

(** Equality of two closed terms, checked by evaluation. *)
Ltac by_evaluation :=
  match goal with |- ?x = ?y => vm_cast_no_check (@eq_refl _ y) end.

Definition key : option string := Some "key".

Definition place_at (id : string) (la lo : float) (rt : option number) : place :=
  {| p_place_id := Some id;
     p_name := Some id;
     p_vicinity := None;
     p_geometry := Some {| g_location := Some {| lat := Some (NFloat la); lng := Some (NFloat lo) |} |};
     p_rating := rt;
     p_user_ratings_total := None;
     p_price_level := None;
     p_types := None;
     p_photos := None |}.

Definition page (ps : list place) (token : option string) : search_page :=
  {| status := Some "OK"; results := Some ps; next_page_token := token |}.

Definition denied : search_page :=
  {| status := Some "REQUEST_DENIED"; results := None; next_page_token := None |}.

(** Two places near lower Manhattan, and one whose record has no
    coordinates. *)
Definition uptown : place := place_at "uptown" 40.78 (-73.97) (Some (NFloat 4.5)).
Definition midtown : place := place_at "midtown" 40.75 (-73.99) (Some (NInt 4)).
Definition nowhere : place :=
  {| p_place_id := Some "nowhere";
     p_name := None;
     p_vicinity := None;
     p_geometry := None;
     p_rating := None;
     p_user_ratings_total := None;
     p_price_level := None;
     p_types := None;
     p_photos := None |}.

(** *** Searches *)

Lemma find_restaurants_errors_witness :
  PrimFloat.leb 0.1 10 = true ∧ PrimFloat.leb 10 10 = true
  ∧ find_restaurants key 40.7128 (-74.006) 10 0 60 StatusError []
    = Some (Raise (HTTPException 500 "Failed to fetch restaurant data"))
  ∧ ∃ detail, HTTPException 500 "Failed to fetch restaurant data" = HTTPException 500 detail
      ∧ detail ∈ ["Google Places API key not configured";
                  "Failed to fetch restaurant data";
                  "Internal server error"].
Proof.
  assert (H1 : PrimFloat.leb 0.1 10 = true) by reflexivity.
  assert (H2 : PrimFloat.leb 10 10 = true) by reflexivity.
  assert (H3 : find_restaurants key 40.7128 (-74.006) 10 0 60
                 StatusError []
               = Some (Raise (HTTPException 500 "Failed to fetch restaurant data")))
    by reflexivity.
  split; [exact H1|]. split; [exact H2|]. split; [exact H3|].
  exact (SearchFacts.find_restaurants_errors key 40.7128 (-74.006) 10 0 60 StatusError [] _
           H1 H2 H3).
Defined.

Lemma find_restaurants_first_page_not_ok_witness :
  key_configured key = true
  ∧ PrimFloat.leb 0.1 10 = true ∧ PrimFloat.leb 10 10 = true
  ∧ status_ok denied = false
  ∧ find_restaurants key 40.7128 (-74.006) 10 0 60 (Reply denied) []
    = Some (Raise (HTTPException 500 "Internal server error")).
Proof.
  repeat (split; [reflexivity|]).
  exact (SearchFacts.find_restaurants_first_page_not_ok key 40.7128 (-74.006) 10 0 60
           denied [] eq_refl eq_refl eq_refl eq_refl).
Defined.

Lemma find_restaurants_from_places_witness :
  ∃ resp,
    find_restaurants key 40.7128 (-74.006) 10 4.2 60
      (Reply (page [uptown; midtown] None)) []
    = Some (Ok resp)
    ∧ Forall (λ r, ∃ p, p ∈ MainFacts.script_places [Reply (page [uptown; midtown] None)]
                        ∧ number_ge (default (NInt 0) (p_rating p)) (NFloat 4.2) = true
                        ∧ format_restaurant_data key p 40.7128 (-74.006) = Ok r)
             (restaurants resp).
Proof.
  eexists.
  match goal with
  | |- ?A ∧ _ => assert (H1 : A) by (vm_compute; reflexivity)
  end.
  split; [exact H1|].
  exact (SearchFacts.find_restaurants_from_places key 40.7128 (-74.006) 10 4.2 60
           (Reply (page [uptown; midtown] None)) [] _ H1).
Defined.

Lemma find_restaurants_unfilled_fields_witness :
  ∃ resp,
    find_restaurants key 40.7128 (-74.006) 10 0 60
      (Reply (page [uptown; midtown] None)) []
    = Some (Ok resp)
    ∧ Forall (λ r, phone r = None ∧ website r = None ∧ opening_hours r = None
                   ∧ (length (photos r) ≤ 3)%nat)
             (restaurants resp).
Proof.
  eexists.
  match goal with
  | |- ?A ∧ _ => assert (H1 : A) by (vm_compute; reflexivity)
  end.
  split; [exact H1|].
  exact (SearchFacts.find_restaurants_unfilled_fields key 40.7128 (-74.006) 10 0 60
           (Reply (page [uptown; midtown] None)) [] _ H1).
Defined.

Lemma find_restaurants_no_continuation_witness :
  ∃ rs,
    process_page key 40.7128 (-74.006) 0 1 [uptown; midtown] [] = Ok rs
    ∧ (token_truthy (Some "next") = false ∨ 1 ≤ Z.of_nat (length rs))
    ∧ is_Some (find_restaurants key 40.7128 (-74.006) 10 0 1
                 (Reply (page [uptown; midtown] (Some "next"))) [TransportError])
    ∧ find_restaurants key 40.7128 (-74.006) 10 0 1
        (Reply (page [uptown; midtown] (Some "next"))) [TransportError]
      = find_restaurants key 40.7128 (-74.006) 10 0 1
          (Reply (page [uptown; midtown] (Some "next"))) [].
Proof.
  eexists.
  match goal with
  | |- ?A ∧ _ => assert (H1 : A) by (vm_compute; reflexivity)
  end.
  match goal with
  | |- _ ∧ ?A ∧ _ => assert (H2 : A) by (right; simpl; lia)
  end.
  split; [exact H1|]. split; [exact H2|].
  exact (SearchFacts.find_restaurants_no_continuation key 40.7128 (-74.006) 10 0 1
           (page [uptown; midtown] (Some "next")) [TransportError] _ H1 H2).
Defined.

Lemma format_restaurant_data_without_geometry_witness :
  ∃ r,
    p_geometry nowhere = None
    ∧ format_restaurant_data key nowhere 0.5 0.5 = Ok r
    ∧ latitude r = 0%float ∧ longitude r = 0%float
    ∧ ∃ d, calculate_distance 0.5 0.5 0 0 = Ok d
           ∧ distance_miles r = Some (round2 d).
Proof.
  eexists. split; [reflexivity|].
  match goal with
  | |- ?A ∧ _ => assert (H1 : A) by (vm_compute; reflexivity)
  end.
  split; [exact H1|].
  exact (SearchFacts.format_restaurant_data_without_geometry key nowhere 0.5 0.5 _ eq_refl H1).
Defined.

Lemma find_restaurants_stated_order_witness :
  ∃ resp,
    find_restaurants key 40.7128 (-74.006) 10 0 60
      (Reply (page [uptown; midtown] None)) []
    = Some (Ok resp)
    ∧ Forall MainFacts.regular (restaurants resp)
    ∧ Sorted MainFacts.in_stated_order (restaurants resp)
    ∧ place_id <$> restaurants resp = ["midtown"; "uptown"].
Proof.
  eexists.
  match goal with
  | |- ?A ∧ _ => assert (H1 : A) by (vm_compute; reflexivity)
  end.
  match goal with
  | |- _ ∧ ?A ∧ _ =>
      assert (H2 : A) by (repeat constructor; eexists; repeat split; reflexivity)
  end.
  split; [exact H1|]. split; [exact H2|].
  split; [|reflexivity].
  exact (MainFacts.find_restaurants_stated_order key 40.7128 (-74.006) 10 0 60
           (Reply (page [uptown; midtown] None)) [] _ H1 H2).
Defined.

(** A place with four photos: the second has no reference, the third an
    empty one, and the fourth is beyond the first three. *)
Definition pictured : place :=
  {| p_place_id := Some "pictured";
     p_name := Some "Pictured";
     p_vicinity := None;
     p_geometry :=
       Some {| g_location := Some {| lat := Some (NFloat 40.73); lng := Some (NFloat (-74)) |} |};
     p_rating := None;
     p_user_ratings_total := None;
     p_price_level := None;
     p_types := None;
     p_photos := Some [{| photo_reference := Some "first" |};
                       {| photo_reference := None |};
                       {| photo_reference := Some "" |};
                       {| photo_reference := Some "fourth" |}] |}.

Lemma find_restaurants_photo_urls_witness :
  ∃ resp,
    find_restaurants key 40.7128 (-74.006) 10 0 60 (Reply (page [pictured] None)) []
    = Some (Ok resp)
    ∧ photos <$> restaurants resp
      = [["https://maps.googleapis.com/maps/api/place/photo?maxwidth=400&photoreference=first&key=key"]]
    ∧ ∃ api_key, key = Some api_key ∧ api_key ≠ ""
        ∧ Forall (λ r,
            Forall (λ url, ∃ photo_ref, photo_ref ≠ ""
                      ∧ url = GOOGLE_PLACES_BASE_URL +:+ "/photo?maxwidth=400&photoreference="
                                +:+ photo_ref +:+ "&key=" +:+ api_key)
                   (photos r))
            (restaurants resp).
Proof.
  eexists.
  match goal with
  | |- ?A ∧ _ => assert (H1 : A) by (vm_compute; reflexivity)
  end.
  split; [exact H1|]. split; [reflexivity|].
  exact (SearchFacts.find_restaurants_photo_urls key 40.7128 (-74.006) 10 0 60
           (Reply (page [pictured] None)) [] _ H1).
Defined.

(** *** Place details, analysis and reviews *)

Definition closed_down : gmap string value := {["status" := VStr "NOT_FOUND"]}.

Lemma get_restaurant_details_upstream_failure_witness :
  key_configured key = true
  ∧ EndpointFacts.upstream_failure (LocationService.Reply (VDict closed_down))
  ∧ Endpoints.get_restaurant_details key "p1" (LocationService.Reply (VDict closed_down))
    = Raise (HTTPException 404 "Restaurant not found").
Proof.
  assert (H1 : EndpointFacts.upstream_failure (LocationService.Reply (VDict closed_down))).
  { unfold EndpointFacts.upstream_failure, closed_down. by rewrite lookup_singleton_eq. }
  split; [reflexivity|]. split; [exact H1|].
  exact (EndpointFacts.get_restaurant_details_upstream_failure key "p1" _ eq_refl H1).
Defined.

(** A new restaurant: the details hold a name and no rating. *)
Definition unrated : gmap string value := {["name" := VStr "Cafe"]}.

Definition unrated_body : gmap string value :=
  <["status" := VStr "OK"]> {["result" := VDict unrated]}.

Lemma get_restaurant_ai_analysis_unrated_witness :
  key_configured key = true
  ∧ unrated_body !! "status" = Some (VStr "OK")
  ∧ unrated_body !! "result" = Some (VDict unrated)
  ∧ unrated ≠ ∅
  ∧ unrated !! "rating" = None
  ∧ ∀ (B : PyBuiltins) (P : Pydantic),
      AnalysisRequests.analyze_restaurant Validation.NoClient = None
      ∧ Endpoints.get_restaurant_ai_analysis key "p1"
          (LocationService.Reply (VDict unrated_body)) Validation.NoClient
        = Raise TypeError.
Proof.
  assert (H1 : unrated_body !! "status" = Some (VStr "OK")) by apply lookup_insert_eq.
  assert (H2 : unrated_body !! "result" = Some (VDict unrated)).
  { unfold unrated_body. by rewrite lookup_insert_ne, lookup_singleton_eq. }
  assert (H3 : unrated ≠ ∅) by apply insert_non_empty.
  assert (H4 : unrated !! "rating" = None) by (by apply lookup_singleton_ne).
  split; [reflexivity|]. split; [exact H1|]. split; [exact H2|].
  split; [exact H3|]. split; [exact H4|].
  intros B P. split; [reflexivity|].
  exact (EndpointFacts.get_restaurant_ai_analysis_unrated key "p1" unrated_body unrated
           Validation.NoClient eq_refl H1 H2 H3 H4 eq_refl).
Defined.

(** Details with two reviews, the second one empty. *)
Definition reviewed : gmap string value :=
  <["rating" := VFloat 4.5]>
    {["reviews" := VList [VDict {["text" := VStr "Good"]}; VDict ∅]]}.

Definition reviewed_reply : LocationService.http_reply value :=
  LocationService.Reply (VDict (<["status" := VStr "OK"]> {["result" := VDict reviewed]})).

Definition first_review : gmap string value :=
  list_to_map
    [("source", VStr "google");
     ("author_name", VStr "Anonymous");
     ("rating", VNone);
     ("text", VStr "Good");
     ("time", VNone);
     ("relative_time_description", VNone);
     ("profile_photo_url", VStr "")].

Definition google_entry : Endpoints.source_reviews :=
  {| Endpoints.sr_reviews := [first_review];
     Endpoints.sr_total_count := 1;
     Endpoints.sr_average_rating := VFloat 4.5;
     Endpoints.sr_total_ratings := VNone;
     Endpoints.sr_note := None |}.

Lemma get_restaurant_reviews_google_entry_witness :
  Endpoints.get_restaurant_reviews key "p1" ["google"] 1 reviewed_reply
  = Some (Ok ("p1", {["google" := google_entry]}))
  ∧ ({["google" := google_entry]} : gmap string Endpoints.source_reviews) !! "google"
    = Some google_entry
  ∧ Endpoints.sr_total_count google_entry
    = Z.of_nat (length (Endpoints.sr_reviews google_entry))
  ∧ (0 ≤ 1 → Endpoints.sr_total_count google_entry ≤ 1)
  ∧ Forall (λ r, dom r = EndpointFacts.review_keys ∧ r !! "source" = Some (VStr "google"))
           (Endpoints.sr_reviews google_entry).
Proof.
  assert (H1 : Endpoints.get_restaurant_reviews key "p1" ["google"] 1 reviewed_reply
               = Some (Ok ("p1", {["google" := google_entry]}))) by by_evaluation.
  assert (H2 : ({["google" := google_entry]} : gmap string Endpoints.source_reviews) !! "google"
               = Some google_entry) by apply lookup_singleton_eq.
  split; [exact H1|]. split; [exact H2|].
  exact (EndpointFacts.get_restaurant_reviews_google_entry key "p1" ["google"] 1 reviewed_reply
           ("p1", {["google" := google_entry]}) google_entry H1 H2).
Defined.

Lemma get_restaurant_reviews_sources_witness :
  ∃ entries,
    Endpoints.get_restaurant_reviews key "p1" ["yelp"; "tripadvisor"] 5 reviewed_reply
    = Some (Ok ("p1", entries))
    ∧ (∀ k, is_Some (entries !! k)
            ↔ (k = "google" ∨ k = "yelp") ∧ k ∈ ["yelp"; "tripadvisor"])
    ∧ (∀ y, entries !! "yelp" = Some y → y = Endpoints.yelp_placeholder).
Proof.
  exists {["yelp" := Endpoints.yelp_placeholder]}.
  assert (H1 : Endpoints.get_restaurant_reviews key "p1" ["yelp"; "tripadvisor"] 5 reviewed_reply
               = Some (Ok ("p1", {["yelp" := Endpoints.yelp_placeholder]})))
    by by_evaluation.
  split; [exact H1|].
  exact (proj2 (EndpointFacts.get_restaurant_reviews_sources key "p1" ["yelp"; "tripadvisor"] 5
                  reviewed_reply _ H1)).
Defined.

Lemma get_restaurant_reviews_upstream_failure_witness :
  key_configured key = true
  ∧ EndpointFacts.upstream_failure (LocationService.TransportError (A := value))
  ∧ "google" ∈ ["google"; "yelp"]
  ∧ ∃ entries,
      Endpoints.get_restaurant_reviews key "p1" ["google"; "yelp"] 5
        LocationService.TransportError
      = Some (Ok ("p1", entries))
      ∧ entries !! "google" = Some EndpointFacts.no_reviews.
Proof.
  assert (H : "google" ∈ ["google"; "yelp"]) by constructor.
  split; [reflexivity|]. split; [exact I|]. split; [exact H|].
  exact (EndpointFacts.get_restaurant_reviews_upstream_failure key "p1" ["google"; "yelp"] 5
           LocationService.TransportError eq_refl I H).
Defined.

(** *** Area analysis *)

Lemma get_area_restaurant_analysis_analyses_nothing_witness :
  ∃ out,
    Endpoints.get_area_restaurant_analysis key 40.7128 (-74.006) 5
      (Reply (page [] None)) [] (AnalysisRequests.AreaContent (Some "A quiet street."))
    = Some (Ok out)
    ∧ Endpoints.restaurants_analyzed out = 0
    ∧ (Endpoints.area_analysis out
       = "AI analysis not available - OpenAI API key not configured"
       ∨ Endpoints.area_analysis out = "No restaurants found in this area.").
Proof.
  eexists.
  match goal with
  | |- ?A ∧ _ => assert (H1 : A) by (vm_compute; reflexivity)
  end.
  split; [exact H1|].
  exact (AreaFacts.get_area_restaurant_analysis_analyses_nothing key 40.7128 (-74.006) 5
           (Reply (page [] None)) [] (AnalysisRequests.AreaContent (Some "A quiet street."))
           _ H1).
Defined.

Lemma get_area_restaurant_analysis_fails_witness :
  key_configured key = true
  ∧ PrimFloat.leb 0.1 5 = true ∧ PrimFloat.leb 5 10 = true
  ∧ status_ok (page [uptown; midtown] None) = true
  ∧ results (page [uptown; midtown] None) = Some (uptown :: [midtown])
  ∧ Endpoints.get_area_restaurant_analysis key 40.7128 (-74.006) 5
      (Reply (page [uptown; midtown] None)) []
      (AnalysisRequests.AreaContent (Some "Plenty to eat."))
    = Some (Raise (HTTPException 500 "Internal server error")).
Proof.
  repeat (split; [reflexivity|]).
  exact (AreaFacts.get_area_restaurant_analysis_fails key 40.7128 (-74.006) 5
           (page [uptown; midtown] None) uptown [midtown] []
           (AnalysisRequests.AreaContent (Some "Plenty to eat."))
           eq_refl eq_refl eq_refl eq_refl eq_refl).
Defined.

(** *** Locations *)

(** An IP service that reports no error and no coordinates, and a geocoder
    that cannot be reached. *)
Definition blank_ip : LocationService.ip_body :=
  {| LocationService.ip_error := false;
     LocationService.ip_latitude := None;
     LocationService.ip_longitude := None;
     LocationService.ip_city := None;
     LocationService.ip_region := None;
     LocationService.ip_country_name := None;
     LocationService.ip_postal := None |}.

Definition offline : LocationService.services :=
  {| LocationService.reverse_reply := LocationService.TransportError;
     LocationService.geocode_reply := LocationService.TransportError;
     LocationService.ip_reply := LocationService.Reply blank_ip |}.

Lemma find_restaurants_auto_location_without_coordinates_witness :
  (∀ a, Some "Main Street" = Some a → a ≠ "" →
        LocationService.geocode_address key a (LocationService.geocode_reply offline) = None)
  ∧ LocationService.ip_reply offline = LocationService.Reply blank_ip
  ∧ LocationService.ip_error blank_ip = false
  ∧ LocationService.ip_latitude blank_ip = None
  ∧ LocationService.ip_longitude blank_ip = None
  ∧ Endpoints.find_restaurants_auto_location key offline (Some "203.0.113.7")
      (Some "Main Street") 10 0 60 (Reply (page [uptown] None)) []
    = find_restaurants key 0 0 10 0 60 (Reply (page [uptown] None)) [].
Proof.
  assert (H : ∀ a, Some "Main Street" = Some a → a ≠ "" →
                   LocationService.geocode_address key a (LocationService.geocode_reply offline)
                   = None) by (by intros a [= <-]).
  split; [exact H|]. repeat (split; [reflexivity|]).
  exact (EndpointFacts.find_restaurants_auto_location_without_coordinates key offline
           (Some "203.0.113.7") (Some "Main Street") blank_ip 10 0 60
           (Reply (page [uptown] None)) [] H eq_refl eq_refl eq_refl eq_refl).
Defined.

Definition null_island : LocationService.LocationData :=
  {| LocationService.latitude := 0;
     LocationService.longitude := 0;
     LocationService.accuracy := None;
     LocationService.city := None;
     LocationService.state := None;
     LocationService.country := None;
     LocationService.zip_code := None;
     LocationService.source := "ip" |}.

Lemma get_user_location_source_witness :
  LocationService.get_user_location key offline None (Some "Main Street") (Some 40.7128%float) None
  = Some null_island
  ∧ ((LocationService.source null_island = "user_provided"
      ∧ Some 40.7128%float = Some (LocationService.latitude null_island)
      ∧ None = Some (LocationService.longitude null_island))
     ∨ (LocationService.source null_island = "geocoded_address"
        ∧ (Some 40.7128%float = None ∨ @None float = None)
        ∧ ∃ a, Some "Main Street" = Some a ∧ a ≠ ""
               ∧ LocationService.geocode_address key a (LocationService.geocode_reply offline)
                 = Some null_island)
     ∨ (LocationService.source null_island = "ip"
        ∧ (Some 40.7128%float = None ∨ @None float = None)
        ∧ LocationService.get_location_from_ip (LocationService.ip_reply offline)
          = Some null_island
        ∧ ∀ a, Some "Main Street" = Some a → a ≠ "" →
               LocationService.geocode_address key a (LocationService.geocode_reply offline)
               = None)).
Proof.
  assert (H1 : LocationService.get_user_location key offline None (Some "Main Street")
                 (Some 40.7128%float) None = Some null_island) by reflexivity.
  split; [exact H1|].
  exact (ResolverFacts.get_user_location_source key offline None (Some "Main Street")
           (Some 40.7128%float) None null_island H1).
Defined.

(** A geocoding answer whose components name the city twice. *)
Definition component (ts : list string) (long short : string)
    : LocationService.address_component :=
  {| LocationService.types := Some ts;
     LocationService.long_name := Some long;
     LocationService.short_name := Some short |}.

Definition springfield : LocationService.geocode_result :=
  {| LocationService.formatted_address := Some "Springfield, IL 62701, USA";
     LocationService.result_place_id := Some "p2";
     LocationService.geometry_location := Some (Some (NFloat 39.8), Some (NFloat (-89.64)));
     LocationService.address_components :=
       Some [component ["locality"; "political"] "Springfield" "Springfield";
             component ["administrative_area_level_1"; "political"] "Illinois" "IL";
             component ["country"; "political"] "United States" "US";
             component ["postal_code"] "62701" "62701";
             component ["locality"; "postal_code"] "Capital Township" "Capital"] |}.

Definition springfield_body : LocationService.geocode_body :=
  {| LocationService.geocode_status := Some "OK";
     LocationService.geocode_results := Some [springfield] |}.

Lemma geocode_address_components_witness :
  ∃ loc,
    LocationService.geocode_address key "Springfield" (LocationService.Reply springfield_body)
    = Some loc
    ∧ LocationService.city loc = Some "Capital Township"
    ∧ LocationService.zip_code loc = Some "62701"
    ∧ ∃ r rest la lo,
        LocationService.geocode_results springfield_body = Some (r :: rest)
        ∧ LocationService.geometry_location r = Some (Some la, Some lo)
        ∧ number_to_float la = Ok (LocationService.latitude loc)
        ∧ number_to_float lo = Ok (LocationService.longitude loc)
        ∧ LocationService.city loc
          = ResolverFacts.last_name ResolverFacts.sets_city LocationService.long_name
              (default [] (LocationService.address_components r))
        ∧ LocationService.state loc
          = ResolverFacts.last_name ResolverFacts.sets_state LocationService.short_name
              (default [] (LocationService.address_components r))
        ∧ LocationService.country loc
          = ResolverFacts.last_name ResolverFacts.sets_country LocationService.long_name
              (default [] (LocationService.address_components r))
        ∧ LocationService.zip_code loc
          = ResolverFacts.last_name ResolverFacts.sets_zip_code LocationService.long_name
              (default [] (LocationService.address_components r)).
Proof.
  eexists.
  match goal with
  | |- ?A ∧ _ => assert (H1 : A) by (vm_compute; reflexivity)
  end.
  split; [exact H1|]. split; [reflexivity|]. split; [reflexivity|].
  exact (ResolverFacts.geocode_address_components key "Springfield" springfield_body _ H1).
Defined.

Lemma validate_coordinates_finite_numbers_witness :
  LocationService.validate_coordinates 40.7128 (-74.006) = true
  ∧ PrimFloat.is_finite 40.7128 = true ∧ PrimFloat.is_finite (-74.006) = true.
Proof.
  split; [reflexivity|].
  exact (ResolverFacts.validate_coordinates_finite_numbers 40.7128 (-74.006) eq_refl).
Defined.

(** *** Validation *)

(** An answer of the language model with a rating, an ill-typed summary,
    a key the analysis does not know, and a confidence out of range. *)
Definition answer : gmap string value :=
  list_to_map
    [("overall_rating", VStr "Good");
     ("overall_summary", VInt 3);
     ("key_highlights", VList [VStr "Fresh pasta"]);
     ("chef", VStr "unknown");
     ("confidence_score", VFloat 1.5)].

Definition validated_answer : gmap string value :=
  list_to_map
    [("overall_rating", VStr "Good");
     ("overall_summary", VStr "Not available");
     ("recommendation", VStr "Not available");
     ("price_range_assessment", VStr "Not available");
     ("key_highlights", VList [VStr "Fresh pasta"]);
     ("potential_concerns", VList []);
     ("best_for", VList []);
     ("food_quality", Validation.default_block);
     ("service_quality", Validation.default_block);
     ("atmosphere", Validation.default_block);
     ("value_for_money", Validation.default_block);
     ("chef", VStr "unknown");
     ("confidence_score", VFloat 1)].

Lemma validate_answer (B : PyBuiltins) :
  Validation._validate_analysis_dict answer = Ok validated_answer.
Proof. by_evaluation. Qed.

Lemma validate_keeps_well_typed_witness :
  ∃ d d' k v, ∀ B : PyBuiltins,
    Validation._validate_analysis_dict d = Ok d'
    ∧ d !! k = Some v
    ∧ is_Some (d' !! k)
    ∧ (k ≠ "confidence_score" → AnalysisFacts.wanted_type k v → d' !! k = Some v).
Proof.
  exists answer, validated_answer, "chef", (VStr "unknown"). intros B.
  assert (H2 : answer !! "chef" = Some (VStr "unknown")) by by_evaluation.
  split; [exact (validate_answer B)|]. split; [exact H2|].
  exact (AnalysisFacts.validate_keeps_well_typed answer validated_answer "chef"
           (VStr "unknown") (validate_answer B) H2).
Defined.

Lemma validate_idempotent_witness :
  ∃ d d', ∀ B : PyBuiltins,
    Validation._validate_analysis_dict d = Ok d'
    ∧ Validation._validate_analysis_dict d' = Ok d'.
Proof.
  exists answer, validated_answer. intros B.
  split; [exact (validate_answer B)|].
  exact (AnalysisFacts.validate_idempotent answer validated_answer (validate_answer B)).
Defined.

Lemma analysis_of_payload_fields_witness :
  ∃ d v, ∀ B : PyBuiltins,
    d !! "confidence_score" = Some v
    ∧ py_float v ≠ Raise OverflowError
    ∧ (∀ k l, k ∈ Validation.list_fields → d !! k = Some (VList l) →
              is_Some (mapM Validation.element_str l))
    ∧ AnalysisFacts.expected_str d "overall_rating" = "Good"
    ∧ AnalysisFacts.expected_str d "overall_summary" = "Not available"
    ∧ AnalysisFacts.expected_list d "key_highlights" = Some ["Fresh pasta"]
    ∧ AnalysisFacts.expected_confidence v = 1%float
    ∧ ∃ a, Validation.analysis_of_payload (VDict d) = Some a
        ∧ AnalysisModel.overall_rating a = AnalysisFacts.expected_str d "overall_rating"
        ∧ AnalysisModel.overall_summary a = AnalysisFacts.expected_str d "overall_summary"
        ∧ AnalysisModel.recommendation a = AnalysisFacts.expected_str d "recommendation"
        ∧ AnalysisModel.price_range_assessment a
          = AnalysisFacts.expected_str d "price_range_assessment"
        ∧ AnalysisModel.food_quality a = AnalysisFacts.expected_block d "food_quality"
        ∧ AnalysisModel.service_quality a = AnalysisFacts.expected_block d "service_quality"
        ∧ AnalysisModel.atmosphere a = AnalysisFacts.expected_block d "atmosphere"
        ∧ AnalysisModel.value_for_money a = AnalysisFacts.expected_block d "value_for_money"
        ∧ Some (AnalysisModel.key_highlights a)
          = AnalysisFacts.expected_list d "key_highlights"
        ∧ Some (AnalysisModel.potential_concerns a)
          = AnalysisFacts.expected_list d "potential_concerns"
        ∧ Some (AnalysisModel.best_for a) = AnalysisFacts.expected_list d "best_for"
        ∧ AnalysisModel.confidence_score a = AnalysisFacts.expected_confidence v.
Proof.
  exists answer, (VFloat 1.5). intros B.
  assert (H1 : answer !! "confidence_score" = Some (VFloat 1.5)) by by_evaluation.
  assert (H2 : py_float (VFloat 1.5) ≠ Raise OverflowError) by discriminate.
  assert (H3 : ∀ k l, k ∈ Validation.list_fields → answer !! k = Some (VList l) →
                      is_Some (mapM Validation.element_str l)).
  { intros k l Hk. unfold Validation.list_fields in Hk.
    repeat (apply elem_of_cons in Hk as [->|Hk]); [..|by apply elem_of_nil in Hk].
    - assert (Hl : answer !! "key_highlights" = Some (VList [VStr "Fresh pasta"]))
        by by_evaluation.
      rewrite Hl. intros [= <-]. by eexists.
    - assert (Hl : answer !! "potential_concerns" = None) by by_evaluation.
      by rewrite Hl.
    - assert (Hl : answer !! "best_for" = None) by by_evaluation.
      by rewrite Hl. }
  split; [exact H1|]. split; [exact H2|]. split; [exact H3|].
  split; [by_evaluation|]. split; [by_evaluation|]. split; [by_evaluation|].
  split; [by_evaluation|].
  exact (AnalysisFacts.analysis_of_payload_fields answer (VFloat 1.5) H1 H2 H3).
Defined.

(** *** The analysis of a restaurant *)

Lemma analyze_single_restaurant_confidence_witness :
  ∃ d, ∀ B : PyBuiltins, ∃ a,
    Validation.analyze_single_restaurant d Validation.NoClient = Ok a
    ∧ PrimFloat.leb 0 (AnalysisModel.confidence_score a) = true
    ∧ PrimFloat.leb (AnalysisModel.confidence_score a) 1 = true.
Proof.
  exists {["rating" := VFloat 4.3]}. intros B. eexists.
  match goal with
  | |- ?A ∧ _ => assert (H1 : A) by reflexivity
  end.
  split; [exact H1|].
  exact (AnalysisFacts.analyze_single_restaurant_confidence {["rating" := VFloat 4.3]}
           Validation.NoClient _ H1).
Defined.

Lemma backend_fallback_succeeds_iff_witness :
  ∃ d, ∀ B : PyBuiltins,
    formats (dict_get d "total_ratings" (VInt 0)) = true
    ∧ is_ok (BackendAnalysisService.create_fallback_analysis d)
      = AnalysisFacts.scorable
          (BackendAnalysisService.coerce_rating (dict_get d "rating" (VInt 0)))
        && is_ok (BackendAnalysisService.price_description
                    (dict_get d "price_level" (VInt 2)))
        && AnalysisFacts.score_prints
             (BackendAnalysisService.coerce_rating (dict_get d "rating" (VInt 0))).
Proof.
  exists (<["total_ratings" := VInt 1200]> (<["price_level" := VStr "3"]> {["rating" := VInt 4]})).
  intros B.
  match goal with
  | |- ?A ∧ _ => assert (H1 : A) by (vm_compute; reflexivity)
  end.
  split; [exact H1|].
  exact (AnalysisFacts.backend_fallback_succeeds_iff
           (<["total_ratings" := VInt 1200]>
              (<["price_level" := VStr "3"]> {["rating" := VInt 4]})) H1).
Defined.

(** Built-ins that take the superscript two for a digit and for no
    number, as CPython does. *)
Definition superscript_builtins : PyBuiltins :=
  {| float_repr := λ _, "0.0";
     container_repr := λ _, "[]";
     int_max_str_digits := 4300;
     unicode_isdigit := λ s, String.eqb s "²";
     unicode_int := λ _, None;
     unicode_lower := λ s, s;
     float_of_str := λ _, None;
     json_loads := λ _, None;
     coerce_to_str := λ _, None |}.

(** A price level of ["²"], and a rating of 4300 digits under the bound of
    4300: the first version returns, the backend raises [ValueError]. *)
Example create_fallback_analysis_backend_refuses :
  (BackendAnalysisService.create_fallback_analysis (B := superscript_builtins)
     (<["price_level" := VStr "²"]> (FallbackFacts.rated (VInt 4))) = Raise ValueError
   ∧ is_ok (AnalysisService.create_fallback_analysis (B := superscript_builtins)
              (<["price_level" := VStr "²"]> (FallbackFacts.rated (VInt 4)))) = true)
  ∧ (BackendAnalysisService.create_fallback_analysis (B := superscript_builtins)
       (FallbackFacts.rated (VInt (5 * 10 ^ 4299))) = Raise ValueError
     ∧ is_ok (AnalysisService.create_fallback_analysis (B := superscript_builtins)
                (FallbackFacts.rated (VInt (5 * 10 ^ 4299)))) = true
     ∧ formats (B := superscript_builtins) (VInt (5 * 10 ^ 4299)) = true).
Proof.
  split.
  - apply FallbackFacts.create_fallback_analysis_price_level_refused; by vm_compute.
  - destruct (FallbackFacts.str_refused_4301_digits superscript_builtins eq_refl)
      as [Hrating Hscore].
    destruct (FallbackFacts.create_fallback_analysis_score_refused
                superscript_builtins _ Hscore) as [Hb Ha].
    split; [exact Hb|]. split; [exact Ha|].
    unfold formats. by rewrite Hrating.
Qed.

(** Built-ins that decode the text of an empty object and nothing else,
    with the bound on digits CPython has by default. *)
Definition empty_object_builtins : PyBuiltins :=
  {| float_repr := λ _, "0.0";
     container_repr := λ _, "[]";
     int_max_str_digits := 4300;
     unicode_isdigit := λ _, false;
     unicode_int := λ _, None;
     unicode_lower := λ s, s;
     float_of_str := λ _, None;
     json_loads := λ s, if String.eqb s "{}" then Some (VDict ∅) else None;
     coerce_to_str := λ _, None |}.

Lemma analysis_of_text_fenced_witness :
  json_loads (PyBuiltins := empty_object_builtins) "{}" = Some (VDict ∅)
  ∧ Validation.analysis_of_text (B := empty_object_builtins) (FenceFacts.fenced "{}")
    = Validation.analysis_of_payload (B := empty_object_builtins) (VDict ∅).
Proof.
  split; [reflexivity|].
  exact (FenceFacts.analysis_of_text_fenced (B := empty_object_builtins) "{}" (VDict ∅) eq_refl).
Defined.



End Samples.
